(** * HUTformer: a shallow embedding of [src/HUTformer.py]

    The Python module defines a forecasting network on top of PyTorch and
    einops.  This development models

    - dense tensors as a shape (a list of dimension sizes) together with
      their elements in row-major order;
    - Python exceptions as an error result;
    - the global random generator (dropout masks, initialisers) as a state
      threaded through every call that draws from it;
    - floating point numbers as rationals.  The transcendental functions of
      [math] and [torch] (exp, log, sqrt, erf, ...) are the fields of the
      class [FloatOps]; NaN, infinities and rounding are outside this model,
      and device placement ([.cuda()]) is not represented;
    - the truncated normal initialiser a second time on IEEE 754 values
      (module [IEEE]), where its result depends on overflow and NaN.

    Definitions come first, in the order of the source file; the facts
    proved about them follow. *)

From Stdlib Require Import String Ascii.
From Stdlib Require Import List ZArith QArith Qminmax Qround Qabs.
From Stdlib Require Import Lia ZifyNat ZifyBool Bool Arith.
From Stdlib Require SpecFloat.
Import ListNotations.

Close Scope Q_scope.
Open Scope list_scope.
Open Scope nat_scope.

Ltac Zify.zify_post_hook ::= Z.to_euclidean_division_equations.

(** ** Exceptions and the two monads *)

Inductive exn : Type :=
| AssertionError
| ZeroDivisionError
| RuntimeError
| EinopsError
| IndexError
| ValueError
| TypeError
| AttributeError.

Inductive result (A : Type) : Type :=
| Ok (a : A)
| Raise (e : exn).

Arguments Ok {A} a.
Arguments Raise {A} e.

Definition bindR {A B : Type} (c : result A) (k : A -> result B) : result B :=
  match c with
  | Ok a => k a
  | Raise e => Raise e
  end.

Notation "'let?' x ':=' c 'in' k" := (bindR c (fun x => k))
  (at level 10, x pattern, c at level 100, k at level 200).

Definition guard (b : bool) (e : exn) : result unit :=
  if b then Ok tt else Raise e.

Definition is_ok {A : Type} (c : result A) : bool :=
  match c with
  | Ok _ => true
  | Raise _ => false
  end.

(** The source of randomness behind [tensor.uniform_] and [nn.Dropout]. *)
Class RandomGen : Type := {
  rng : Type;
  uniform_draw : Q -> Q -> rng -> Q * rng;
  bernoulli_draw : Q -> rng -> bool * rng
}.

(** The functions of [math], [numpy] and [torch] on floating point numbers
    that have no rational counterpart. *)
Class FloatOps : Type := {
  f_exp : Q -> Q;
  f_log : Q -> Q;
  f_log2 : Q -> Q;
  f_sqrt : Q -> Q;
  f_erf : Q -> Q;
  f_erfinv : Q -> Q
}.

(** What the development needs to know about them. *)
Class FloatLaws (F : FloatOps) : Prop := {
  f_sqrt_nonneg : forall x : Q, (0 <= f_sqrt x)%Q;
  f_sqrt_pos : forall x : Q, (0 < x)%Q -> (0 < f_sqrt x)%Q;
  f_erf_mono : forall x y : Q, (x <= y)%Q -> (f_erf x <= f_erf y)%Q
}.

Section StateMonad.
Context {G : RandomGen}.

Definition M (A : Type) : Type := rng -> result (A * rng).

Definition ret {A : Type} (a : A) : M A := fun g => Ok (a, g).

Definition bind {A B : Type} (c : M A) (k : A -> M B) : M B :=
  fun g =>
    match c g with
    | Ok (a, g') => k a g'
    | Raise e => Raise e
    end.

Definition lift {A : Type} (c : result A) : M A :=
  fun g =>
    match c with
    | Ok a => Ok (a, g)
    | Raise e => Raise e
    end.

End StateMonad.

Notation "x <- c ;; k" := (bind c (fun x => k))
  (at level 61, c at next level, right associativity).
Notation "x <~ c ;; k" := (bind (lift c) (fun x => k))
  (at level 61, c at next level, right associativity).

(** ** Tensors *)

Record tensor (A : Type) : Type := mkTensor {
  shape : list nat;
  data : list A
}.

Arguments mkTensor {A} shape data.
Arguments shape {A} t.
Arguments data {A} t.

Class Zero (A : Type) : Type := zero : A.
#[export] Instance Zero_Q : Zero Q := 0%Q.
#[export] Instance Zero_Z : Zero Z := 0%Z.

Definition numel (s : list nat) : nat := fold_right Nat.mul 1 s.

Definition rank {A : Type} (t : tensor A) : nat := length (shape t).

(** Row-major offset of a multi-index, and its inverse. *)
Fixpoint ravel (s idx : list nat) : nat :=
  match s, idx with
  | _ :: s', i :: idx' => i * numel s' + ravel s' idx'
  | _, _ => 0
  end.

Fixpoint unravel (s : list nat) (k : nat) : list nat :=
  match s with
  | [] => []
  | _ :: s' => (k / numel s') :: unravel s' (k mod numel s')
  end.

Definition in_range (s idx : list nat) : Prop := Forall2 lt idx s.

Definition get {A : Type} `{Zero A} (t : tensor A) (idx : list nat) : A :=
  nth (ravel (shape t) idx) (data t) zero.

Definition tabulate {A : Type} (s : list nat) (f : list nat -> A) : tensor A :=
  mkTensor s (map (fun k => f (unravel s k)) (seq 0 (numel s))).

Definition ix (idx : list nat) (k : nat) : nat := nth k idx 0.

Definition list_eqb (l1 l2 : list nat) : bool :=
  if list_eq_dec Nat.eq_dec l1 l2 then true else false.

Definition remove_at {A : Type} (k : nat) (l : list A) : list A :=
  firstn k l ++ skipn (S k) l.

Definition insert_at {A : Type} (k : nat) (v : A) (l : list A) : list A :=
  firstn k l ++ v :: skipn k l.

Definition set_at {A : Type} (k : nat) (v : A) (l : list A) : list A :=
  firstn k l ++ v :: skipn (S k) l.

Definition sumQ (l : list Q) : Q := fold_right Qplus 0%Q l.

Definition sumZ (l : list Z) : Z := fold_right Z.add 0%Z l.

(** A Python index [i] into an axis of size [n]: negative indices count
    from the end, anything outside [-n, n) raises. *)
Definition norm_index (i : Z) (n : nat) : result nat :=
  if ((0 <=? i) && (i <? Z.of_nat n))%Z then Ok (Z.to_nat i)
  else if ((i <? 0) && (- Z.of_nat n <=? i))%Z then Ok (Z.to_nat (i + Z.of_nat n))
  else Raise IndexError.

Section TensorOps.
Context {A : Type} `{Zero A}.

(** [x.select(dim, i)], the meaning of an integer in a subscript. *)
Definition select (dim : nat) (i : Z) (x : tensor A) : result (tensor A) :=
  match nth_error (shape x) dim with
  | None => Raise IndexError
  | Some n =>
      let? i' := norm_index i n in
      Ok (tabulate (remove_at dim (shape x))
            (fun idx => get x (insert_at dim i' idx)))
  end.

(** [x[..., start:, ...]] on axis [dim], for [start >= 0]. *)
Definition slice_from (dim start : nat) (x : tensor A) : result (tensor A) :=
  match nth_error (shape x) dim with
  | None => Raise IndexError
  | Some n =>
      Ok (tabulate (set_at dim (n - start) (shape x))
            (fun idx => get x (set_at dim (ix idx dim + start) idx)))
  end.

Fixpoint find_pos (j : nat) (perm : list nat) : nat :=
  match perm with
  | [] => 0
  | p :: perm' => if p =? j then 0 else S (find_pos j perm')
  end.

Definition is_permutation (perm : list nat) (r : nat) : bool :=
  (length perm =? r) && forallb (fun j => existsb (Nat.eqb j) perm) (seq 0 r).

(** [x.permute(perm)]: axis [k] of the result is axis [perm[k]] of [x]. *)
Definition permute (perm : list nat) (x : tensor A) : result (tensor A) :=
  if is_permutation perm (rank x) then
    Ok (tabulate (map (fun p => nth p (shape x) 0) perm)
          (fun idx => get x (map (fun j => ix idx (find_pos j perm)) (seq 0 (rank x)))))
  else Raise RuntimeError.

(** [x.transpose(d1, d2)] for non-negative axes. *)
Definition transpose (d1 d2 : nat) (x : tensor A) : result (tensor A) :=
  permute (map (fun j => if j =? d1 then d2 else if j =? d2 then d1 else j)
             (seq 0 (rank x))) x.

(** The sizes [x.reshape(target)] resolves to; at most one entry of
    [target] may be [-1]. *)
Definition infer_shape (n : nat) (target : list Z) : result (list nat) :=
  if existsb (fun d => d <? -1)%Z target then Raise RuntimeError
  else
    let known := numel (map Z.to_nat (filter (fun d => 0 <=? d)%Z target)) in
    match length (filter (fun d => d =? -1)%Z target) with
    | 0 => if known =? n then Ok (map Z.to_nat target) else Raise RuntimeError
    | 1 =>
        if known =? 0 then Raise RuntimeError
        else if n mod known =? 0 then
          Ok (map (fun d => if (d =? -1)%Z then n / known else Z.to_nat d) target)
        else Raise RuntimeError
    | _ => Raise RuntimeError
    end.

(** [x.reshape(target)] and [x.view(target)]: the elements keep their
    row-major order.  (Every [view] of the source is taken of a contiguous
    tensor, where it agrees with [reshape].) *)
Definition reshape (target : list Z) (x : tensor A) : result (tensor A) :=
  let? s := infer_shape (numel (shape x)) target in
  Ok (mkTensor s (data x)).

(** [x.unsqueeze(dim)]. *)
Definition unsqueeze (dim : Z) (x : tensor A) : result (tensor A) :=
  let r := Z.of_nat (rank x) in
  if ((- (r + 1) <=? dim) && (dim <=? r))%Z then
    let d := Z.to_nat (if (dim <? 0)%Z then dim + r + 1 else dim)%Z in
    Ok (mkTensor (insert_at d 1 (shape x)) (data x))
  else Raise IndexError.

(** [x.repeat(reps)]. *)
Definition repeat_ (reps : list nat) (x : tensor A) : result (tensor A) :=
  if length reps <? rank x then Raise RuntimeError
  else
    let pad := length reps - rank x in
    let padded := repeat 1 pad ++ shape x in
    Ok (tabulate (map (fun '(r, d) => r * d) (combine reps padded))
          (fun idx =>
             get x (skipn pad (map (fun '(i, d) => i mod d) (combine idx padded))))).

(** Which operand of a concatenation along the last axis holds column [j]. *)
Fixpoint cat_pick (xs : list (tensor A)) (pre : list nat) (j : nat) : A :=
  match xs with
  | [] => zero
  | x :: xs' =>
      let w := last (shape x) 0 in
      if j <? w then get x (pre ++ [j]) else cat_pick xs' pre (j - w)
  end.

(** [torch.cat(xs, dim=-1)] for operands of one and the same rank. *)
Definition cat_last (xs : list (tensor A)) : result (tensor A) :=
  match xs with
  | [] => Raise RuntimeError
  | x0 :: _ =>
      let lead := removelast (shape x0) in
      if (0 <? rank x0)
         && forallb (fun x => (0 <? rank x) && list_eqb (removelast (shape x)) lead) xs
      then
        let w := fold_right Nat.add 0 (map (fun x => last (shape x) 0) xs) in
        Ok (tabulate (lead ++ [w])
              (fun idx => cat_pick xs (removelast idx) (last idx 0)))
      else Raise RuntimeError
  end.

(** [torch.stack([x, y])] along a new leading axis. *)
Definition stack2 (x y : tensor A) : result (tensor A) :=
  if list_eqb (shape x) (shape y) then
    Ok (tabulate (2 :: shape x)
          (fun idx => if ix idx 0 =? 0 then get x (tl idx) else get y (tl idx)))
  else Raise RuntimeError.

(** [torch.meshgrid([x, y])] (the default 'ij' indexing) of two vectors. *)
Definition meshgrid2 (x y : tensor A) : result (tensor A * tensor A) :=
  match shape x, shape y with
  | [n], [m] =>
      Ok (tabulate [n; m] (fun idx => get x [ix idx 0]),
          tabulate [n; m] (fun idx => get y [ix idx 1]))
  | _, _ => Raise RuntimeError
  end.

(** Broadcasting of two shapes, aligned at their last axes. *)
Fixpoint bc_rev (r1 r2 : list nat) : result (list nat) :=
  match r1, r2 with
  | [], r => Ok r
  | r, [] => Ok r
  | a :: r1', b :: r2' =>
      let? r := bc_rev r1' r2' in
      if a =? b then Ok (a :: r)
      else if a =? 1 then Ok (b :: r)
      else if b =? 1 then Ok (a :: r)
      else Raise RuntimeError
  end.

Definition bc_shape (s1 s2 : list nat) : result (list nat) :=
  let? r := bc_rev (rev s1) (rev s2) in Ok (rev r).

(** The index of an operand of shape [s] that a result index reads. *)
Definition bc_index (s idx : list nat) : list nat :=
  map (fun '(d, i) => if d =? 1 then 0 else i)
    (combine s (skipn (length idx - length s) idx)).

(** An elementwise binary operator with broadcasting. *)
Definition binop (f : A -> A -> A) (x y : tensor A) : result (tensor A) :=
  let? s := bc_shape (shape x) (shape y) in
  Ok (tabulate s
        (fun idx => f (get x (bc_index (shape x) idx)) (get y (bc_index (shape y) idx)))).

Definition map_t (f : A -> A) (x : tensor A) : tensor A :=
  mkTensor (shape x) (map f (data x)).

(** The vector along the last axis at the leading index [pre]. *)
Definition row (x : tensor A) (pre : list nat) : list A :=
  map (fun j => get x (pre ++ [j])) (seq 0 (last (shape x) 0)).

(** A function applied to every vector along the last axis. *)
Definition map_rows (f : list A -> list A) (x : tensor A) : tensor A :=
  tabulate (shape x) (fun idx => nth (last idx 0) (f (row x (removelast idx))) zero).

(** An in-place update of [x[..., k]], as in [x[:, :, k] += c]. *)
Definition update_last (k : nat) (f : A -> A) (x : tensor A) : tensor A :=
  tabulate (shape x) (fun idx => if last idx 0 =? k then f (get x idx) else get x idx).

End TensorOps.

(** ** Numeric operators of [torch] and [torch.nn.functional] *)

Definition bdim (a b : nat) : result nat :=
  if a =? b then Ok a
  else if a =? 1 then Ok b
  else if b =? 1 then Ok a
  else Raise RuntimeError.

Definition bix (d i : nat) : nat := if d =? 1 then 0 else i.

Definition full {A : Type} (s : list nat) (v : A) : tensor A :=
  mkTensor s (repeat v (numel s)).

(** A Python int used as a tensor size. *)
Definition to_dim (z : Z) : result nat :=
  if (z <? 0)%Z then Raise RuntimeError else Ok (Z.to_nat z).

(** [torch.arange(lo, hi)] with integer bounds and step one. *)
Definition arange (lo hi : Z) : result (tensor Z) :=
  if (hi <? lo)%Z then Raise RuntimeError
  else
    let n := Z.to_nat (hi - lo) in
    Ok (tabulate [n] (fun idx => (lo + Z.of_nat (ix idx 0))%Z)).

Definition to_float (x : tensor Z) : tensor Q :=
  mkTensor (shape x) (map inject_Z (data x)).

Definition sumZ_last (x : tensor Z) : tensor Z :=
  tabulate (removelast (shape x)) (fun idx => sumZ (row x idx)).

Definition Qsign (x : Q) : Q :=
  match Qcompare x 0 with
  | Lt => (-1)%Q
  | Eq => 0%Q
  | Gt => 1%Q
  end.

Section NumericOps.
Context {F : FloatOps} {G : RandomGen}.

(** [F.linear(x, w, b)]: [x @ w.T + b] on the last axis. *)
Definition linear (x w : tensor Q) (b : option (tensor Q)) : result (tensor Q) :=
  match shape w with
  | [o; i] =>
      if (0 <? rank x) && (last (shape x) 0 =? i)
         && match b with
            | None => true
            | Some bt => list_eqb (shape bt) [o]
            end
      then
        Ok (tabulate (removelast (shape x) ++ [o])
              (fun idx =>
                 let pre := removelast idx in
                 let j := last idx 0 in
                 (sumQ (map (fun k => get x (pre ++ [k]) * get w [j; k]) (seq 0 i))
                  + match b with
                    | None => 0
                    | Some bt => get bt [j]
                    end)%Q))
      else Raise RuntimeError
  | _ => Raise RuntimeError
  end.

(** [x @ y] for operands of rank two or more (the only use in the source is
    between rank-four tensors); leading axes broadcast. *)
Definition matmul (x y : tensor Q) : result (tensor Q) :=
  let rx := rank x in
  let ry := rank y in
  if (2 <=? rx) && (2 <=? ry) then
    let sx := firstn (rx - 2) (shape x) in
    let sy := firstn (ry - 2) (shape y) in
    let n := nth (rx - 2) (shape x) 0 in
    let m := nth (rx - 1) (shape x) 0 in
    let m' := nth (ry - 2) (shape y) 0 in
    let p := nth (ry - 1) (shape y) 0 in
    if m =? m' then
      let? bs := bc_shape sx sy in
      let rb := length bs in
      Ok (tabulate (bs ++ [n; p])
            (fun idx =>
               let bidx := firstn rb idx in
               let i := ix idx rb in
               let j := ix idx (S rb) in
               sumQ (map (fun k => (get x (bc_index sx bidx ++ [i; k])
                                    * get y (bc_index sy bidx ++ [k; j]))%Q)
                       (seq 0 m))))
    else Raise RuntimeError
  else Raise RuntimeError.

(** [torch.einsum("blhe,bshe->bhls", q, k)]. *)
Definition einsum_blhe_bshe_bhls (q k : tensor Q) : result (tensor Q) :=
  match shape q, shape k with
  | [b1; l; h1; e1], [b2; s; h2; e2] =>
      let? b := bdim b1 b2 in
      let? h := bdim h1 h2 in
      let? e := bdim e1 e2 in
      Ok (tabulate [b; h; l; s]
            (fun idx =>
               let bi := ix idx 0 in
               let hi := ix idx 1 in
               let li := ix idx 2 in
               let si := ix idx 3 in
               sumQ (map (fun ei => (get q [bix b1 bi; li; bix h1 hi; bix e1 ei]
                                     * get k [bix b2 bi; si; bix h2 hi; bix e2 ei])%Q)
                       (seq 0 e))))
  | _, _ => Raise RuntimeError
  end.

(** [torch.einsum("bhls,bshd->blhd", a, v)]. *)
Definition einsum_bhls_bshd_blhd (a v : tensor Q) : result (tensor Q) :=
  match shape a, shape v with
  | [b1; h1; l; s1], [b2; s2; h2; d] =>
      let? b := bdim b1 b2 in
      let? h := bdim h1 h2 in
      let? s := bdim s1 s2 in
      Ok (tabulate [b; l; h; d]
            (fun idx =>
               let bi := ix idx 0 in
               let li := ix idx 1 in
               let hi := ix idx 2 in
               let di := ix idx 3 in
               sumQ (map (fun si => (get a [bix b1 bi; bix h1 hi; li; bix s1 si]
                                     * get v [bix b2 bi; bix s2 si; bix h2 hi; di])%Q)
                       (seq 0 s))))
  | _, _ => Raise RuntimeError
  end.

(** [torch.softmax(x, dim=-1)] on one vector. *)
Definition softmax_row (r : list Q) : list Q :=
  let es := map f_exp r in
  map (fun e => (e / sumQ es)%Q) es.

Definition softmax (x : tensor Q) : tensor Q := map_rows softmax_row x.

(** [F.normalize(x, dim=-1)] on one vector: division by the Euclidean norm,
    bounded below by [eps = 1e-12]. *)
Definition normalize_row (r : list Q) : list Q :=
  let n := Qmax (f_sqrt (sumQ (map (fun v => (v * v)%Q) r))) (1 # 1000000000000) in
  map (fun v => (v / n)%Q) r.

Definition normalize (x : tensor Q) : tensor Q := map_rows normalize_row x.

Definition sigmoid (x : Q) : Q := (1 / (1 + f_exp (- x)))%Q.

Definition relu (x : Q) : Q := Qmax 0 x.

(** [table[index]] for an integer tensor [index]: rows of [table] are picked
    by the entries of [index], each of which must lie in [-n, n). *)
Definition gather_rows (table : tensor Q) (index : tensor Z) : result (tensor Q) :=
  match shape table with
  | [] => Raise IndexError
  | n :: rest =>
      if forallb (fun i => (- Z.of_nat n <=? i) && (i <? Z.of_nat n))%Z (data index)
      then
        Ok (tabulate (shape index ++ rest)
              (fun idx =>
                 let r := rank index in
                 let i := get index (firstn r idx) in
                 let i' := Z.to_nat (if i <? 0 then i + Z.of_nat n else i)%Z in
                 get table (i' :: skipn r idx)))
      else Raise IndexError
  end.

Fixpoint draw_uniform (lo hi : Q) (n : nat) (g : rng) : list Q * rng :=
  match n with
  | 0 => ([], g)
  | S n' =>
      let (v, g1) := uniform_draw lo hi g in
      let (vs, g2) := draw_uniform lo hi n' g1 in
      (v :: vs, g2)
  end.

(** [tensor.uniform_(lo, hi)]. *)
Definition uniform_ (lo hi : Q) (x : tensor Q) : M (tensor Q) :=
  fun g =>
    if Qle_bool lo hi then
      let (vs, g') := draw_uniform lo hi (numel (shape x)) g in
      Ok (mkTensor (shape x) vs, g')
    else Raise RuntimeError.

Fixpoint draw_mask (keep : Q) (n : nat) (g : rng) : list bool * rng :=
  match n with
  | 0 => ([], g)
  | S n' =>
      let (b, g1) := bernoulli_draw keep g in
      let (bs, g2) := draw_mask keep n' g1 in
      (b :: bs, g2)
  end.

End NumericOps.

(** ** Truncated normal initialiser (lines 10-63) *)

Section TruncNormal.
Context {F : FloatOps} {G : RandomGen}.

Definition norm_cdf (x : Q) : Q := ((1 + f_erf (x / f_sqrt 2)) / 2)%Q.

(** The warning of lines 17-20 is not fatal and leaves no trace in the
    result.  [(a - mean) / std] divides Python floats: a zero [std] raises.
    On rationals no product overflows and no element is NaN: this
    definition gives the shape of the result, the state of the generator
    and the errors raised.  The values of the elements of a [float32]
    tensor are those of [IEEE._no_grad_trunc_normal_] below. *)
Definition _no_grad_trunc_normal_ (t : tensor Q) (mean std a b : Q)
  : M (tensor Q) :=
  if Qeq_bool std 0 then lift (Raise ZeroDivisionError)
  else
    let l := norm_cdf ((a - mean) / std) in
    let u := norm_cdf ((b - mean) / std) in
    t1 <- uniform_ (2 * l - 1) (2 * u - 1) t ;;
    let t2 := map_t f_erfinv t1 in
    let t3 := map_t (fun v => v * (std * f_sqrt 2))%Q t2 in
    let t4 := map_t (fun v => v + mean)%Q t3 in
    let t5 := map_t (fun v => Qmin (Qmax v a) b) t4 in
    ret t5.

(** Defaults of the signature: [mean=0., std=1., a=-2., b=2.]. *)
Definition trunc_normal_ (t : tensor Q) (mean std a b : option Q) : M (tensor Q) :=
  let dflt (o : option Q) (d : Q) := match o with Some v => v | None => d end in
  _no_grad_trunc_normal_ t (dflt mean 0%Q) (dflt std 1%Q) (dflt a (-2)%Q) (dflt b 2%Q).

End TruncNormal.

(** ** The initialiser on IEEE 754 values (lines 10-43)

    The rationals have no largest number and no NaN.  The same lines once
    more, with the Python scalars as binary64 values and the elements of
    the tensor as the binary32 values of a [torch.float32] tensor, on the
    arithmetic of [SpecFloat].  [math.erf], [torch.erfinv] and the sampler
    behind [uniform_] are the fields of two classes. *)

Module IEEE.

Import SpecFloat.

Definition float : Type := spec_float.

(** Arithmetic of Python floats (binary64) and of [float32] elements. *)
Definition add64 : float -> float -> float := SFadd 53 1024.
Definition sub64 : float -> float -> float := SFsub 53 1024.
Definition mul64 : float -> float -> float := SFmul 53 1024.
Definition div64 : float -> float -> float := SFdiv 53 1024.
Definition sqrt64 : float -> float := SFsqrt 53 1024.
Definition add32 : float -> float -> float := SFadd 24 128.
Definition mul32 : float -> float -> float := SFmul 24 128.

(** The binary64 value nearest to [m * 2^e]: what a literal such as [2.]
    ([lit 2 0]) or [1e39] ([lit (10 ^ 39) 0]) denotes. *)
Definition lit (m e : Z) : float := binary_normalize 53 1024 m e false.

(** A Python scalar as an element of the tensor: rounded to binary32, an
    infinity beyond the largest binary32 value. *)
Definition to_float32 (x : float) : float :=
  match x with
  | S754_finite s m e => binary_round 24 128 s m e
  | _ => x
  end.

(** An element read as a binary64 value (exact). *)
Definition to_float64 (x : float) : float :=
  match x with
  | S754_finite s m e => binary_round 53 1024 s m e
  | _ => x
  end.

Definition is_nan (x : float) : bool :=
  match x with
  | S754_nan => true
  | _ => false
  end.

(** The largest finite binary32 value, [(2^24 - 1) * 2^104]. *)
Definition float32_max : float := lit (2 ^ 24 - 1) 104.

Definition in_float32_range (x : float) : bool :=
  SFleb (SFopp float32_max) x && SFleb x float32_max.

(** The conversion of a scalar argument of a kernel ([Scalar::to<float>]):
    a finite value beyond the binary32 range is refused. *)
Definition scalar_to_float32 (x : float) : result float :=
  match x with
  | S754_finite _ _ _ =>
      if in_float32_range x then Ok (to_float32 x) else Raise RuntimeError
  | _ => Ok x
  end.

(** [math.erf] on Python floats and [torch.erfinv] on [float32] elements. *)
Class LibM : Type := {
  erf : float -> float;
  erfinv : float -> float
}.

(** The sampler behind [tensor.uniform_(from, to)]. *)
Class Sampler : Type := {
  state : Type;
  draw : float -> float -> state -> float * state
}.

(** [2^-60]. *)
Definition tiny : float := lit 1 (-60).

(** What the development needs to know about them.  [|erf x| <= 2 |x|], so
    below [2^-60] the value of [erf] is less than half the distance from
    [1.] to its neighbours and [1. + erf x] rounds to [1.]; [erfinv] keeps
    a zero; a draw lies between its bounds. *)
Class LibMLaws (L : LibM) : Prop := {
  erf_tiny : forall x : float,
    SFleb (SFabs x) tiny = true -> add64 (lit 1 0) (erf x) = lit 1 0;
  erfinv_zero : forall s : bool, erfinv (S754_zero s) = S754_zero s
}.

Class SamplerLaws (R : Sampler) : Prop := {
  draw_between : forall (lo hi : float) (g : state),
    SFleb lo hi = true ->
    SFleb lo (fst (draw lo hi g)) = true /\ SFleb (fst (draw lo hi g)) hi = true
}.

Section Defs.
Context {L : LibM} {R : Sampler}.

Definition norm_cdf (x : float) : float :=
  div64 (add64 (lit 1 0) (erf (div64 x (sqrt64 (lit 2 0))))) (lit 2 0).

Fixpoint draw_uniform (lo hi : float) (n : nat) (g : state) : list float * state :=
  match n with
  | 0 => ([], g)
  | S n' =>
      let (v, g1) := draw lo hi g in
      let (vs, g2) := draw_uniform lo hi n' g1 in
      (v :: vs, g2)
  end.

(** [tensor.uniform_(from, to)] checks that both bounds are binary32 values
    and in order (a NaN fails both checks), and samples between them. *)
Definition uniform_ (from to : float) (x : tensor float) (g : state)
  : result (tensor float * state) :=
  if in_float32_range from && in_float32_range to && SFleb from to then
    let (vs, g') :=
      draw_uniform (to_float32 from) (to_float32 to) (numel (shape x)) g in
    Ok (mkTensor (shape x) vs, g')
  else Raise RuntimeError.

(** [std::min(std::max(x, lo), hi)]: a comparison with a NaN is false, so
    an element that is NaN stays. *)
Definition clamp (lo hi x : float) : float :=
  let y := if SFltb x lo then lo else x in
  if SFltb hi y then hi else y.

(** [tensor.clamp_(min=a, max=b)]: a bound that is NaN makes every element
    NaN. *)
Definition clamp_ (a b : float) (x : tensor float) : result (tensor float) :=
  if is_nan a || is_nan b then Ok (map_t (fun _ => S754_nan) x)
  else
    let? lo := scalar_to_float32 a in
    let? hi := scalar_to_float32 b in
    Ok (map_t (clamp lo hi) x).

(** Lines 10-43.  [(a - mean) / std] raises for a zero [std], of either
    sign; the other operations of Python floats return an infinity or a NaN
    instead of raising.  The factor of [mul_] and the summand of [add_] are
    rounded to binary32: [std * math.sqrt(2.)] beyond the largest binary32
    value multiplies as an infinity. *)
Definition _no_grad_trunc_normal_ (t : tensor float) (mean std a b : float)
    (g : state) : result (tensor float * state) :=
  if SFeqb std (S754_zero false) then Raise ZeroDivisionError
  else
    let l := norm_cdf (div64 (sub64 a mean) std) in
    let u := norm_cdf (div64 (sub64 b mean) std) in
    let? (t1, g') := uniform_ (sub64 (mul64 (lit 2 0) l) (lit 1 0))
                              (sub64 (mul64 (lit 2 0) u) (lit 1 0)) t g in
    let t2 := map_t erfinv t1 in
    let t3 := map_t (fun v => mul32 v (to_float32 (mul64 std (sqrt64 (lit 2 0))))) t2 in
    let t4 := map_t (fun v => add32 v (to_float32 mean)) t3 in
    let? t5 := clamp_ a b t4 in
    Ok (t5, g').

End Defs.

(** An element lies in the closed interval [[a, b]]; false for a NaN. *)
Definition within (a b v : float) : bool :=
  SFleb a (to_float64 v) && SFleb (to_float64 v) b.

End IEEE.

(** ** Parameters, state dictionaries and the layers of [torch.nn] *)

Record param : Type := mkParam {
  p_data : tensor Q;
  requires_grad : bool
}.

(** [nn.Parameter(t)]: gradients are enabled by default. *)
Definition nn_Parameter (t : tensor Q) : param := mkParam t true.

Definition set_requires_grad (b : bool) (p : param) : param :=
  mkParam (p_data p) b.

(** A state dictionary maps the dotted name of a parameter or buffer to a
    tensor; integer tensors are stored through [inject_Z]. *)
Definition state_dict : Type := list (string * tensor Q).

Fixpoint sd_lookup (name : string) (sd : state_dict) : option (tensor Q) :=
  match sd with
  | [] => None
  | (k, v) :: sd' => if String.eqb k name then Some v else sd_lookup name sd'
  end.

(** What [load_state_dict] does for one parameter: a missing key is
    tolerated, a tensor of another shape is an error (also when the load is
    not strict), a matching one is copied in place. *)
Definition load_param (sd : state_dict) (name : string) (p : param) : result param :=
  match sd_lookup name sd with
  | None => Ok p
  | Some t =>
      if list_eqb (shape t) (shape (p_data p))
      then Ok (mkParam (mkTensor (shape t) (data t)) (requires_grad p))
      else Raise RuntimeError
  end.

Definition load_opt_param (sd : state_dict) (name : string) (p : option param)
  : result (option param) :=
  match p with
  | None => Ok None
  | Some q => let? q' := load_param sd name q in Ok (Some q')
  end.

Definition load_buffer (sd : state_dict) (name : string) (b : tensor Q)
  : result (tensor Q) :=
  match sd_lookup name sd with
  | None => Ok b
  | Some t => if list_eqb (shape t) (shape b) then Ok t else Raise RuntimeError
  end.

(** Copying into an integer buffer truncates towards zero. *)
Definition Qtrunc (q : Q) : Z := Z.quot (Qnum q) (Zpos (Qden q)).

Definition load_int_buffer (sd : state_dict) (name : string) (b : tensor Z)
  : result (tensor Z) :=
  match sd_lookup name sd with
  | None => Ok b
  | Some t =>
      if list_eqb (shape t) (shape b)
      then Ok (mkTensor (shape t) (map Qtrunc (data t)))
      else Raise RuntimeError
  end.

Definition opt_named (name : string) (p : option param) : list (string * param) :=
  match p with
  | None => []
  | Some q => [(name, q)]
  end.

(** The Python test [sub in s] on strings. *)
Fixpoint contains (sub s : string) : bool :=
  String.prefix sub s
  || match s with
     | EmptyString => false
     | String _ s' => contains sub s'
     end.

Module Linear.

Record t : Type := mk {
  weight : param;
  bias : option param
}.

Section Defs.
Context {F : FloatOps} {G : RandomGen}.

(** [nn.Linear(in_features, out_features, bias)]: weight and bias are drawn
    uniformly from [[-1/sqrt(in), 1/sqrt(in)]]; an empty weight is left as
    it is and a bias without fan-in gets the bound zero. *)
Definition init (in_features out_features : Z) (with_bias : bool) : M t :=
  i <~ to_dim in_features ;;
  o <~ to_dim out_features ;;
  let bound := if 0 <? i then (1 / f_sqrt (inject_Z (Z.of_nat i)))%Q else 0%Q in
  w <- (if numel [o; i] =? 0 then ret (full [o; i] 0%Q)
        else uniform_ (- bound) bound (full [o; i] 0%Q)) ;;
  if with_bias then
    b <- uniform_ (- bound) bound (full [o] 0%Q) ;;
    ret (mk (nn_Parameter w) (Some (nn_Parameter b)))
  else ret (mk (nn_Parameter w) None).

Definition forward (m : t) (x : tensor Q) : result (tensor Q) :=
  linear x (p_data (weight m)) (option_map p_data (bias m)).

End Defs.

Definition named_parameters (prefix : string) (m : t) : list (string * param) :=
  (append prefix "weight", weight m) :: opt_named (append prefix "bias") (bias m).

Definition map_parameters (f : string -> param -> param) (prefix : string) (m : t) : t :=
  mk (f (append prefix "weight") (weight m))
     (option_map (f (append prefix "bias")) (bias m)).

Definition load_state_dict (sd : state_dict) (prefix : string) (m : t) : result t :=
  let? w := load_param sd (append prefix "weight") (weight m) in
  let? b := load_opt_param sd (append prefix "bias") (bias m) in
  Ok (mk w b).

End Linear.

Module LayerNorm.

Record t : Type := mk {
  normalized_shape : nat;
  weight : param;
  bias : param;
  eps : Q
}.

(** [nn.LayerNorm(n)]: unit weight, zero bias, [eps = 1e-5]. *)
Definition init (n : Z) : result t :=
  let? d := to_dim n in
  Ok (mk d (nn_Parameter (full [d] 1%Q)) (nn_Parameter (full [d] 0%Q)) (1 # 100000)).

Section Defs.
Context {F : FloatOps}.

Definition norm_row (m : t) (r : list Q) : list Q :=
  let n := inject_Z (Z.of_nat (length r)) in
  let mean := (sumQ r / n)%Q in
  let var := (sumQ (map (fun v => (v - mean) * (v - mean)) r) / n)%Q in
  map (fun '(j, v) =>
         ((v - mean) / f_sqrt (var + eps m) * get (p_data (weight m)) [j]
          + get (p_data (bias m)) [j])%Q)
    (combine (seq 0 (length r)) r).

Definition forward (m : t) (x : tensor Q) : result (tensor Q) :=
  if (0 <? rank x) && (last (shape x) 0 =? normalized_shape m)
  then Ok (map_rows (norm_row m) x)
  else Raise RuntimeError.

End Defs.

Definition named_parameters (prefix : string) (m : t) : list (string * param) :=
  [(append prefix "weight", weight m); (append prefix "bias", bias m)].

Definition map_parameters (f : string -> param -> param) (prefix : string) (m : t) : t :=
  mk (normalized_shape m)
     (f (append prefix "weight") (weight m))
     (f (append prefix "bias") (bias m))
     (eps m).

Definition load_state_dict (sd : state_dict) (prefix : string) (m : t) : result t :=
  let? w := load_param sd (append prefix "weight") (weight m) in
  let? b := load_param sd (append prefix "bias") (bias m) in
  Ok (mk (normalized_shape m) w b (eps m)).

End LayerNorm.

Module Dropout.

(** [training] is the flag every [nn.Module] carries; it is set when the
    module is created and switched by [model.train()] and [model.eval()]. *)
Record t : Type := mk {
  p : Q;
  training : bool
}.

Definition init (p : Q) : result t :=
  if Qle_bool 0 p && Qle_bool p 1 then Ok (mk p true) else Raise ValueError.

Section Defs.
Context {G : RandomGen}.

(** In training mode every element is kept with probability [1 - p] and
    rescaled by [1 / (1 - p)]; in evaluation mode the input is returned. *)
Definition forward (m : t) (x : tensor Q) : M (tensor Q) :=
  fun g =>
    if training m then
      let (mask, g') := draw_mask (1 - p m) (numel (shape x)) g in
      Ok (mkTensor (shape x)
            (map (fun '(v, keep) => if keep : bool then (v / (1 - p m))%Q else 0%Q)
               (combine (data x) mask)), g')
    else Ok (x, g).

End Defs.

(** [train(mode)] sets the flag; [eval()] is [train(False)]. *)
Definition train (mode : bool) (m : t) : t := mk (p m) mode.

End Dropout.

(** [torch.flatten(x, k)]: the axes from [k] on become one. *)
Definition flatten_from {A : Type} (k : nat) (x : tensor A) : tensor A :=
  mkTensor (firstn k (shape x) ++ [numel (skipn k (shape x))]) (data x).

(** Python's [a // b] on ints. *)
Definition floordiv (a b : Z) : result Z :=
  if (b =? 0)%Z then Raise ZeroDivisionError else Ok (a / b)%Z.

(** ** WindowAttention (lines 65-194) *)

Module WindowAttention.

Record t : Type := mk {
  dim : Z;
  window_size : Z * Z;
  pretrained_window_size : Z * Z;
  num_heads : Z;
  logit_scale : param;
  cpb_mlp_0 : Linear.t;
  cpb_mlp_2 : Linear.t;
  relative_coords_table : tensor Q;
  relative_position_index : tensor Z;
  qkv : Linear.t;
  q_bias : option param;
  v_bias : option param;
  attn_drop : Dropout.t;
  proj : Linear.t;
  proj_drop : Dropout.t
}.

(** Lines 113-123: the pair-wise relative position index of the tokens of a
    window. *)
Definition make_relative_position_index (ws : Z * Z) : result (tensor Z) :=
  let? coords_h := arange 0 (fst ws) in
  let? coords_w := arange 0 (snd ws) in
  let? (gh, gw) := meshgrid2 coords_h coords_w in
  let? coords := stack2 gh gw in
  let coords_flatten := flatten_from 1 coords in
  let? lhs := unsqueeze 2 coords_flatten in
  let? rhs := unsqueeze 1 coords_flatten in
  let? relative_coords := binop Z.sub lhs rhs in
  let? relative_coords := permute [1; 2; 0] relative_coords in
  let relative_coords := update_last 0 (fun v => v + (fst ws - 1))%Z relative_coords in
  let relative_coords := update_last 1 (fun v => v + (snd ws - 1))%Z relative_coords in
  let relative_coords := update_last 0 (fun v => v * (2 * snd ws - 1))%Z relative_coords in
  Ok (sumZ_last relative_coords).

Section Defs.
Context {F : FloatOps} {G : RandomGen}.

(** Lines 95-109: the table of log-spaced relative coordinates.  A window
    extent of one divides by zero, which on floats gives an infinity or a
    NaN and on rationals zero; no exception is raised either way. *)
Definition make_relative_coords_table (ws pws : Z * Z) : result (tensor Q) :=
  let? relative_coords_h := arange (- (fst ws - 1)) (fst ws) in
  let? relative_coords_w := arange (- (snd ws - 1)) (snd ws) in
  let? (gh, gw) := meshgrid2 (to_float relative_coords_h) (to_float relative_coords_w) in
  let? st := stack2 gh gw in
  let? pm := permute [1; 2; 0] st in
  let? tb := unsqueeze 0 pm in
  let tb :=
    if (0 <? fst pws)%Z then
      update_last 1 (fun v => v / inject_Z (snd pws - 1))%Q
        (update_last 0 (fun v => v / inject_Z (fst pws - 1))%Q tb)
    else
      update_last 1 (fun v => v / inject_Z (snd ws - 1))%Q
        (update_last 0 (fun v => v / inject_Z (fst ws - 1))%Q tb) in
  let tb := map_t (fun v => v * 8)%Q tb in
  Ok (map_t (fun v => Qsign v * f_log2 (Qabs v + 1) / f_log2 8)%Q tb).

Definition init (dim : Z) (window_size : Z * Z) (num_heads : Z) (qkv_bias : bool)
    (attn_drop proj_drop : Q) (pretrained_window_size : Z * Z) : M t :=
  nh <~ to_dim num_heads ;;
  let logit_scale := nn_Parameter (full [nh; 1; 1] (f_log 10)) in
  cpb_mlp_0 <- Linear.init 2 512 true ;;
  cpb_mlp_2 <- Linear.init 512 num_heads false ;;
  relative_coords_table <~ make_relative_coords_table window_size pretrained_window_size ;;
  relative_position_index <~ make_relative_position_index window_size ;;
  qkv <- Linear.init dim (dim * 3) false ;;
  d <~ to_dim dim ;;
  let q_bias := if qkv_bias then Some (nn_Parameter (full [d] 0%Q)) else None in
  let v_bias := if qkv_bias then Some (nn_Parameter (full [d] 0%Q)) else None in
  attn_drop <~ Dropout.init attn_drop ;;
  proj <- Linear.init dim dim true ;;
  proj_drop <~ Dropout.init proj_drop ;;
  ret (mk dim window_size pretrained_window_size num_heads logit_scale
         cpb_mlp_0 cpb_mlp_2 relative_coords_table relative_position_index
         qkv q_bias v_bias attn_drop proj proj_drop).

(** Line 157: the continuous position bias, one row per relative offset. *)
Definition relative_position_bias_table (m : t) : result (tensor Q) :=
  let? h0 := Linear.forward (cpb_mlp_0 m) (relative_coords_table m) in
  let? h2 := Linear.forward (cpb_mlp_2 m) (map_t relu h0) in
  reshape [-1; num_heads m]%Z h2.

(** Lines 164-170: the optional additive mask, then the softmax. *)
Definition masked_softmax (m : t) (B_ N : nat) (attn : tensor Q)
    (mask : option (tensor Q)) : result (tensor Q) :=
  match mask with
  | None => Ok (softmax attn)
  | Some msk =>
      match shape msk with
      | [] => Raise IndexError
      | nW :: _ =>
          if nW =? 0 then Raise ZeroDivisionError
          else
            let? a := reshape [Z.of_nat (B_ / nW); Z.of_nat nW; num_heads m;
                               Z.of_nat N; Z.of_nat N] attn in
            let? m1 := unsqueeze 1 msk in
            let? m2 := unsqueeze 0 m1 in
            let? a := binop Qplus a m2 in
            let? a := reshape [-1; num_heads m; Z.of_nat N; Z.of_nat N]%Z a in
            Ok (softmax a)
      end
  end.

Definition forward (m : t) (x : tensor Q) (mask : option (tensor Q)) : M (tensor Q) :=
  match shape x with
  | [B_; N; C] =>
      qkv_bias <~ match q_bias m with
                  | None => Ok None
                  | Some qb =>
                      match v_bias m with
                      | None => Raise TypeError
                      | Some vb =>
                          let? c := cat_last [p_data qb; full (shape (p_data vb)) 0%Q;
                                              p_data vb] in
                          Ok (Some c)
                      end
                  end ;;
      qkv0 <~ linear x (p_data (Linear.weight (qkv m))) qkv_bias ;;
      qkv1 <~ reshape [Z.of_nat B_; Z.of_nat N; 3; num_heads m; -1]%Z qkv0 ;;
      qkv2 <~ permute [2; 0; 3; 1; 4] qkv1 ;;
      q <~ select 0 0 qkv2 ;;
      k <~ select 0 1 qkv2 ;;
      v <~ select 0 2 qkv2 ;;
      kt <~ transpose (rank k - 2) (rank k - 1) (normalize k) ;;
      attn <~ matmul (normalize q) kt ;;
      let scale :=
        map_t (fun s => f_exp (Qmin s (f_log (1 / (1 # 100))))) (p_data (logit_scale m)) in
      attn <~ binop Qmult attn scale ;;
      table <~ relative_position_bias_table m ;;
      index <~ reshape [-1]%Z (relative_position_index m) ;;
      rpb <~ gather_rows table index ;;
      rpb <~ reshape [fst (window_size m) * snd (window_size m);
                      fst (window_size m) * snd (window_size m); -1]%Z rpb ;;
      rpb <~ permute [2; 0; 1] rpb ;;
      rpb <~ unsqueeze 0 (map_t (fun b => 16 * sigmoid b)%Q rpb) ;;
      attn <~ binop Qplus attn rpb ;;
      attn <~ masked_softmax m B_ N attn mask ;;
      attn <- Dropout.forward (attn_drop m) attn ;;
      y <~ matmul attn v ;;
      y <~ transpose 1 2 y ;;
      y <~ reshape [Z.of_nat B_; Z.of_nat N; Z.of_nat C] y ;;
      y <~ Linear.forward (proj m) y ;;
      Dropout.forward (proj_drop m) y
  | _ => lift (Raise ValueError)
  end.

End Defs.

(** Lines 183-194: the operation count for one window of [N] tokens, on
    Python ints. *)
Definition flops (m : t) (N : Z) : result Z :=
  let flops := 0%Z in
  let flops := (flops + N * dim m * 3 * dim m)%Z in
  let? head_dim := floordiv (dim m) (num_heads m) in
  let flops := (flops + num_heads m * N * head_dim * N)%Z in
  let? head_dim := floordiv (dim m) (num_heads m) in
  let flops := (flops + num_heads m * N * N * head_dim)%Z in
  let flops := (flops + N * dim m * dim m)%Z in
  Ok flops.

(** [train(mode)] reaches the two dropout children. *)
Definition train (mode : bool) (m : t) : t :=
  mk (dim m) (window_size m) (pretrained_window_size m) (num_heads m)
     (logit_scale m) (cpb_mlp_0 m) (cpb_mlp_2 m) (relative_coords_table m)
     (relative_position_index m) (qkv m) (q_bias m) (v_bias m)
     (Dropout.train mode (attn_drop m)) (proj m) (Dropout.train mode (proj_drop m)).

(** Parameters in the order [named_parameters] yields them: the module's own
    first, then those of its children. *)
Definition named_parameters (prefix : string) (m : t) : list (string * param) :=
  (append prefix "logit_scale", logit_scale m)
  :: opt_named (append prefix "q_bias") (q_bias m)
  ++ opt_named (append prefix "v_bias") (v_bias m)
  ++ Linear.named_parameters (append prefix "cpb_mlp.0.") (cpb_mlp_0 m)
  ++ Linear.named_parameters (append prefix "cpb_mlp.2.") (cpb_mlp_2 m)
  ++ Linear.named_parameters (append prefix "qkv.") (qkv m)
  ++ Linear.named_parameters (append prefix "proj.") (proj m).

Definition map_parameters (f : string -> param -> param) (prefix : string) (m : t) : t :=
  mk (dim m) (window_size m) (pretrained_window_size m) (num_heads m)
     (f (append prefix "logit_scale") (logit_scale m))
     (Linear.map_parameters f (append prefix "cpb_mlp.0.") (cpb_mlp_0 m))
     (Linear.map_parameters f (append prefix "cpb_mlp.2.") (cpb_mlp_2 m))
     (relative_coords_table m) (relative_position_index m)
     (Linear.map_parameters f (append prefix "qkv.") (qkv m))
     (option_map (f (append prefix "q_bias")) (q_bias m))
     (option_map (f (append prefix "v_bias")) (v_bias m))
     (attn_drop m)
     (Linear.map_parameters f (append prefix "proj.") (proj m))
     (proj_drop m).

Definition load_state_dict (sd : state_dict) (prefix : string) (m : t) : result t :=
  let? ls := load_param sd (append prefix "logit_scale") (logit_scale m) in
  let? qb := load_opt_param sd (append prefix "q_bias") (q_bias m) in
  let? vb := load_opt_param sd (append prefix "v_bias") (v_bias m) in
  let? rct := load_buffer sd (append prefix "relative_coords_table")
                (relative_coords_table m) in
  let? rpi := load_int_buffer sd (append prefix "relative_position_index")
                (relative_position_index m) in
  let? c0 := Linear.load_state_dict sd (append prefix "cpb_mlp.0.") (cpb_mlp_0 m) in
  let? c2 := Linear.load_state_dict sd (append prefix "cpb_mlp.2.") (cpb_mlp_2 m) in
  let? qk := Linear.load_state_dict sd (append prefix "qkv.") (qkv m) in
  let? pj := Linear.load_state_dict sd (append prefix "proj.") (proj m) in
  Ok (mk (dim m) (window_size m) (pretrained_window_size m) (num_heads m)
        ls c0 c2 rct rpi qk qb vb (attn_drop m) pj (proj_drop m)).

End WindowAttention.

(** ** SegmentMerging (lines 196-203) *)

(** [rearrange(x, 'b (p d) c -> b p (d c)', d=2)]: position [p * 2 + d] of
    the sequence axis becomes the block [d] of token [p]. *)
Definition rearrange_merge_pairs (x : tensor Q) : result (tensor Q) :=
  match shape x with
  | [b; l; c] =>
      if l mod 2 =? 0 then
        Ok (tabulate [b; l / 2; 2 * c]
              (fun idx => get x [ix idx 0; ix idx 1 * 2 + ix idx 2 / c; ix idx 2 mod c]))
      else Raise EinopsError
  | _ => Raise EinopsError
  end.

Module SegmentMerging.

(** [norm_layer] is [nn.LayerNorm] at every use in the source. *)
Record t : Type := mk {
  dim : Z;
  norm : LayerNorm.t
}.

Definition init (dim : Z) : result t :=
  let? norm := LayerNorm.init (2 * dim) in
  Ok (mk dim norm).

Section Defs.
Context {F : FloatOps}.

Definition forward (m : t) (x : tensor Q) : result (tensor Q) :=
  let? y := rearrange_merge_pairs x in
  LayerNorm.forward (norm m) y.

End Defs.

Definition named_parameters (prefix : string) (m : t) : list (string * param) :=
  LayerNorm.named_parameters (append prefix "norm.") (norm m).

Definition map_parameters (f : string -> param -> param) (prefix : string) (m : t) : t :=
  mk (dim m) (LayerNorm.map_parameters f (append prefix "norm.") (norm m)).

Definition load_state_dict (sd : state_dict) (prefix : string) (m : t) : result t :=
  let? n := LayerNorm.load_state_dict sd (append prefix "norm.") (norm m) in
  Ok (mk (dim m) n).

End SegmentMerging.

(** ** FullAttention (lines 205-223) *)

Module FullAttention.

Record t : Type := mk {
  scale : option Q;
  dropout : Dropout.t
}.

Definition init (scale : option Q) (attention_dropout : Q) : result t :=
  let? d := Dropout.init attention_dropout in
  Ok (mk scale d).

Section Defs.
Context {F : FloatOps} {G : RandomGen}.

(** Line 217, [self.scale or 1./sqrt(E)]: a scale that is [None] or zero
    gives way to the default. *)
Definition effective_scale (m : t) (E : nat) : Q :=
  match scale m with
  | Some s => if Qeq_bool s 0 then (1 / f_sqrt (inject_Z (Z.of_nat E)))%Q else s
  | None => (1 / f_sqrt (inject_Z (Z.of_nat E)))%Q
  end.

(** Lines 219-220: the attention weights. *)
Definition attention_weights (m : t) (E : nat) (queries keys : tensor Q) : M (tensor Q) :=
  scores <~ einsum_blhe_bshe_bhls queries keys ;;
  Dropout.forward (dropout m)
    (softmax (map_t (fun v => effective_scale m E * v)%Q scores)).

Definition forward (m : t) (queries keys values : tensor Q) : M (tensor Q) :=
  match shape queries, shape values with
  | [B; L; H; E], [_; S_; _; D] =>
      A <- attention_weights m E queries keys ;;
      V <~ einsum_bhls_bshd_blhd A values ;;
      V <~ binop Qplus V queries ;;
      ret V
  | _, _ => lift (Raise ValueError)
  end.

End Defs.

Definition train (mode : bool) (m : t) : t :=
  mk (scale m) (Dropout.train mode (dropout m)).

End FullAttention.

(** ** AttentionLayer (lines 226-266) *)

(** The Python expression [v or d] on an optional int. *)
Definition or_default (v : option Z) (d : result Z) : result Z :=
  match v with
  | Some z => if (z =? 0)%Z then d else Ok z
  | None => d
  end.

Module AttentionLayer.

Record t : Type := mk {
  inner_attention : FullAttention.t;
  query_projection : Linear.t;
  key_projection : Linear.t;
  value_projection : Linear.t;
  out_projection : Linear.t;
  n_heads : Z;
  mix : bool;
  norm : LayerNorm.t;
  norm_1 : LayerNorm.t
}.

Section Defs.
Context {F : FloatOps} {G : RandomGen}.

Definition init (d_model n_heads : Z) (d_keys d_values : option Z) (mix : bool)
    (dropout : Q) : M t :=
  d_keys <~ or_default d_keys (floordiv d_model n_heads) ;;
  d_values <~ or_default d_values (floordiv d_model n_heads) ;;
  inner_attention <~ FullAttention.init None dropout ;;
  query_projection <- Linear.init d_model (d_keys * n_heads) true ;;
  key_projection <- Linear.init d_model (d_keys * n_heads) true ;;
  value_projection <- Linear.init d_model (d_values * n_heads) true ;;
  out_projection <- Linear.init (d_values * n_heads) d_model true ;;
  norm <~ LayerNorm.init d_model ;;
  norm_1 <~ LayerNorm.init d_model ;;
  ret (mk inner_attention query_projection key_projection value_projection
         out_projection n_heads mix norm norm_1).

Definition forward (m : t) (x : tensor Q * tensor Q * tensor Q) : M (tensor Q) :=
  let '(queries, keys, values) := x in
  match shape queries, shape keys with
  | [B; L; _], [_; S_; _] =>
      let H := n_heads m in
      queries <~ LayerNorm.forward (norm m) queries ;;
      keys <~ LayerNorm.forward (norm m) keys ;;
      values <~ LayerNorm.forward (norm m) values ;;
      queries <~ Linear.forward (query_projection m) queries ;;
      queries <~ reshape [Z.of_nat B; Z.of_nat L; H; -1]%Z queries ;;
      keys <~ Linear.forward (key_projection m) keys ;;
      keys <~ reshape [Z.of_nat B; Z.of_nat S_; H; -1]%Z keys ;;
      values <~ Linear.forward (value_projection m) values ;;
      values <~ reshape [Z.of_nat B; Z.of_nat S_; H; -1]%Z values ;;
      out <- FullAttention.forward (inner_attention m) queries keys values ;;
      out <~ (if mix m then transpose 2 1 out else Ok out) ;;
      out <~ reshape [Z.of_nat B; Z.of_nat L; -1]%Z out ;;
      normed <~ LayerNorm.forward (norm_1 m) out ;;
      projected <~ Linear.forward (out_projection m) normed ;;
      lift (binop Qplus projected out)
  | _, _ => lift (Raise ValueError)
  end.

End Defs.

Definition train (mode : bool) (m : t) : t :=
  mk (FullAttention.train mode (inner_attention m)) (query_projection m)
     (key_projection m) (value_projection m) (out_projection m) (n_heads m) (mix m)
     (norm m) (norm_1 m).

Definition named_parameters (prefix : string) (m : t) : list (string * param) :=
  Linear.named_parameters (append prefix "query_projection.") (query_projection m)
  ++ Linear.named_parameters (append prefix "key_projection.") (key_projection m)
  ++ Linear.named_parameters (append prefix "value_projection.") (value_projection m)
  ++ Linear.named_parameters (append prefix "out_projection.") (out_projection m)
  ++ LayerNorm.named_parameters (append prefix "norm.") (norm m)
  ++ LayerNorm.named_parameters (append prefix "norm_1.") (norm_1 m).

Definition map_parameters (f : string -> param -> param) (prefix : string) (m : t) : t :=
  mk (inner_attention m)
     (Linear.map_parameters f (append prefix "query_projection.") (query_projection m))
     (Linear.map_parameters f (append prefix "key_projection.") (key_projection m))
     (Linear.map_parameters f (append prefix "value_projection.") (value_projection m))
     (Linear.map_parameters f (append prefix "out_projection.") (out_projection m))
     (n_heads m) (mix m)
     (LayerNorm.map_parameters f (append prefix "norm.") (norm m))
     (LayerNorm.map_parameters f (append prefix "norm_1.") (norm_1 m)).

Definition load_state_dict (sd : state_dict) (prefix : string) (m : t) : result t :=
  let? q := Linear.load_state_dict sd (append prefix "query_projection.")
              (query_projection m) in
  let? k := Linear.load_state_dict sd (append prefix "key_projection.")
              (key_projection m) in
  let? v := Linear.load_state_dict sd (append prefix "value_projection.")
              (value_projection m) in
  let? o := Linear.load_state_dict sd (append prefix "out_projection.")
              (out_projection m) in
  let? n := LayerNorm.load_state_dict sd (append prefix "norm.") (norm m) in
  let? n1 := LayerNorm.load_state_dict sd (append prefix "norm_1.") (norm_1 m) in
  Ok (mk (inner_attention m) q k v o (n_heads m) (mix m) n n1).

End AttentionLayer.

(** ** HUTformer (lines 268-360) *)

(** [rearrange(x, 'b n (p t) -> b n p t', t=t)]. *)
Definition rearrange_patches (t : Z) (x : tensor Q) : result (tensor Q) :=
  match shape x with
  | [b; n; l] =>
      let t' := Z.to_nat t in
      if (0 <? t)%Z && (l mod t' =? 0) then
        Ok (tabulate [b; n; l / t'; t']
              (fun idx => get x [ix idx 0; ix idx 1; ix idx 2 * t' + ix idx 3]))
      else Raise EinopsError
  | _ => Raise EinopsError
  end.

(** [rearrange(x, '(b n) p d -> b n (p d)', b=B, n=N)]. *)
Definition rearrange_nodes (B N : nat) (x : tensor Q) : result (tensor Q) :=
  match shape x with
  | [bn; p; d] =>
      if bn =? B * N then
        Ok (tabulate [B; N; p * d]
              (fun idx => get x [ix idx 0 * N + ix idx 1; ix idx 2 / d; ix idx 2 mod d]))
      else Raise EinopsError
  | _ => Raise EinopsError
  end.

(** [int(a / b)] on Python ints: true division, then truncation towards
    zero.  (The rounding of the float quotient is exact for every size a
    tensor can have.) *)
Definition int_truediv (a b : Z) : result Z :=
  if (b =? 0)%Z then Raise ZeroDivisionError else Ok (Z.quot a b).

(** What [torch.load(path)["model_state_dict"]] evaluates to. *)
Class FileSystem : Type := {
  torch_load : string -> result state_dict
}.

Module HUTformer.

Record decoder_t : Type := mkDecoder {
  decoder_1 : WindowAttention.t;
  decoder_project_0 : Linear.t;
  decoder_2_0 : AttentionLayer.t;
  decoder_2_1 : WindowAttention.t;
  decoder_3_0 : AttentionLayer.t;
  decoder_3_1 : WindowAttention.t;
  decoder_project : Linear.t
}.

(** [decoder] holds the attributes that exist only when [__init__] ran past
    line 298. *)
Record t : Type := mk {
  mode : string;
  NUM_NODES : Z;
  len_hist : Z;
  len_pred : Z;
  len_patch : Z;
  num_patch : Z;
  num_heads : Z;
  drop : Q;
  embed_dim : Z;
  dim_SE : Z;
  dim_U : Z;
  SE : param;
  embedding : Linear.t;
  STPE : Linear.t;
  encoder_1 : WindowAttention.t;
  encoder_2_0 : SegmentMerging.t;
  encoder_2_1 : WindowAttention.t;
  encoder_3_0 : SegmentMerging.t;
  encoder_3_1 : WindowAttention.t;
  encoder_project : Linear.t;
  decoder : option decoder_t
}.

Definition decoder_named_parameters (d : decoder_t) : list (string * param) :=
  WindowAttention.named_parameters "decoder_1." (decoder_1 d)
  ++ Linear.named_parameters "decoder_project_0." (decoder_project_0 d)
  ++ AttentionLayer.named_parameters "decoder_2.0." (decoder_2_0 d)
  ++ WindowAttention.named_parameters "decoder_2.1." (decoder_2_1 d)
  ++ AttentionLayer.named_parameters "decoder_3.0." (decoder_3_0 d)
  ++ WindowAttention.named_parameters "decoder_3.1." (decoder_3_1 d)
  ++ Linear.named_parameters "decoder_project." (decoder_project d).

Definition encoder_named_parameters (m : t) : list (string * param) :=
  ("SE"%string, SE m)
  :: Linear.named_parameters "embedding." (embedding m)
  ++ Linear.named_parameters "STPE." (STPE m)
  ++ WindowAttention.named_parameters "encoder_1." (encoder_1 m)
  ++ SegmentMerging.named_parameters "encoder_2.0." (encoder_2_0 m)
  ++ WindowAttention.named_parameters "encoder_2.1." (encoder_2_1 m)
  ++ SegmentMerging.named_parameters "encoder_3.0." (encoder_3_0 m)
  ++ WindowAttention.named_parameters "encoder_3.1." (encoder_3_1 m)
  ++ Linear.named_parameters "encoder_project." (encoder_project m).

(** [self.named_parameters()], in registration order. *)
Definition named_parameters (m : t) : list (string * param) :=
  encoder_named_parameters m
  ++ match decoder m with
     | None => []
     | Some d => decoder_named_parameters d
     end.

Definition decoder_map_parameters (f : string -> param -> param) (d : decoder_t)
  : decoder_t :=
  mkDecoder
    (WindowAttention.map_parameters f "decoder_1." (decoder_1 d))
    (Linear.map_parameters f "decoder_project_0." (decoder_project_0 d))
    (AttentionLayer.map_parameters f "decoder_2.0." (decoder_2_0 d))
    (WindowAttention.map_parameters f "decoder_2.1." (decoder_2_1 d))
    (AttentionLayer.map_parameters f "decoder_3.0." (decoder_3_0 d))
    (WindowAttention.map_parameters f "decoder_3.1." (decoder_3_1 d))
    (Linear.map_parameters f "decoder_project." (decoder_project d)).

(** A loop over [self.named_parameters()] that updates each parameter in
    place. *)
Definition map_parameters (f : string -> param -> param) (m : t) : t :=
  mk (mode m) (NUM_NODES m) (len_hist m) (len_pred m) (len_patch m) (num_patch m)
     (num_heads m) (drop m) (embed_dim m) (dim_SE m) (dim_U m)
     (f "SE"%string (SE m))
     (Linear.map_parameters f "embedding." (embedding m))
     (Linear.map_parameters f "STPE." (STPE m))
     (WindowAttention.map_parameters f "encoder_1." (encoder_1 m))
     (SegmentMerging.map_parameters f "encoder_2.0." (encoder_2_0 m))
     (WindowAttention.map_parameters f "encoder_2.1." (encoder_2_1 m))
     (SegmentMerging.map_parameters f "encoder_3.0." (encoder_3_0 m))
     (WindowAttention.map_parameters f "encoder_3.1." (encoder_3_1 m))
     (Linear.map_parameters f "encoder_project." (encoder_project m))
     (option_map (decoder_map_parameters f) (decoder m)).

(** Lines 312-313. *)
Definition freeze (name : string) (para : param) : param :=
  if negb (contains "decoder" name) then set_requires_grad false para else para.

Definition decoder_load_state_dict (sd : state_dict) (d : decoder_t) : result decoder_t :=
  let? d1 := WindowAttention.load_state_dict sd "decoder_1." (decoder_1 d) in
  let? p0 := Linear.load_state_dict sd "decoder_project_0." (decoder_project_0 d) in
  let? a2 := AttentionLayer.load_state_dict sd "decoder_2.0." (decoder_2_0 d) in
  let? w2 := WindowAttention.load_state_dict sd "decoder_2.1." (decoder_2_1 d) in
  let? a3 := AttentionLayer.load_state_dict sd "decoder_3.0." (decoder_3_0 d) in
  let? w3 := WindowAttention.load_state_dict sd "decoder_3.1." (decoder_3_1 d) in
  let? pj := Linear.load_state_dict sd "decoder_project." (decoder_project d) in
  Ok (mkDecoder d1 p0 a2 w2 a3 w3 pj).

(** [self.load_state_dict(sd, strict=False)]. *)
Definition load_state_dict (sd : state_dict) (m : t) : result t :=
  let? se := load_param sd "SE" (SE m) in
  let? emb := Linear.load_state_dict sd "embedding." (embedding m) in
  let? stpe := Linear.load_state_dict sd "STPE." (STPE m) in
  let? e1 := WindowAttention.load_state_dict sd "encoder_1." (encoder_1 m) in
  let? e20 := SegmentMerging.load_state_dict sd "encoder_2.0." (encoder_2_0 m) in
  let? e21 := WindowAttention.load_state_dict sd "encoder_2.1." (encoder_2_1 m) in
  let? e30 := SegmentMerging.load_state_dict sd "encoder_3.0." (encoder_3_0 m) in
  let? e31 := WindowAttention.load_state_dict sd "encoder_3.1." (encoder_3_1 m) in
  let? ep := Linear.load_state_dict sd "encoder_project." (encoder_project m) in
  let? dec := match decoder m with
              | None => Ok None
              | Some d => let? d' := decoder_load_state_dict sd d in Ok (Some d')
              end in
  Ok (mk (mode m) (NUM_NODES m) (len_hist m) (len_pred m) (len_patch m) (num_patch m)
        (num_heads m) (drop m) (embed_dim m) (dim_SE m) (dim_U m)
        se emb stpe e1 e20 e21 e30 e31 ep dec).

Definition with_decoder (m : t) (d : decoder_t) : t :=
  mk (mode m) (NUM_NODES m) (len_hist m) (len_pred m) (len_patch m) (num_patch m)
     (num_heads m) (drop m) (embed_dim m) (dim_SE m) (dim_U m)
     (SE m) (embedding m) (STPE m) (encoder_1 m) (encoder_2_0 m) (encoder_2_1 m)
     (encoder_3_0 m) (encoder_3_1 m) (encoder_project m) (Some d).

Definition decoder_train (mode : bool) (d : decoder_t) : decoder_t :=
  mkDecoder
    (WindowAttention.train mode (decoder_1 d))
    (decoder_project_0 d)
    (AttentionLayer.train mode (decoder_2_0 d))
    (WindowAttention.train mode (decoder_2_1 d))
    (AttentionLayer.train mode (decoder_3_0 d))
    (WindowAttention.train mode (decoder_3_1 d))
    (decoder_project d).

(** [model.train(mode)], inherited from [nn.Module]: the flag is set in every
    dropout layer of the model. *)
Definition train (mode : bool) (m : t) : t :=
  mk (HUTformer.mode m) (NUM_NODES m) (len_hist m) (len_pred m) (len_patch m)
     (num_patch m) (num_heads m) (drop m) (embed_dim m) (dim_SE m) (dim_U m)
     (SE m) (embedding m) (STPE m)
     (WindowAttention.train mode (encoder_1 m))
     (encoder_2_0 m)
     (WindowAttention.train mode (encoder_2_1 m))
     (encoder_3_0 m)
     (WindowAttention.train mode (encoder_3_1 m))
     (encoder_project m)
     (option_map (decoder_train mode) (decoder m)).

Section Defs.
Context {F : FloatOps} {G : RandomGen} {FS : FileSystem}.

(** Lines 271-296: everything [__init__] builds in either mode. *)
Definition init_encoder (NUM_NODES len_hist len_pred len_patch : Z) (mode : string)
  : M t :=
  _ <~ guard (String.eqb mode "encoder" || String.eqb mode "decoder") AssertionError ;;
  num_patch <~ int_truediv len_hist len_patch ;;
  let num_heads := 8%Z in
  let drop := (1 # 10)%Q in
  let embed_dim := 64%Z in
  let dim_SE := 16%Z in
  let dim_U := (num_patch * embed_dim)%Z in
  n <~ to_dim NUM_NODES ;;
  d_se <~ to_dim dim_SE ;;
  se <- trunc_normal_ (full [n; d_se] 0%Q) None (Some (2 # 100)%Q) None None ;;
  embedding <- Linear.init len_patch embed_dim true ;;
  w <- trunc_normal_ (p_data (Linear.weight embedding)) None (Some (2 # 100)%Q) None None ;;
  let embedding :=
    Linear.mk (mkParam w (requires_grad (Linear.weight embedding)))
      (Linear.bias embedding) in
  STPE <- Linear.init (num_patch * embed_dim + dim_SE + 2) dim_U true ;;
  encoder_1 <- WindowAttention.init embed_dim (2, Z.quot num_patch 2)%Z num_heads true
                 drop drop (0, 0)%Z ;;
  encoder_2_0 <~ SegmentMerging.init embed_dim ;;
  encoder_2_1 <- WindowAttention.init (embed_dim * 2) (2, Z.quot num_patch 4)%Z num_heads
                   true drop drop (0, 0)%Z ;;
  encoder_3_0 <~ SegmentMerging.init (embed_dim * 2) ;;
  encoder_3_1 <- WindowAttention.init (embed_dim * 4) (2, Z.quot num_patch 8)%Z num_heads
                   true drop drop (0, 0)%Z ;;
  encoder_project <- Linear.init dim_U len_pred true ;;
  ret (mk mode NUM_NODES len_hist len_pred len_patch num_patch num_heads drop
         embed_dim dim_SE dim_U (nn_Parameter se) embedding STPE encoder_1
         encoder_2_0 encoder_2_1 encoder_3_0 encoder_3_1 encoder_project None).

(** Lines 303-309. *)
Definition init_decoder (m : t) : M decoder_t :=
  let w := (2, Z.quot (num_patch m) 2)%Z in
  decoder_1 <- WindowAttention.init (embed_dim m) w (num_heads m) true (drop m) (drop m)
                 (0, 0)%Z ;;
  decoder_project_0 <- Linear.init (embed_dim m * 2) (embed_dim m) true ;;
  decoder_2_0 <- AttentionLayer.init (embed_dim m) (num_heads m) None None true (drop m) ;;
  decoder_2_1 <- WindowAttention.init (embed_dim m) w (num_heads m) true (drop m) (drop m)
                   (0, 0)%Z ;;
  decoder_3_0 <- AttentionLayer.init (embed_dim m) (num_heads m) None None true (drop m) ;;
  decoder_3_1 <- WindowAttention.init (embed_dim m) w (num_heads m) true (drop m) (drop m)
                   (0, 0)%Z ;;
  decoder_project <- Linear.init (embed_dim m) (len_patch m) true ;;
  ret (mkDecoder decoder_1 decoder_project_0 decoder_2_0 decoder_2_1 decoder_3_0
         decoder_3_1 decoder_project).

(** [HUTformer(NUM_NODES, len_hist, len_pred, len_patch, mode, pre_train)].
    The report printed at the end of a decoder-mode construction is not
    part of the result. *)
Definition init (NUM_NODES len_hist len_pred len_patch : Z) (mode : string)
    (pre_train : option string) : M t :=
  m <- init_encoder NUM_NODES len_hist len_pred len_patch mode ;;
  if String.eqb mode "encoder" then ret m
  else
    m <~ match pre_train with
         | None => Ok m
         | Some path => let? sd := torch_load path in load_state_dict sd m
         end ;;
    d <- init_decoder m ;;
    let m := with_decoder m d in
    if String.eqb mode "decoder" then ret (map_parameters freeze m) else ret m.

(** Lines 332-338 and 348-354: patch embedding of a series, fused with the
    spatial embedding and the covariates [aux] of one time step. *)
Definition embed (m : t) (B N : nat) (series aux : tensor Q) : result (tensor Q) :=
  let? patches := rearrange_patches (len_patch m) series in
  let? S_ := Linear.forward (embedding m) patches in
  let? S_ := reshape [Z.of_nat B; Z.of_nat N; -1]%Z S_ in
  let? se := repeat_ [B; 1; 1] (p_data (SE m)) in
  let? last_step := select 1 (-1) aux in
  let? covariates := slice_from 2 1 last_step in
  let? S_ := cat_last [S_; se; covariates] in
  let? U := Linear.forward (STPE m) S_ in
  reshape [Z.of_nat (B * N); -1; embed_dim m]%Z U.

(** Lines 332-342, the path both modes run: the three encoder stages and
    the projection to the prediction length.  The stages [H_1] and [H_2] are
    returned with the prediction because the decoder reads them again. *)
Definition encode (m : t) (B N : nat) (history_data : tensor Q)
  : M (tensor Q * tensor Q * tensor Q) :=
  target <~ select 3 0 history_data ;;
  series <~ permute [0; 2; 1] target ;;
  U <~ embed m B N series history_data ;;
  H_1 <- WindowAttention.forward (encoder_1 m) U None ;;
  H_2 <~ SegmentMerging.forward (encoder_2_0 m) H_1 ;;
  H_2 <- WindowAttention.forward (encoder_2_1 m) H_2 None ;;
  H_3 <~ SegmentMerging.forward (encoder_3_0 m) H_2 ;;
  H_3 <- WindowAttention.forward (encoder_3_1 m) H_3 None ;;
  flat <~ rearrange_nodes B N H_3 ;;
  predict_encoder <~ Linear.forward (encoder_project m) flat ;;
  ret (H_1, H_2, predict_encoder).

(** Lines 348-358, the path only the decoder mode runs. *)
Definition decode (m : t) (d : decoder_t) (B N : nat)
    (H_1 H_2 predict_encoder future_data : tensor Q) : M (tensor Q) :=
  U <~ embed m B N predict_encoder future_data ;;
  D_1 <- WindowAttention.forward (decoder_1 d) U None ;;
  Q_2 <~ Linear.forward (decoder_project_0 d) H_2 ;;
  Q_2 <~ repeat_ [1; 2; 1] Q_2 ;;
  D_2 <- AttentionLayer.forward (decoder_2_0 d) (Q_2, D_1, D_1) ;;
  D_2 <- WindowAttention.forward (decoder_2_1 d) D_2 None ;;
  D_3 <- AttentionLayer.forward (decoder_3_0 d) (H_1, D_2, D_2) ;;
  D_3 <- WindowAttention.forward (decoder_3_1 d) D_3 None ;;
  y <~ Linear.forward (decoder_project d) D_3 ;;
  y <~ reshape [Z.of_nat B; Z.of_nat N; -1]%Z y ;;
  y <~ permute [0; 2; 1] y ;;
  lift (unsqueeze (-1) y).

(** [forward(history_data, future_data, batch_seen, epoch, train, **kwargs)]. *)
Definition forward (m : t) (history_data future_data : tensor Q)
    (batch_seen epoch : Z) (train : bool) (kwargs : list (string * Z)) : M (tensor Q) :=
  match shape history_data with
  | [B; L; N; C] =>
      encoded <- encode m B N history_data ;;
      let '(H_1, H_2, predict_encoder) := encoded in
      if String.eqb (mode m) "encoder" then
        p <~ permute [0; 2; 1] predict_encoder ;;
        lift (unsqueeze (-1) p)
      else
        match decoder m with
        | None => lift (Raise AttributeError)
        | Some d => decode m d B N H_1 H_2 predict_encoder future_data
        end
  | _ => lift (Raise ValueError)
  end.

End Defs.

End HUTformer.

(** ** Concrete stand-ins

    A rational stand-in for the floating point functions and a constant
    random generator, on which the model can be run. *)

Definition demo_float : FloatOps := {|
  f_exp := fun x => (1 + Qabs x)%Q;
  f_log := fun x => x;
  f_log2 := fun x => x;
  f_sqrt := fun x => Qabs x;
  f_erf := fun x => Qmax (-1) (Qmin 1 x);
  f_erfinv := fun x => x
|}.

Definition demo_rng : RandomGen := {|
  rng := unit;
  uniform_draw := fun lo hi g => (lo, g);
  bernoulli_draw := fun keep g => (true, g)
|}.

Definition demo_fs : FileSystem := {|
  torch_load := fun _ => Raise RuntimeError
|}.

(** A checkpoint with an entry for [SE] and one for a decoder parameter,
    and a file system that holds it under every path. *)
Definition demo_checkpoint : state_dict :=
  [("SE"%string, full [1; 16] (1 # 2)%Q);
   ("decoder_project.bias"%string, full [1] 5%Q)].

Definition demo_fs_checkpoint : FileSystem := {|
  torch_load := fun _ => Ok demo_checkpoint
|}.

(** A generator that counts its draws. *)
Definition counting_rng : RandomGen := {|
  rng := N;
  uniform_draw := fun lo hi g => (lo, N.succ g);
  bernoulli_draw := fun keep g => (true, N.succ g)
|}.

(** Stand-ins for the IEEE model: an [erf] that vanishes on tiny arguments
    and a sampler that returns the lower bound. *)
Definition demo_libm : IEEE.LibM := {|
  IEEE.erf := fun x =>
    if SpecFloat.SFleb (SpecFloat.SFabs x) IEEE.tiny then SpecFloat.S754_zero false else x;
  IEEE.erfinv := fun x => x
|}.

Definition demo_sampler : IEEE.Sampler := {|
  IEEE.state := unit;
  IEEE.draw := fun lo hi g => (lo, g)
|}.

(** ** Vocabulary of the statements *)

(** An operand whose axes are those of the other one or have size one does
    not change the broadcast shape. *)
Inductive bc_fits : list nat -> list nat -> Prop :=
| bc_fits_nil : forall r, bc_fits [] r
| bc_fits_same : forall a r2 r1, bc_fits r2 r1 -> bc_fits (a :: r2) (a :: r1)
| bc_fits_one : forall a r2 r1, bc_fits r2 r1 -> bc_fits (1 :: r2) (a :: r1).

(** A change of every parameter that may look at its name, as the loop over
    [named_parameters] of lines 312-313 does. *)
Definition apply_named (f : string -> param -> param) (l : list (string * param))
  : list (string * param) :=
  map (fun np => (fst np, f (fst np) (snd np))) l.

(** Every parameter of the list takes part in training. *)
Definition all_grad (l : list (string * param)) : Prop :=
  Forall (fun np => requires_grad (snd np) = true) l.

(** The names of the parameters [__init__] creates in lines 285-296. *)
Definition Linear_names (prefix : string) : list string :=
  [append prefix "weight"; append prefix "bias"].

Definition LayerNorm_names (prefix : string) : list string :=
  [append prefix "weight"; append prefix "bias"].

Definition WindowAttention_names (prefix : string) : list string :=
  [append prefix "logit_scale"; append prefix "q_bias"; append prefix "v_bias"]
  ++ Linear_names (append prefix "cpb_mlp.0.")
  ++ Linear_names (append prefix "cpb_mlp.2.")
  ++ Linear_names (append prefix "qkv.")
  ++ Linear_names (append prefix "proj.").

Definition encoder_names : list string :=
  "SE"%string
  :: Linear_names "embedding."
  ++ Linear_names "STPE."
  ++ WindowAttention_names "encoder_1."
  ++ LayerNorm_names "encoder_2.0.norm."
  ++ WindowAttention_names "encoder_2.1."
  ++ LayerNorm_names "encoder_3.0.norm."
  ++ WindowAttention_names "encoder_3.1."
  ++ Linear_names "encoder_project.".

(** The entry for the tokens [i] and [j] of a window of [Wh] rows and [Ww]
    columns: both coordinate offsets shifted to start from zero, the row
    offset weighted by the number of column offsets. *)
Definition relative_index_value (Wh Ww i j : nat) : Z :=
  ((Z.of_nat (i / Ww) - Z.of_nat (j / Ww) + (Z.of_nat Wh - 1)) * (2 * Z.of_nat Ww - 1)
   + (Z.of_nat (i mod Ww) - Z.of_nat (j mod Ww) + (Z.of_nat Ww - 1)))%Z.

(** The shapes [nn.Linear(i, o)] creates. *)
Definition wf_Linear (i o : nat) (m : Linear.t) : Prop :=
  shape (p_data (Linear.weight m)) = [o; i]
  /\ forall b, Linear.bias m = Some b -> shape (p_data b) = [o].

(** The shapes [WindowAttention(dim, (Wh, Ww), nh)] creates, and the range of
    the entries of its index buffer. *)
Definition wf_WindowAttention (dim Wh Ww nh : nat) (m : WindowAttention.t) : Prop :=
  WindowAttention.num_heads m = Z.of_nat nh
  /\ WindowAttention.window_size m = (Z.of_nat Wh, Z.of_nat Ww)
  /\ shape (p_data (WindowAttention.logit_scale m)) = [nh; 1; 1]
  /\ wf_Linear 2 512 (WindowAttention.cpb_mlp_0 m)
  /\ wf_Linear 512 nh (WindowAttention.cpb_mlp_2 m)
  /\ shape (WindowAttention.relative_coords_table m) = [1; 2 * Wh - 1; 2 * Ww - 1; 2]
  /\ shape (WindowAttention.relative_position_index m) = [Wh * Ww; Wh * Ww]
  /\ length (data (WindowAttention.relative_position_index m)) = (Wh * Ww) * (Wh * Ww)
  /\ Forall (fun v => (0 <= v < (2 * Z.of_nat Wh - 1) * (2 * Z.of_nat Ww - 1))%Z)
       (data (WindowAttention.relative_position_index m))
  /\ wf_Linear dim (3 * dim) (WindowAttention.qkv m)
  /\ Linear.bias (WindowAttention.qkv m) = None
  /\ (exists qb vb,
        WindowAttention.q_bias m = Some qb /\ WindowAttention.v_bias m = Some vb
        /\ shape (p_data qb) = [dim] /\ shape (p_data vb) = [dim])
  /\ wf_Linear dim dim (WindowAttention.proj m).

(** [SegmentMerging(d)] normalises vectors of length [2 d]. *)
Definition wf_SegmentMerging (d : nat) (m : SegmentMerging.t) : Prop :=
  LayerNorm.normalized_shape (SegmentMerging.norm m) = 2 * d.

(** The shapes [AttentionLayer(FullAttention(...), H * dk, H)] creates. *)
Definition wf_AttentionLayer (H dk : nat) (m : AttentionLayer.t) : Prop :=
  AttentionLayer.n_heads m = Z.of_nat H
  /\ LayerNorm.normalized_shape (AttentionLayer.norm m) = H * dk
  /\ LayerNorm.normalized_shape (AttentionLayer.norm_1 m) = H * dk
  /\ wf_Linear (H * dk) (H * dk) (AttentionLayer.query_projection m)
  /\ wf_Linear (H * dk) (H * dk) (AttentionLayer.key_projection m)
  /\ wf_Linear (H * dk) (H * dk) (AttentionLayer.value_projection m)
  /\ wf_Linear (H * dk) (H * dk) (AttentionLayer.out_projection m).

(** The shapes inside a model with [n] nodes, [8 k] patches of length [t]
    and prediction length [lp]. *)
Definition wf_HUTformer (n k t lp : nat) (m : HUTformer.t) : Prop :=
  HUTformer.len_patch m = Z.of_nat t
  /\ HUTformer.embed_dim m = 64%Z
  /\ shape (p_data (HUTformer.SE m)) = [n; 16]
  /\ wf_Linear t 64 (HUTformer.embedding m)
  /\ wf_Linear (8 * k * 64 + 18) (8 * k * 64) (HUTformer.STPE m)
  /\ wf_WindowAttention (8 * 8) 2 (4 * k) 8 (HUTformer.encoder_1 m)
  /\ wf_SegmentMerging 64 (HUTformer.encoder_2_0 m)
  /\ wf_WindowAttention (8 * 16) 2 (2 * k) 8 (HUTformer.encoder_2_1 m)
  /\ wf_SegmentMerging 128 (HUTformer.encoder_3_0 m)
  /\ wf_WindowAttention (8 * 32) 2 k 8 (HUTformer.encoder_3_1 m)
  /\ wf_Linear (8 * k * 64) lp (HUTformer.encoder_project m).

(** The shapes of the layers lines 303-309 add in mode 'decoder'. *)
Definition wf_decoder (k t : nat) (d : HUTformer.decoder_t) : Prop :=
  wf_WindowAttention (8 * 8) 2 (4 * k) 8 (HUTformer.decoder_1 d)
  /\ wf_Linear 128 64 (HUTformer.decoder_project_0 d)
  /\ wf_AttentionLayer 8 8 (HUTformer.decoder_2_0 d)
  /\ wf_WindowAttention (8 * 8) 2 (4 * k) 8 (HUTformer.decoder_2_1 d)
  /\ wf_AttentionLayer 8 8 (HUTformer.decoder_3_0 d)
  /\ wf_WindowAttention (8 * 8) 2 (4 * k) 8 (HUTformer.decoder_3_1 d)
  /\ wf_Linear 64 t (HUTformer.decoder_project d).

(** A change of parameters that leaves their values alone. *)
Definition keeps_data (f : string -> param -> param) : Prop :=
  forall name p, p_data (f name p) = p_data p.

(** The shapes inside the encoder of a model with [n] nodes, [P] patches of
    length [t] and prediction length [lp]; the window widths are the
    integer parts of [P/2], [P/4] and [P/8]. *)
Definition wf_encoder (n P t lp : nat) (m : HUTformer.t) : Prop :=
  HUTformer.len_patch m = Z.of_nat t
  /\ HUTformer.embed_dim m = 64%Z
  /\ shape (p_data (HUTformer.SE m)) = [n; 16]
  /\ wf_Linear t 64 (HUTformer.embedding m)
  /\ wf_Linear (P * 64 + 18) (P * 64) (HUTformer.STPE m)
  /\ wf_WindowAttention (8 * 8) 2 (P / 2) 8 (HUTformer.encoder_1 m)
  /\ wf_SegmentMerging 64 (HUTformer.encoder_2_0 m)
  /\ wf_WindowAttention (8 * 16) 2 (P / 4) 8 (HUTformer.encoder_2_1 m)
  /\ wf_SegmentMerging 128 (HUTformer.encoder_3_0 m)
  /\ wf_WindowAttention (8 * 32) 2 (P / 8) 8 (HUTformer.encoder_3_1 m)
  /\ wf_Linear (P * 64) lp (HUTformer.encoder_project m).

(** What [load_state_dict(..., strict=False)] does to one named parameter:
    the name and the gradient flag stay; an entry of the state dictionary
    under that name has the parameter's shape and becomes its value, and
    without an entry the value stays. *)
Definition loaded (sd : state_dict) (np' np : string * param) : Prop :=
  fst np' = fst np
  /\ requires_grad (snd np') = requires_grad (snd np)
  /\ match sd_lookup (fst np) sd with
     | Some tn => shape tn = shape (p_data (snd np)) /\ p_data (snd np') = tn
     | None => p_data (snd np') = p_data (snd np)
     end.

Section AttentionTail.
Context {F : FloatOps} {G : RandomGen}.

(** Lines 164-177 of [WindowAttention.forward]: what is done with the
    attention logits [attn] and the values [v]. *)
Definition attention_tail (m : WindowAttention.t) (B_ N C : nat)
    (mask : option (tensor Q)) (attn v : tensor Q) : M (tensor Q) :=
  attn <~ WindowAttention.masked_softmax m B_ N attn mask ;;
  attn <- Dropout.forward (WindowAttention.attn_drop m) attn ;;
  y <~ matmul attn v ;;
  y <~ transpose 1 2 y ;;
  y <~ reshape [Z.of_nat B_; Z.of_nat N; Z.of_nat C] y ;;
  y <~ Linear.forward (WindowAttention.proj m) y ;;
  Dropout.forward (WindowAttention.proj_drop m) y.

End AttentionTail.

(** * Facts *)

(** ** Multi-indices and [tabulate] *)

Lemma numel_app (s1 s2 : list nat) : numel (s1 ++ s2) = numel s1 * numel s2.
Proof.
  induction s1 as [|d s1 IH]; simpl; [lia|]. rewrite IH. lia.
Qed.

Lemma ravel_lt (s idx : list nat) : in_range s idx -> ravel s idx < numel s.
Proof.
  intros Hr. induction Hr as [|i d idx s Hi _ IH]; simpl; [lia|]. nia.
Qed.

Lemma unravel_ravel (s idx : list nat) :
  in_range s idx -> unravel s (ravel s idx) = idx.
Proof.
  intros Hr. induction Hr as [|i d idx s Hi Hr IH]; simpl; [reflexivity|].
  pose proof (ravel_lt s idx Hr) as Hlt.
  assert (Hn : numel s <> 0) by lia.
  rewrite Nat.div_add_l by exact Hn.
  rewrite (Nat.div_small _ _ Hlt), Nat.add_0_r.
  rewrite Nat.add_comm, Nat.Div0.mod_add, (Nat.mod_small _ _ Hlt), IH.
  reflexivity.
Qed.

Lemma unravel_in_range (s : list nat) (k : nat) :
  k < numel s -> in_range s (unravel s k).
Proof.
  revert k. induction s as [|d s IH]; intros k Hk; simpl in *; constructor.
  - apply Nat.Div0.div_lt_upper_bound. lia.
  - apply IH. apply Nat.mod_upper_bound. nia.
Qed.

Lemma nth_map_seq {A : Type} (g : nat -> A) (n k : nat) (d : A) :
  k < n -> nth k (map g (seq 0 n)) d = g k.
Proof.
  intros Hk. rewrite (nth_indep _ d (g 0)) by (rewrite length_map, length_seq; exact Hk).
  rewrite map_nth, seq_nth by exact Hk. reflexivity.
Qed.

Lemma get_tabulate {A : Type} `{Zero A} (s : list nat) (f : list nat -> A)
    (idx : list nat) :
  in_range s idx -> get (tabulate s f) idx = f idx.
Proof.
  intros Hr. unfold get, tabulate. simpl.
  rewrite nth_map_seq by (apply ravel_lt; exact Hr).
  rewrite unravel_ravel by exact Hr. reflexivity.
Qed.

Lemma tabulate_Forall {A : Type} (P : A -> Prop) (s : list nat) (f : list nat -> A) :
  (forall idx, in_range s idx -> P (f idx)) -> Forall P (data (tabulate s f)).
Proof.
  intros Hf. unfold tabulate. simpl. apply Forall_forall. intros v Hv.
  apply in_map_iff in Hv. destruct Hv as (k & <- & Hk).
  apply in_seq in Hk. apply Hf. apply unravel_in_range. lia.
Qed.

Lemma length_tabulate {A : Type} (s : list nat) (f : list nat -> A) :
  length (data (tabulate s f)) = numel s.
Proof.
  unfold tabulate. simpl. rewrite length_map, length_seq. reflexivity.
Qed.

Lemma in_range_1 (a i : nat) : i < a -> in_range [a] [i].
Proof. intros. repeat constructor; assumption. Qed.

Lemma in_range_2 (a b i j : nat) : i < a -> j < b -> in_range [a; b] [i; j].
Proof. intros. repeat constructor; assumption. Qed.

Lemma in_range_3 (a b c i j k : nat) :
  i < a -> j < b -> k < c -> in_range [a; b; c] [i; j; k].
Proof. intros. repeat constructor; assumption. Qed.



Lemma list_eqb_refl (l : list nat) : list_eqb l l = true.
Proof. unfold list_eqb. destruct (list_eq_dec Nat.eq_dec l l); congruence. Qed.

Lemma list_eqb_eq (l1 l2 : list nat) : list_eqb l1 l2 = true <-> l1 = l2.
Proof.
  unfold list_eqb. destruct (list_eq_dec Nat.eq_dec l1 l2); split; congruence.
Qed.

(** ** The truncated normal initialiser *)

Section TruncNormalFacts.
Context {F : FloatOps} {G : RandomGen} {L : FloatLaws F}.

Lemma norm_cdf_mono (x y : Q) : (x <= y)%Q -> (norm_cdf x <= norm_cdf y)%Q.
Proof.
  intros Hxy. unfold norm_cdf.
  assert (Hs : (0 < / f_sqrt 2)%Q).
  { apply Qinv_lt_0_compat. apply f_sqrt_pos. reflexivity. }
  assert (He : (f_erf (x / f_sqrt 2) <= f_erf (y / f_sqrt 2))%Q).
  { apply f_erf_mono. unfold Qdiv. apply Qmult_le_compat_r; [exact Hxy|].
    apply Qlt_le_weak. exact Hs. }
  unfold Qdiv. apply Qmult_le_compat_r; [|discriminate].
  apply Qplus_le_r. exact He.
Qed.

Lemma draw_uniform_length (lo hi : Q) (n : nat) (g : rng) :
  length (fst (draw_uniform lo hi n g)) = n.
Proof.
  revert g. induction n as [|n IH]; intros g; simpl; [reflexivity|].
  destruct (uniform_draw lo hi g) as [v g1].
  specialize (IH g1). destruct (draw_uniform lo hi n g1) as [vs g2].
  simpl in *. congruence.
Qed.

Lemma uniform_ok (lo hi : Q) (x : tensor Q) (g : rng) :
  (lo <= hi)%Q ->
  exists y g', uniform_ lo hi x g = Ok (y, g')
               /\ shape y = shape x /\ length (data y) = numel (shape x).
Proof.
  intros Hle. unfold uniform_.
  apply Qle_bool_iff in Hle. rewrite Hle.
  pose proof (draw_uniform_length lo hi (numel (shape x)) g) as Hlen.
  destruct (draw_uniform lo hi (numel (shape x)) g) as [vs g'].
  exists (mkTensor (shape x) vs), g'. simpl in *. auto.
Qed.

(** The bounds of the uniform draw are in order, so the call returns. *)
Lemma no_grad_trunc_normal_run (t : tensor Q) (mean std a b : Q) (g : rng) :
  (a < b)%Q -> (0 < std)%Q ->
  exists t' g',
    _no_grad_trunc_normal_ t mean std a b g = Ok (t', g')
    /\ shape t' = shape t
    /\ length (data t') = numel (shape t).
Proof.
  intros Hab Hstd. unfold _no_grad_trunc_normal_.
  destruct (Qeq_bool std 0) eqn:Hz.
  { apply Qeq_bool_iff in Hz. rewrite Hz in Hstd. discriminate Hstd. }
  set (l := norm_cdf ((a - mean) / std)).
  set (u := norm_cdf ((b - mean) / std)).
  assert (Hlu : (l <= u)%Q).
  { apply norm_cdf_mono. unfold Qdiv. apply Qmult_le_compat_r.
    - apply Qplus_le_l. apply Qlt_le_weak. exact Hab.
    - apply Qlt_le_weak, Qinv_lt_0_compat. exact Hstd. }
  assert (Hle : (2 * l - 1 <= 2 * u - 1)%Q).
  { apply Qplus_le_l. apply Qmult_le_l; [reflexivity | exact Hlu]. }
  destruct (uniform_ok _ _ t g Hle) as (t1 & g' & Hu & Hs & Hlen).
  unfold bind. rewrite Hu. unfold ret, map_t. simpl.
  eexists. eexists. split; [reflexivity|]. simpl.
  split; [exact Hs|].
  rewrite !length_map. exact Hlen.
Qed.

End TruncNormalFacts.

Lemma demo_float_laws : FloatLaws demo_float.
Proof.
  constructor; simpl.
  - intros x. apply Qabs_nonneg.
  - intros x Hx. rewrite Qabs_pos by (apply Qlt_le_weak; exact Hx). exact Hx.
  - intros x y Hxy. apply Q.max_le_compat_l. apply Q.min_le_compat_l. exact Hxy.
Qed.

(** ** The initialiser on IEEE 754 values *)

Section IEEEFacts.
Import SpecFloat.
Context {L : IEEE.LibM} {R : IEEE.Sampler}.

Lemma SFcompare_refl (x : IEEE.float) :
  x <> S754_nan -> SFcompare x x = Some Eq.
Proof.
  destruct x as [s|s| |s m e]; intros H; simpl; try congruence.
  - destruct s; reflexivity.
  - rewrite Z.compare_refl, Pos.compare_cont_refl. destruct s; reflexivity.
Qed.

Lemma SFleb_not_nan (x y : IEEE.float) : SFleb x y = true -> x <> S754_nan.
Proof. intros H E. subst x. discriminate H. Qed.

Lemma between_zeros (v : IEEE.float) :
  SFleb (S754_zero false) v = true -> SFleb v (S754_zero false) = true ->
  exists s, v = S754_zero s.
Proof.
  destruct v as [s|s| |s m e]; intros H1 H2.
  - exists s. reflexivity.
  - destruct s; discriminate.
  - discriminate.
  - destruct s; discriminate.
Qed.

Lemma IEEE_draw_uniform_length (lo hi : IEEE.float) (n : nat) (g : IEEE.state) :
  length (fst (IEEE.draw_uniform lo hi n g)) = n.
Proof.
  revert g. induction n as [|n IH]; intros g; simpl; [reflexivity|].
  destruct (IEEE.draw lo hi g) as [v g1].
  specialize (IH g1). destruct (IEEE.draw_uniform lo hi n g1) as [vs g2].
  simpl in *. congruence.
Qed.

Lemma IEEE_draw_uniform_between {RL : IEEE.SamplerLaws R} (lo hi : IEEE.float)
    (n : nat) (g : IEEE.state) :
  SFleb lo hi = true ->
  Forall (fun v => SFleb lo v = true /\ SFleb v hi = true)
         (fst (IEEE.draw_uniform lo hi n g)).
Proof.
  intros Hle. revert g. induction n as [|n IH]; intros g; simpl; [constructor|].
  pose proof (IEEE.draw_between lo hi g Hle) as Hv.
  destruct (IEEE.draw lo hi g) as [v g1].
  specialize (IH g1). destruct (IEEE.draw_uniform lo hi n g1) as [vs g2].
  simpl in *. constructor; assumption.
Qed.

Lemma IEEE_clamp_nan (lo hi : IEEE.float) : IEEE.clamp lo hi S754_nan = S754_nan.
Proof.
  unfold IEEE.clamp. cbn.
  destruct hi as [s|s| |s m e]; reflexivity.
Qed.

Lemma IEEE_within_nan (a b : IEEE.float) : IEEE.within a b S754_nan = false.
Proof.
  unfold IEEE.within. cbn. destruct a as [s|s| |s m e]; reflexivity.
Qed.

(** C8, at [mean=0., std=1e39, a=-2., b=2.]: for every tensor, every state
    of the sampler and every [erf], [erfinv] and sampler that keep the laws
    above, the initialiser returns a tensor of the same shape whose every
    element is NaN, and so lies outside [[a, b]].  Both bounds of the
    uniform draw are zero, [erfinv] keeps the zeros, [std * sqrt 2] is an
    infinity in binary32, zero times infinity is NaN, and neither [add_]
    nor [clamp_] changes a NaN. *)
Theorem trunc_normal_overflow_nan {LL : IEEE.LibMLaws L} {RL : IEEE.SamplerLaws R}
    (t : tensor IEEE.float) (g : IEEE.state) :
  exists t' g',
    IEEE._no_grad_trunc_normal_ t (IEEE.lit 0 0) (IEEE.lit (10 ^ 39) 0)
      (SFopp (IEEE.lit 2 0)) (IEEE.lit 2 0) g = Ok (t', g')
    /\ shape t' = shape t
    /\ length (data t') = numel (shape t)
    /\ Forall (fun v => v = S754_nan
                        /\ IEEE.within (SFopp (IEEE.lit 2 0)) (IEEE.lit 2 0) v = false)
              (data t').
Proof.
  unfold IEEE._no_grad_trunc_normal_.
  replace (SFeqb (IEEE.lit (10 ^ 39) 0) (S754_zero false)) with false
    by (vm_compute; reflexivity).
  unfold IEEE.norm_cdf.
  rewrite !IEEE.erf_tiny by (vm_compute; reflexivity).
  replace (IEEE.sub64 (IEEE.mul64 (IEEE.lit 2 0)
             (IEEE.div64 (IEEE.lit 1 0) (IEEE.lit 2 0))) (IEEE.lit 1 0))
    with (S754_zero false) by (vm_compute; reflexivity).
  unfold IEEE.uniform_.
  replace (IEEE.in_float32_range (S754_zero false)) with true
    by (vm_compute; reflexivity).
  cbn [andb SFleb SFcompare IEEE.to_float32].
  pose proof (IEEE_draw_uniform_length (S754_zero false) (S754_zero false)
                (numel (shape t)) g) as Hlen.
  pose proof (IEEE_draw_uniform_between (S754_zero false) (S754_zero false)
                (numel (shape t)) g eq_refl) as Hbt.
  destruct (IEEE.draw_uniform (S754_zero false) (S754_zero false)
              (numel (shape t)) g) as [vs g'].
  cbn [fst] in Hlen, Hbt. cbn [bindR].
  replace (IEEE.to_float32 (IEEE.mul64 (IEEE.lit (10 ^ 39) 0) (IEEE.sqrt64 (IEEE.lit 2 0))))
    with (S754_infinity false) by (vm_compute; reflexivity).
  unfold IEEE.clamp_.
  replace (IEEE.is_nan (SFopp (IEEE.lit 2 0))) with false by (vm_compute; reflexivity).
  replace (IEEE.is_nan (IEEE.lit 2 0)) with false by (vm_compute; reflexivity).
  replace (IEEE.scalar_to_float32 (SFopp (IEEE.lit 2 0)))
    with (Ok (IEEE.to_float32 (SFopp (IEEE.lit 2 0)))) by (vm_compute; reflexivity).
  replace (IEEE.scalar_to_float32 (IEEE.lit 2 0))
    with (Ok (IEEE.to_float32 (IEEE.lit 2 0))) by (vm_compute; reflexivity).
  cbn [orb bindR].
  eexists. eexists. split; [reflexivity|].
  unfold map_t. cbn [shape data].
  split; [reflexivity|]. split; [rewrite !length_map; exact Hlen|].
  rewrite !Forall_map. eapply Forall_impl; [|exact Hbt].
  intros v [H1 H2]. cbv beta.
  destruct (between_zeros v H1 H2) as [s ->].
  rewrite IEEE.erfinv_zero.
  cbn [IEEE.mul32 SFmul IEEE.add32 SFadd].
  rewrite IEEE_clamp_nan. split; [reflexivity | apply IEEE_within_nan].
Qed.

End IEEEFacts.

Lemma demo_libm_laws : IEEE.LibMLaws demo_libm.
Proof.
  constructor; cbn [IEEE.erf IEEE.erfinv demo_libm].
  - intros x Hx. rewrite Hx. vm_compute. reflexivity.
  - reflexivity.
Qed.

Lemma demo_sampler_laws : IEEE.SamplerLaws demo_sampler.
Proof.
  constructor. cbn [IEEE.draw demo_sampler fst]. intros lo hi _ Hle.
  split; [|exact Hle].
  unfold SpecFloat.SFleb. rewrite SFcompare_refl; [reflexivity|].
  exact (SFleb_not_nan lo hi Hle).
Qed.

Lemma trunc_normal_overflow_nan_witness :
  exists t' g',
    @IEEE._no_grad_trunc_normal_ demo_libm demo_sampler
      (full [2; 3] (SpecFloat.S754_zero false)) (IEEE.lit 0 0) (IEEE.lit (10 ^ 39) 0)
      (SpecFloat.SFopp (IEEE.lit 2 0)) (IEEE.lit 2 0) tt = Ok (t', g')
    /\ shape t' = [2; 3]
    /\ length (data t') = 6
    /\ Forall (fun v => v = SpecFloat.S754_nan
                        /\ IEEE.within (SpecFloat.SFopp (IEEE.lit 2 0)) (IEEE.lit 2 0) v
                           = false)
              (data t').
Proof.
  exact (@trunc_normal_overflow_nan demo_libm demo_sampler
           demo_libm_laws demo_sampler_laws
           (full [2; 3] (SpecFloat.S754_zero false)) tt).
Defined.

(** ** Vectors along the last axis *)

Lemma map_nth_seq {A : Type} (l : list A) (d : A) :
  map (fun j => nth j l d) (seq 0 (length l)) = l.
Proof.
  apply nth_ext with (d := d) (d' := d).
  - rewrite length_map, length_seq. reflexivity.
  - intros k Hk. rewrite length_map, length_seq in Hk.
    rewrite nth_map_seq by exact Hk. reflexivity.
Qed.

Lemma seq_from (a n : nat) : seq a n = map (fun j => a + j) (seq 0 n).
Proof.
  revert a. induction n as [|n IH]; intros a; simpl; [reflexivity|].
  rewrite Nat.add_0_r. f_equal. rewrite (IH (S a)), (IH 1), map_map.
  apply map_ext. intros j. lia.
Qed.

Lemma shape_map_rows {A : Type} `{Zero A} (f : list A -> list A) (x : tensor A) :
  shape (map_rows f x) = shape x.
Proof. reflexivity. Qed.

Lemma removelast_snoc {A : Type} (l : list A) (a : A) : removelast (l ++ [a]) = l.
Proof. apply removelast_last. Qed.

Lemma last_snoc {A : Type} (l : list A) (a d : A) : last (l ++ [a]) d = a.
Proof. apply last_last. Qed.

Lemma in_range_snoc (s pre : list nat) (n j : nat) :
  in_range s pre -> j < n -> in_range (s ++ [n]) (pre ++ [j]).
Proof.
  intros Hr Hj. apply Forall2_app; [exact Hr|]. repeat constructor. exact Hj.
Qed.

(** A row of [map_rows f x] is [f] of the row of [x], when [f] keeps the
    length. *)
Lemma row_map_rows {A : Type} `{Zero A} (f : list A -> list A) (x : tensor A)
    (s pre : list nat) (n : nat) :
  shape x = s ++ [n] ->
  in_range s pre ->
  length (f (row x pre)) = n ->
  row (map_rows f x) pre = f (row x pre).
Proof.
  intros Hs Hr Hlen.
  unfold row at 1. rewrite shape_map_rows, Hs, last_snoc.
  rewrite <- Hlen at 1.
  rewrite <- (map_nth_seq (f (row x pre)) zero) at 2.
  apply map_ext_in. intros j Hj. apply in_seq in Hj.
  unfold map_rows. rewrite get_tabulate.
  - rewrite removelast_snoc, last_snoc. reflexivity.
  - rewrite Hs. apply in_range_snoc; [exact Hr | lia].
Qed.

Lemma length_row {A : Type} `{Zero A} (x : tensor A) (pre : list nat) :
  length (row x pre) = last (shape x) 0.
Proof. unfold row. rewrite length_map, length_seq. reflexivity. Qed.

(** ** SegmentMerging *)

Section SegmentMergingFacts.
Context {F : FloatOps}.

Lemma length_norm_row (m : LayerNorm.t) (r : list Q) :
  length (LayerNorm.norm_row m r) = length r.
Proof.
  unfold LayerNorm.norm_row. rewrite length_map, length_combine, length_seq. lia.
Qed.

Lemma rearrange_merge_pairs_ok (x : tensor Q) (b p d : nat) :
  shape x = [b; 2 * p; d] ->
  rearrange_merge_pairs x
  = Ok (tabulate [b; p; 2 * d]
          (fun idx => get x [ix idx 0; ix idx 1 * 2 + ix idx 2 / d; ix idx 2 mod d])).
Proof.
  intros Hs. unfold rearrange_merge_pairs. rewrite Hs.
  replace ((2 * p) mod 2 =? 0) with true by (symmetry; apply Nat.eqb_eq; lia).
  replace (2 * p / 2) with p by lia. reflexivity.
Qed.

Lemma row_merge_pairs (x : tensor Q) (b p d bi i : nat) :
  bi < b -> i < p ->
  row (tabulate [b; p; 2 * d]
         (fun idx => get x [ix idx 0; ix idx 1 * 2 + ix idx 2 / d; ix idx 2 mod d]))
      [bi; i]
  = map (fun j => get x [bi; 2 * i; j]) (seq 0 d)
    ++ map (fun j => get x [bi; 2 * i + 1; j]) (seq 0 d).
Proof.
  intros Hb Hi. unfold row. cbn [shape tabulate last].
  replace (2 * d) with (d + d) by lia.
  rewrite seq_app, map_app. f_equal.
  - apply map_ext_in. intros j Hj. apply in_seq in Hj.
    rewrite get_tabulate by (apply in_range_3; lia).
    cbn [app ix nth].
    replace (j / d) with 0 by (symmetry; apply Nat.div_small; lia).
    rewrite Nat.mod_small by lia.
    replace (i * 2 + 0) with (2 * i) by lia. reflexivity.
  - cbn [Nat.add]. rewrite (seq_from d d).
    rewrite map_map. apply map_ext_in. intros j Hj. apply in_seq in Hj.
    rewrite get_tabulate by (apply in_range_3; lia).
    cbn [app ix nth].
    replace ((d + j) / d) with 1 by (apply Nat.div_unique with j; lia).
    replace ((d + j) mod d) with j by (apply Nat.mod_unique with 1; lia).
    replace (i * 2 + 1) with (2 * i + 1) by lia. reflexivity.
Qed.

(** C4.  A [SegmentMerging] built for channel width [d] maps every input
    of shape [(b, 2p, d)] to a tensor of shape [(b, p, 2d)] whose token [i]
    is the layer normalisation of the channels of position [2i] followed
    by those of position [2i+1]; on every input whose sequence axis has an
    odd length the call raises. *)
Theorem SegmentMerging_forward_pairs (m : SegmentMerging.t) :
  (forall (x : tensor Q) (b p d : nat),
      shape x = [b; 2 * p; d] ->
      LayerNorm.normalized_shape (SegmentMerging.norm m) = 2 * d ->
      exists y,
        SegmentMerging.forward m x = Ok y
        /\ shape y = [b; p; 2 * d]
        /\ forall bi i, bi < b -> i < p ->
             row y [bi; i]
             = LayerNorm.norm_row (SegmentMerging.norm m)
                 (row x [bi; 2 * i] ++ row x [bi; 2 * i + 1]))
  /\ (forall (x : tensor Q) (b l d : nat),
        shape x = [b; l; d] ->
        Nat.odd l = true ->
        exists e, SegmentMerging.forward m x = Raise e).
Proof.
  split.
  - intros x b p d Hs Hn.
    unfold SegmentMerging.forward.
    rewrite (rearrange_merge_pairs_ok x b p d Hs). cbn [bindR].
    set (y0 := tabulate [b; p; 2 * d] _).
    unfold LayerNorm.forward.
    replace (rank y0) with 3 by reflexivity.
    replace (last (shape y0) 0) with (2 * d) by reflexivity.
    rewrite Hn, Nat.eqb_refl. cbn [Nat.ltb Nat.leb andb].
    eexists. split; [reflexivity|]. split; [reflexivity|].
    intros bi i Hb Hi.
    rewrite (row_map_rows _ y0 [b; p] [bi; i] (2 * d)).
    + unfold y0. rewrite (row_merge_pairs x b p d bi i Hb Hi).
      unfold row. rewrite Hs. reflexivity.
    + reflexivity.
    + apply in_range_2; assumption.
    + rewrite length_norm_row, length_row. reflexivity.
  - intros x b l d Hs Hodd.
    unfold SegmentMerging.forward, rearrange_merge_pairs. rewrite Hs.
    replace (l mod 2 =? 0) with false.
    + eexists. reflexivity.
    + symmetry. apply Nat.eqb_neq. rewrite Nat.odd_spec in Hodd.
      destruct Hodd as [k Hk]. lia.
Qed.

End SegmentMergingFacts.

Lemma SegmentMerging_forward_pairs_witness :
  let m := SegmentMerging.mk 1
             (LayerNorm.mk 2 (nn_Parameter (full [2] 1%Q)) (nn_Parameter (full [2] 0%Q))
                (1 # 100000)) in
  let x := mkTensor [1; 2; 1] [3%Q; 5%Q] in
  let x' := mkTensor [1; 3; 1] [3%Q; 5%Q; 7%Q] in
  (exists y,
      @SegmentMerging.forward demo_float m x = Ok y
      /\ shape y = [1; 1; 2 * 1]
      /\ forall bi i, bi < 1 -> i < 1 ->
           row y [bi; i]
           = @LayerNorm.norm_row demo_float (SegmentMerging.norm m)
               (row x [bi; 2 * i] ++ row x [bi; 2 * i + 1]))
  /\ (exists e, @SegmentMerging.forward demo_float m x' = Raise e).
Proof.
  intros m x x'. split.
  - apply (proj1 (@SegmentMerging_forward_pairs demo_float m) x 1 1 1); reflexivity.
  - apply (proj2 (@SegmentMerging_forward_pairs demo_float m) x' 1 3 1); reflexivity.
Defined.

(** ** Broadcasting *)

Lemma bdim_same (a : nat) : bdim a a = Ok a.
Proof. unfold bdim. rewrite Nat.eqb_refl. reflexivity. Qed.


Lemma bc_fits_refl (r : list nat) : bc_fits r r.
Proof. induction r; constructor; assumption. Qed.

Lemma bc_rev_fits_r (r1 r2 : list nat) :
  bc_fits r2 r1 -> bc_rev r1 r2 = Ok r1.
Proof.
  intros Hf. induction Hf as [r | a r2 r1 Hf IH | a r2 r1 Hf IH].
  - destruct r; reflexivity.
  - cbn [bc_rev]. rewrite IH. cbn [bindR]. rewrite Nat.eqb_refl. reflexivity.
  - cbn [bc_rev]. rewrite IH. cbn [bindR].
    destruct (Nat.eqb_spec a 1) as [->|Hne]; reflexivity.
Qed.

Lemma bc_rev_fits_l (r1 r2 : list nat) :
  bc_fits r1 r2 -> bc_rev r1 r2 = Ok r2.
Proof.
  intros Hf. induction Hf as [r | a r2 r1 Hf IH | a r2 r1 Hf IH].
  - reflexivity.
  - cbn [bc_rev]. rewrite IH. cbn [bindR]. rewrite Nat.eqb_refl. reflexivity.
  - cbn [bc_rev]. rewrite IH. cbn [bindR].
    destruct (Nat.eqb_spec 1 a) as [<-|Hne]; reflexivity.
Qed.

Lemma bc_shape_fits_r (s1 s2 : list nat) :
  bc_fits (rev s2) (rev s1) -> bc_shape s1 s2 = Ok s1.
Proof.
  intros Hf. unfold bc_shape. rewrite (bc_rev_fits_r _ _ Hf). cbn [bindR].
  rewrite rev_involutive. reflexivity.
Qed.

Lemma bc_shape_fits_l (s1 s2 : list nat) :
  bc_fits (rev s1) (rev s2) -> bc_shape s1 s2 = Ok s2.
Proof.
  intros Hf. unfold bc_shape. rewrite (bc_rev_fits_l _ _ Hf). cbn [bindR].
  rewrite rev_involutive. reflexivity.
Qed.

Lemma bc_shape_same (s : list nat) : bc_shape s s = Ok s.
Proof. apply bc_shape_fits_r. apply bc_fits_refl. Qed.


Lemma binop_same_shape {A : Type} `{Zero A} (f : A -> A -> A) (x y : tensor A) :
  shape y = shape x ->
  binop f x y
  = Ok (tabulate (shape x)
          (fun idx => f (get x (bc_index (shape x) idx)) (get y (bc_index (shape y) idx)))).
Proof.
  intros Hs. unfold binop. rewrite Hs, bc_shape_same. reflexivity.
Qed.


(** ** Dropout *)

Section DropoutFacts.
Context {G : RandomGen}.

Lemma Dropout_forward_ok (d : Dropout.t) (x : tensor Q) (g : rng) :
  exists y g',
    Dropout.forward d x g = Ok (y, g')
    /\ shape y = shape x
    /\ (Dropout.training d = false -> y = x /\ g' = g).
Proof.
  unfold Dropout.forward. destruct (Dropout.training d).
  - destruct (draw_mask _ _ g) as [mask g'].
    eexists. eexists. split; [reflexivity|]. split; [reflexivity|]. discriminate.
  - exists x, g. auto.
Qed.

End DropoutFacts.

(** ** FullAttention *)

Section FullAttentionFacts.
Context {F : FloatOps} {G : RandomGen}.

Lemma einsum_scores_ok (q k : tensor Q) (B L S_ H E : nat) :
  shape q = [B; L; H; E] ->
  shape k = [B; S_; H; E] ->
  einsum_blhe_bshe_bhls q k
  = Ok (tabulate [B; H; L; S_]
          (fun idx =>
             sumQ (map (fun ei =>
                          (get q [bix B (ix idx 0); ix idx 2; bix H (ix idx 1); bix E ei]
                           * get k [bix B (ix idx 0); ix idx 3; bix H (ix idx 1); bix E ei])%Q)
                     (seq 0 E)))).
Proof.
  intros Hq Hk. unfold einsum_blhe_bshe_bhls. rewrite Hq, Hk, !bdim_same. reflexivity.
Qed.

Lemma einsum_values_ok (a v : tensor Q) (B L S_ H D : nat) :
  shape a = [B; H; L; S_] ->
  shape v = [B; S_; H; D] ->
  einsum_bhls_bshd_blhd a v
  = Ok (tabulate [B; L; H; D]
          (fun idx =>
             sumQ (map (fun si =>
                          (get a [bix B (ix idx 0); bix H (ix idx 2); ix idx 1; bix S_ si]
                           * get v [bix B (ix idx 0); bix S_ si; bix H (ix idx 2); ix idx 3])%Q)
                     (seq 0 S_)))).
Proof.
  intros Ha Hv. unfold einsum_bhls_bshd_blhd. rewrite Ha, Hv, !bdim_same. reflexivity.
Qed.



End FullAttentionFacts.


(** ** Running the state monad backwards *)

Section MonadFacts.
Context {G : RandomGen}.

Lemma bind_Ok_inv {A B : Type} (c : M A) (k : A -> M B) (g : rng) (r : B * rng) :
  bind c k g = Ok r -> exists a g1, c g = Ok (a, g1) /\ k a g1 = Ok r.
Proof.
  unfold bind. destruct (c g) as [[a g1]|e]; [|discriminate].
  intros Hk. exists a, g1. auto.
Qed.

Lemma lift_Ok_inv {A : Type} (c : result A) (g g' : rng) (a : A) :
  lift c g = Ok (a, g') -> c = Ok a /\ g' = g.
Proof.
  unfold lift. destruct c; [|discriminate]. intros [= -> ->]. auto.
Qed.

Lemma ret_Ok_inv {A : Type} (a b : A) (g g' : rng) :
  ret a g = Ok (b, g') -> b = a /\ g' = g.
Proof. unfold ret. intros [= -> ->]. auto. Qed.

Lemma bind_Ok {A B : Type} (c : M A) (k : A -> M B) (g g1 : rng) (a : A) :
  c g = Ok (a, g1) -> bind c k g = k a g1.
Proof. intros Hc. unfold bind. rewrite Hc. reflexivity. Qed.

Lemma bind_lift_Ok {A B : Type} (c : result A) (k : A -> M B) (g : rng) (a : A) :
  c = Ok a -> bind (lift c) k g = k a g.
Proof. intros ->. reflexivity. Qed.

Lemma bind_lift_Raise {A B : Type} (c : result A) (k : A -> M B) (g : rng) (e : exn) :
  c = Raise e -> bind (lift c) k g = Raise e.
Proof. intros ->. reflexivity. Qed.

End MonadFacts.

Lemma bindR_Ok_inv {A B : Type} (c : result A) (k : A -> result B) (b : B) :
  bindR c k = Ok b -> exists a, c = Ok a /\ k a = Ok b.
Proof. destruct c; [|discriminate]. intros Hk. eauto. Qed.

(** Splits a successful run of a sequence of monadic steps into the runs of
    its steps. *)
Ltac minv H :=
  repeat
    (cbv beta in H;
     match type of H with
     | bind _ _ _ = Ok _ =>
         let a := fresh "a" in
         let g := fresh "g" in
         let H1 := fresh "Hstep" in
         apply bind_Ok_inv in H; destruct H as (a & g & H1 & H);
         try (apply lift_Ok_inv in H1; destruct H1 as [H1 ->])
     | ret _ _ = Ok _ => apply ret_Ok_inv in H; destruct H as [-> ->]
     | bindR _ _ = Ok _ =>
         let a := fresh "a" in
         let H1 := fresh "Hstep" in
         apply bindR_Ok_inv in H; destruct H as (a & H1 & H)
     end).

(** ** Parameter names and gradient flags *)

Lemma apply_named_app (f : string -> param -> param) (l1 l2 : list (string * param)) :
  apply_named f (l1 ++ l2) = apply_named f l1 ++ apply_named f l2.
Proof. apply map_app. Qed.

Lemma all_grad_app (l1 l2 : list (string * param)) :
  all_grad l1 -> all_grad l2 -> all_grad (l1 ++ l2).
Proof. intros H1 H2. apply Forall_app. auto. Qed.

Lemma opt_named_map (f : string -> param -> param) (name : string) (p : option param) :
  opt_named name (option_map (f name) p) = apply_named f (opt_named name p).
Proof. destruct p; reflexivity. Qed.

Lemma Linear_named_map (f : string -> param -> param) (prefix : string) (m : Linear.t) :
  Linear.named_parameters prefix (Linear.map_parameters f prefix m)
  = apply_named f (Linear.named_parameters prefix m).
Proof.
  unfold Linear.named_parameters, Linear.map_parameters. cbn [Linear.weight Linear.bias].
  rewrite opt_named_map. reflexivity.
Qed.

Lemma LayerNorm_named_map (f : string -> param -> param) (prefix : string)
    (m : LayerNorm.t) :
  LayerNorm.named_parameters prefix (LayerNorm.map_parameters f prefix m)
  = apply_named f (LayerNorm.named_parameters prefix m).
Proof. reflexivity. Qed.

Lemma WindowAttention_named_map (f : string -> param -> param) (prefix : string)
    (m : WindowAttention.t) :
  WindowAttention.named_parameters prefix (WindowAttention.map_parameters f prefix m)
  = apply_named f (WindowAttention.named_parameters prefix m).
Proof.
  unfold WindowAttention.named_parameters, WindowAttention.map_parameters.
  cbn [WindowAttention.logit_scale WindowAttention.q_bias WindowAttention.v_bias
       WindowAttention.cpb_mlp_0 WindowAttention.cpb_mlp_2 WindowAttention.qkv
       WindowAttention.proj].
  rewrite !Linear_named_map, !opt_named_map.
  unfold apply_named. cbn [map]. rewrite !map_app. reflexivity.
Qed.

Lemma SegmentMerging_named_map (f : string -> param -> param) (prefix : string)
    (m : SegmentMerging.t) :
  SegmentMerging.named_parameters prefix (SegmentMerging.map_parameters f prefix m)
  = apply_named f (SegmentMerging.named_parameters prefix m).
Proof. reflexivity. Qed.

Lemma AttentionLayer_named_map (f : string -> param -> param) (prefix : string)
    (m : AttentionLayer.t) :
  AttentionLayer.named_parameters prefix (AttentionLayer.map_parameters f prefix m)
  = apply_named f (AttentionLayer.named_parameters prefix m).
Proof.
  unfold AttentionLayer.named_parameters, AttentionLayer.map_parameters.
  cbn [AttentionLayer.query_projection AttentionLayer.key_projection
       AttentionLayer.value_projection AttentionLayer.out_projection
       AttentionLayer.norm AttentionLayer.norm_1].
  rewrite !Linear_named_map, !LayerNorm_named_map.
  unfold apply_named. rewrite !map_app. reflexivity.
Qed.

Lemma decoder_named_map (f : string -> param -> param) (d : HUTformer.decoder_t) :
  HUTformer.decoder_named_parameters (HUTformer.decoder_map_parameters f d)
  = apply_named f (HUTformer.decoder_named_parameters d).
Proof.
  unfold HUTformer.decoder_named_parameters, HUTformer.decoder_map_parameters.
  cbn [HUTformer.decoder_1 HUTformer.decoder_project_0 HUTformer.decoder_2_0
       HUTformer.decoder_2_1 HUTformer.decoder_3_0 HUTformer.decoder_3_1
       HUTformer.decoder_project].
  rewrite !Linear_named_map, !WindowAttention_named_map, !AttentionLayer_named_map.
  unfold apply_named. rewrite !map_app. reflexivity.
Qed.

Lemma encoder_named_map (f : string -> param -> param) (m : HUTformer.t) :
  HUTformer.encoder_named_parameters (HUTformer.map_parameters f m)
  = apply_named f (HUTformer.encoder_named_parameters m).
Proof.
  unfold HUTformer.encoder_named_parameters, HUTformer.map_parameters.
  cbn [HUTformer.SE HUTformer.embedding HUTformer.STPE HUTformer.encoder_1
       HUTformer.encoder_2_0 HUTformer.encoder_2_1 HUTformer.encoder_3_0
       HUTformer.encoder_3_1 HUTformer.encoder_project].
  rewrite !Linear_named_map, !WindowAttention_named_map, !SegmentMerging_named_map.
  unfold apply_named. cbn [map fst snd]. rewrite !map_app. reflexivity.
Qed.

Lemma HUTformer_named_map (f : string -> param -> param) (m : HUTformer.t) :
  HUTformer.named_parameters (HUTformer.map_parameters f m)
  = apply_named f (HUTformer.named_parameters m).
Proof.
  unfold HUTformer.named_parameters. rewrite apply_named_app, encoder_named_map.
  f_equal. destruct m as [? ? ? ? ? ? ? ? ? ? ? ? ? ? ? ? ? ? ? ? [d|]]; [|reflexivity].
  apply decoder_named_map.
Qed.

Lemma opt_named_names (name : string) (p : option param) :
  incl (map fst (opt_named name p)) [name].
Proof. destruct p; cbn; [apply incl_refl | apply incl_nil_l]. Qed.

Lemma Linear_names_incl (prefix : string) (m : Linear.t) :
  incl (map fst (Linear.named_parameters prefix m)) (Linear_names prefix).
Proof.
  unfold Linear.named_parameters, Linear_names. cbn [map fst].
  apply incl_cons; [left; reflexivity|].
  apply incl_tl. apply opt_named_names.
Qed.

Lemma LayerNorm_names_incl (prefix : string) (m : LayerNorm.t) :
  incl (map fst (LayerNorm.named_parameters prefix m)) (LayerNorm_names prefix).
Proof. apply incl_refl. Qed.

Lemma incl_app_app {A : Type} (l1 l2 m1 m2 : list A) :
  incl l1 m1 -> incl l2 m2 -> incl (l1 ++ l2) (m1 ++ m2).
Proof.
  intros H1 H2. apply incl_app; [apply incl_appl | apply incl_appr]; assumption.
Qed.

Lemma WindowAttention_names_incl (prefix : string) (m : WindowAttention.t) :
  incl (map fst (WindowAttention.named_parameters prefix m))
       (WindowAttention_names prefix).
Proof.
  unfold WindowAttention.named_parameters, WindowAttention_names.
  cbn [map fst app]. rewrite !map_app.
  apply incl_cons; [left; reflexivity|]. apply incl_tl.
  change (?a :: ?b :: ?l) with ([a] ++ [b] ++ l).
  repeat (apply incl_app_app;
          [first [apply opt_named_names | apply Linear_names_incl]|]).
  apply Linear_names_incl.
Qed.

Lemma encoder_names_incl (m : HUTformer.t) :
  incl (map fst (HUTformer.encoder_named_parameters m)) encoder_names.
Proof.
  unfold HUTformer.encoder_named_parameters, encoder_names.
  cbn [map fst]. rewrite !map_app.
  apply incl_cons; [left; reflexivity|]. apply incl_tl.
  unfold SegmentMerging.named_parameters.
  repeat (apply incl_app_app;
          [first [apply Linear_names_incl | apply WindowAttention_names_incl
                 | apply LayerNorm_names_incl]|]).
  apply Linear_names_incl.
Qed.

Lemma encoder_names_no_decoder :
  forallb (fun n => negb (contains "decoder" n)) encoder_names = true.
Proof. reflexivity. Qed.

(** Every parameter a constructor creates has its gradient enabled. *)

Section InitGrad.
Context {F : FloatOps} {G : RandomGen}.

Lemma Linear_init_grad (i o : Z) (wb : bool) (g g' : rng) (m : Linear.t)
    (prefix : string) :
  Linear.init i o wb g = Ok (m, g') ->
  all_grad (Linear.named_parameters prefix m).
Proof.
  intros H. unfold Linear.init in H. minv H.
  destruct wb; minv H; repeat constructor.
Qed.

Lemma LayerNorm_init_grad (n : Z) (m : LayerNorm.t) (prefix : string) :
  LayerNorm.init n = Ok m ->
  all_grad (LayerNorm.named_parameters prefix m).
Proof.
  intros H. unfold LayerNorm.init in H. minv H. injection H as <-.
  repeat constructor.
Qed.

Lemma WindowAttention_init_grad (dim : Z) (ws : Z * Z) (nh : Z) (qb : bool)
    (ad pd : Q) (pws : Z * Z) (g g' : rng) (m : WindowAttention.t) (prefix : string) :
  WindowAttention.init dim ws nh qb ad pd pws g = Ok (m, g') ->
  all_grad (WindowAttention.named_parameters prefix m).
Proof.
  intros H. unfold WindowAttention.init in H. minv H.
  unfold WindowAttention.named_parameters.
  cbn [WindowAttention.logit_scale WindowAttention.q_bias WindowAttention.v_bias
       WindowAttention.cpb_mlp_0 WindowAttention.cpb_mlp_2 WindowAttention.qkv
       WindowAttention.proj].
  constructor; [reflexivity|].
  repeat apply all_grad_app;
    try (eapply Linear_init_grad; eassumption);
    destruct qb; repeat constructor.
Qed.

Lemma AttentionLayer_init_grad (dm nh : Z) (dk dv : option Z) (mix : bool) (dr : Q)
    (g g' : rng) (m : AttentionLayer.t) (prefix : string) :
  AttentionLayer.init dm nh dk dv mix dr g = Ok (m, g') ->
  all_grad (AttentionLayer.named_parameters prefix m).
Proof.
  intros H. unfold AttentionLayer.init in H. minv H.
  unfold AttentionLayer.named_parameters.
  cbn [AttentionLayer.query_projection AttentionLayer.key_projection
       AttentionLayer.value_projection AttentionLayer.out_projection
       AttentionLayer.norm AttentionLayer.norm_1].
  repeat apply all_grad_app;
    first [eapply Linear_init_grad; eassumption
          | eapply LayerNorm_init_grad; eassumption].
Qed.

Lemma init_decoder_grad (m : HUTformer.t) (g g' : rng) (d : HUTformer.decoder_t) :
  HUTformer.init_decoder m g = Ok (d, g') ->
  all_grad (HUTformer.decoder_named_parameters d).
Proof.
  intros H. unfold HUTformer.init_decoder in H. minv H.
  unfold HUTformer.decoder_named_parameters.
  cbn [HUTformer.decoder_1 HUTformer.decoder_project_0 HUTformer.decoder_2_0
       HUTformer.decoder_2_1 HUTformer.decoder_3_0 HUTformer.decoder_3_1
       HUTformer.decoder_project].
  repeat (match goal with |- all_grad (_ ++ _) => apply all_grad_app end);
    first [eapply Linear_init_grad; eassumption
          | eapply WindowAttention_init_grad; eassumption
          | eapply AttentionLayer_init_grad; eassumption].
Qed.

End InitGrad.

Section FreezeFacts.
Context {F : FloatOps} {G : RandomGen} {FS : FileSystem}.

(** C7.  Whenever a construction in mode 'decoder' returns a model, whatever
    the sizes and the checkpoint are, every parameter whose name does not
    contain 'decoder' has [requires_grad] off, and every parameter whose
    name contains it has [requires_grad] on. *)
Theorem decoder_mode_freezes_encoder (N lh lp lpatch : Z) (pre_train : option string)
    (g g' : rng) (m : HUTformer.t) :
  HUTformer.init N lh lp lpatch "decoder" pre_train g = Ok (m, g') ->
  forall name para,
    In (name, para) (HUTformer.named_parameters m) ->
    requires_grad para = contains "decoder" name.
Proof.
  intros H name para Hin. unfold HUTformer.init in H.
  apply bind_Ok_inv in H. destruct H as (m0 & g0 & Hm0 & H).
  change (String.eqb "decoder" "encoder") with false in H.
  change (String.eqb "decoder" "decoder") with true in H.
  cbv iota in H. minv H.
  pose proof (init_decoder_grad _ _ _ _ Hstep0) as Hgrad.
  rewrite HUTformer_named_map in Hin.
  apply in_map_iff in Hin. destruct Hin as ([n p0] & [= <- <-] & Hin).
  cbn [fst snd]. unfold HUTformer.named_parameters in Hin.
  apply in_app_or in Hin. destruct Hin as [Hin | Hin].
  - assert (Hn : In n encoder_names).
    { apply (encoder_names_incl (HUTformer.with_decoder a a0)).
      apply in_map_iff. exists (n, p0). auto. }
    pose proof encoder_names_no_decoder as Hall.
    rewrite forallb_forall in Hall. specialize (Hall n Hn).
    unfold HUTformer.freeze. rewrite Hall.
    apply negb_true_iff in Hall. rewrite Hall. reflexivity.
  - cbn [HUTformer.with_decoder HUTformer.decoder] in Hin.
    unfold all_grad in Hgrad. rewrite Forall_forall in Hgrad.
    specialize (Hgrad (n, p0) Hin). cbn [snd] in Hgrad.
    unfold HUTformer.freeze.
    destruct (contains "decoder" n); cbn [negb]; [exact Hgrad | reflexivity].
Qed.

End FreezeFacts.

Lemma decoder_mode_freezes_encoder_witness :
  match @HUTformer.init demo_float demo_rng demo_fs 1 8 8 1 "decoder" None tt with
  | Ok (m, _) =>
      forall name para,
        In (name, para) (HUTformer.named_parameters m) ->
        requires_grad para = contains "decoder" name
  | Raise _ => False
  end.
Proof.
  destruct (@HUTformer.init demo_float demo_rng demo_fs 1 8 8 1 "decoder" None tt)
    as [[m g']|e] eqn:E.
  - exact (@decoder_mode_freezes_encoder demo_float demo_rng demo_fs
             1 8 8 1 None tt g' m E)%Z.
  - assert (Hok : is_ok (@HUTformer.init demo_float demo_rng demo_fs 1 8 8 1
                           "decoder" None tt) = true) by (vm_compute; reflexivity).
    rewrite E in Hok. discriminate Hok.
Defined.

(** ** The relative position index *)

Lemma get_update_last {A : Type} `{Zero A} (k : nat) (f : A -> A) (x : tensor A)
    (idx : list nat) :
  in_range (shape x) idx ->
  get (update_last k f x) idx = if last idx 0 =? k then f (get x idx) else get x idx.
Proof. intros Hr. unfold update_last. rewrite get_tabulate by exact Hr. reflexivity. Qed.

Lemma get_reshaped_tabulate {A : Type} `{Zero A} (s s' : list nat)
    (f : list nat -> A) (idx : list nat) :
  ravel s' idx < numel s ->
  get (mkTensor s' (data (tabulate s f))) idx = f (unravel s (ravel s' idx)).
Proof.
  intros Hlt. unfold get, tabulate. cbn [shape data].
  rewrite nth_map_seq by exact Hlt. reflexivity.
Qed.

Lemma arange_ok (lo : Z) (n : nat) :
  arange lo (lo + Z.of_nat n)
  = Ok (tabulate [n] (fun idx => (lo + Z.of_nat (ix idx 0))%Z)).
Proof.
  unfold arange. replace (lo + Z.of_nat n <? lo)%Z with false by lia.
  replace (Z.to_nat (lo + Z.of_nat n - lo)) with n by lia. reflexivity.
Qed.

Lemma bc_shape_cross (c n : nat) : bc_shape [c; n; 1] [c; 1; n] = Ok [c; n; n].
Proof.
  unfold bc_shape. cbn [rev app bc_rev]. rewrite Nat.eqb_refl. cbn [bindR].
  destruct (Nat.eqb_spec n 1) as [->|Hn]; [reflexivity|].
  destruct (Nat.eqb_spec 1 n) as [<-|Hn']; [contradiction|]. reflexivity.
Qed.

Lemma unsqueeze_ok {A : Type} (d : nat) (x : tensor A) :
  d <= rank x ->
  unsqueeze (Z.of_nat d) x = Ok (mkTensor (insert_at d 1 (shape x)) (data x)).
Proof.
  intros Hd. unfold unsqueeze.
  replace ((- (Z.of_nat (rank x) + 1) <=? Z.of_nat d)
           && (Z.of_nat d <=? Z.of_nat (rank x)))%Z with true by lia.
  replace (Z.of_nat d <? 0)%Z with false by lia.
  rewrite Nat2Z.id. reflexivity.
Qed.

Lemma unsqueeze_last {A : Type} (x : tensor A) :
  unsqueeze (-1) x = Ok (mkTensor (shape x ++ [1]) (data x)).
Proof.
  unfold unsqueeze.
  replace ((- (Z.of_nat (rank x) + 1) <=? -1) && (-1 <=? Z.of_nat (rank x)))%Z
    with true by lia.
  cbn [Z.ltb Z.compare].
  replace (Z.to_nat (-1 + Z.of_nat (rank x) + 1)) with (rank x) by lia.
  unfold insert_at, rank. rewrite firstn_all, skipn_all. reflexivity.
Qed.

Lemma shape_tabulate {A : Type} (s : list nat) (f : list nat -> A) :
  shape (tabulate s f) = s.
Proof. reflexivity. Qed.

Lemma arange_0 (n : nat) :
  arange 0 (Z.of_nat n) = Ok (tabulate [n] (fun idx => (0 + Z.of_nat (ix idx 0))%Z)).
Proof. apply (arange_ok 0 n). Qed.

Lemma make_relative_position_index_spec (Wh Ww : nat) :
  exists t,
    WindowAttention.make_relative_position_index (Z.of_nat Wh, Z.of_nat Ww) = Ok t
    /\ shape t = [Wh * Ww; Wh * Ww]
    /\ length (data t) = (Wh * Ww) * (Wh * Ww)
    /\ forall i j, i < Wh * Ww -> j < Wh * Ww ->
         get t [i; j] = relative_index_value Wh Ww i j.
Proof.
  unfold WindowAttention.make_relative_position_index. cbn [fst snd].
  rewrite !arange_0. cbn [bindR].
  set (ch := tabulate [Wh] _). set (cw := tabulate [Ww] _).
  unfold meshgrid2.
  change (shape ch) with [Wh]. change (shape cw) with [Ww]. cbn [bindR].
  set (gh := tabulate [Wh; Ww] _). set (gw := tabulate [Wh; Ww] _).
  unfold stack2.
  change (shape gh) with [Wh; Ww]. change (shape gw) with [Wh; Ww].
  rewrite list_eqb_refl. cbn [bindR].
  set (coords := tabulate [2; Wh; Ww] _).
  unfold flatten_from.
  change (shape coords) with [2; Wh; Ww].
  cbn [firstn skipn app numel fold_right].
  set (n := Wh * (Ww * 1)).
  assert (Hn : n = Wh * Ww) by (unfold n; lia).
  rewrite (unsqueeze_ok 2) by (cbn; lia).
  rewrite (unsqueeze_ok 1) by (cbn; lia).
  cbn [bindR shape data insert_at firstn skipn app].
  set (lhs := mkTensor [2; n; 1] _). set (rhs := mkTensor [2; 1; n] _).
  unfold binop. change (shape lhs) with [2; n; 1]. change (shape rhs) with [2; 1; n].
  rewrite bc_shape_cross. cbn [bindR].
  set (rc := tabulate [2; n; n] _).
  unfold permute. change (rank rc) with 3.
  change (is_permutation [1; 2; 0] 3) with true. cbv iota. cbn [bindR].
  change (shape rc) with [2; n; n]. cbn [map nth seq find_pos Nat.eqb].
  set (rcp := tabulate [n; n; 2] _).
  set (u1 := update_last 0 _ rcp). set (u2 := update_last 1 _ u1).
  set (u3 := update_last 0 _ u2).
  eexists. split; [reflexivity|].
  split; [cbn; rewrite Hn; reflexivity|].
  split; [unfold sumZ_last; rewrite length_tabulate; cbn; lia|].
  intros i j Hi Hj.
  assert (Hcoord : forall c k, c < 2 -> k < n ->
            nth (c * n + k) (data coords) zero
            = Z.of_nat (if c =? 0 then k / Ww else k mod Ww)).
  { intros c k Hc Hk. unfold coords, tabulate. cbn [data].
    rewrite nth_map_seq by (cbn [numel fold_right]; nia).
    cbn [unravel numel fold_right]. fold n. cbn [ix nth tl].
    assert (Hq : (c * n + k) / n = c) by (symmetry; apply Nat.div_unique with k; lia).
    assert (Hm : (c * n + k) mod n = k) by (symmetry; apply Nat.mod_unique with c; lia).
    rewrite Hq, Hm.
    assert (HWw : Ww <> 0) by nia.
    assert (Hh : k / (Ww * 1) < Wh).
    { apply Nat.Div0.div_lt_upper_bound. lia. }
    assert (Hw : k mod (Ww * 1) < Ww).
    { rewrite Nat.mul_1_r. apply Nat.mod_upper_bound. exact HWw. }
    assert (Hw1 : (k mod (Ww * 1)) mod 1 = 0) by (apply Nat.mod_1_r).
    assert (Hw2 : (k mod (Ww * 1)) / 1 = k mod Ww) by (rewrite Nat.div_1_r, Nat.mul_1_r; reflexivity).
    rewrite Hw2.
    destruct (Nat.eqb_spec c 0) as [->|Hc0].
    - unfold gh. rewrite get_tabulate by (apply in_range_2; lia).
      unfold ch. cbn [ix nth]. rewrite get_tabulate by (apply in_range_1; lia).
      cbn [ix nth]. rewrite Nat.mul_1_r. lia.
    - unfold gw. rewrite get_tabulate by (apply in_range_2; lia).
      unfold cw. cbn [ix nth]. rewrite get_tabulate by (apply in_range_1; lia).
      cbn [ix nth]. lia. }
  assert (Hrcp : forall c, c < 2 ->
            get rcp [i; j; c]
            = (Z.of_nat (if (c =? 0)%nat then (i / Ww)%nat else (i mod Ww)%nat)
               - Z.of_nat (if (c =? 0)%nat then (j / Ww)%nat else (j mod Ww)%nat))%Z).
  { intros c Hc. unfold rcp. rewrite get_tabulate by (apply in_range_3; lia).
    cbn [ix nth]. unfold rc. rewrite get_tabulate by (apply in_range_3; lia).
    unfold bc_index. cbn [length Nat.sub skipn combine map].
    change (2 =? 1) with false. cbv iota.
    rewrite Nat.eqb_refl.
    assert (Hi' : (if n =? 1 then 0 else i) = i) by (destruct (Nat.eqb_spec n 1); lia).
    assert (Hj' : (if n =? 1 then 0 else j) = j) by (destruct (Nat.eqb_spec n 1); lia).
    rewrite Hi', Hj'. unfold get, lhs, rhs. cbn [shape data ravel numel fold_right].
    replace (c * (n * (1 * 1)) + (i * (1 * 1) + (0 * 1 + 0))) with (c * n + i) by lia.
    replace (c * (1 * (n * 1)) + (0 * (n * 1) + (j * 1 + 0))) with (c * n + j) by lia.
    rewrite !Hcoord by lia. reflexivity. }
  unfold sumZ_last.
  change (shape u3) with [n; n; 2]. cbn [removelast].
  rewrite get_tabulate by (apply in_range_2; lia).
  unfold row. change (shape u3) with [n; n; 2]. cbn [last seq map app sumZ fold_right].
  unfold u3, u2, u1.
  rewrite !get_update_last by (apply in_range_3; lia).
  cbn [last Nat.eqb]. rewrite !Hrcp by lia. cbn [Nat.eqb].
  unfold relative_index_value. lia.
Qed.

Lemma ravel_unravel (s : list nat) (k : nat) :
  k < numel s -> ravel s (unravel s k) = k.
Proof.
  revert k. induction s as [|d s IH]; intros k Hk; cbn [numel fold_right] in Hk.
  - cbn. lia.
  - cbn [unravel ravel]. fold (numel s) in Hk.
    assert (Hn : numel s <> 0) by nia.
    rewrite IH by (apply Nat.mod_upper_bound; exact Hn).
    pose proof (Nat.div_mod_eq k (numel s)). lia.
Qed.

Lemma Forall_data_of_get {A : Type} `{Zero A} (P : A -> Prop) (t : tensor A) :
  length (data t) = numel (shape t) ->
  (forall idx, in_range (shape t) idx -> P (get t idx)) ->
  Forall P (data t).
Proof.
  intros Hlen Hget. apply Forall_forall. intros v Hv.
  destruct (In_nth _ _ zero Hv) as (k & Hk & <-).
  rewrite Hlen in Hk.
  specialize (Hget (unravel (shape t) k) (unravel_in_range _ _ Hk)).
  unfold get in Hget. rewrite ravel_unravel in Hget by exact Hk. exact Hget.
Qed.

Lemma relative_index_value_range (Wh Ww i j : nat) :
  i < Wh * Ww -> j < Wh * Ww ->
  (0 <= relative_index_value Wh Ww i j
   < (2 * Z.of_nat Wh - 1) * (2 * Z.of_nat Ww - 1))%Z.
Proof.
  intros Hi Hj. unfold relative_index_value.
  assert (HWw : Ww <> 0) by nia.
  assert (Hhi : i / Ww < Wh) by (apply Nat.Div0.div_lt_upper_bound; lia).
  assert (Hhj : j / Ww < Wh) by (apply Nat.Div0.div_lt_upper_bound; lia).
  pose proof (Nat.mod_upper_bound i Ww HWw) as Hwi.
  pose proof (Nat.mod_upper_bound j Ww HWw) as Hwj.
  set (hi := Z.of_nat (i / Ww)) in *. set (hj := Z.of_nat (j / Ww)) in *.
  set (wi := Z.of_nat (i mod Ww)) in *. set (wj := Z.of_nat (j mod Ww)) in *.
  assert (0 <= hi < Z.of_nat Wh)%Z by (unfold hi; lia).
  assert (0 <= hj < Z.of_nat Wh)%Z by (unfold hj; lia).
  assert (0 <= wi < Z.of_nat Ww)%Z by (unfold wi; lia).
  assert (0 <= wj < Z.of_nat Ww)%Z by (unfold wj; lia).
  clearbody hi hj wi wj. split; nia.
Qed.

(** The index buffer of a window of [Wh] by [Ww] tokens: every entry
    addresses a row of a table with [(2 Wh - 1) (2 Ww - 1)] rows. *)
Lemma make_relative_position_index_range (Wh Ww : nat) :
  exists t,
    WindowAttention.make_relative_position_index (Z.of_nat Wh, Z.of_nat Ww) = Ok t
    /\ shape t = [Wh * Ww; Wh * Ww]
    /\ length (data t) = (Wh * Ww) * (Wh * Ww)
    /\ Forall (fun v => (0 <= v < (2 * Z.of_nat Wh - 1) * (2 * Z.of_nat Ww - 1))%Z)
         (data t).
Proof.
  destruct (make_relative_position_index_spec Wh Ww) as (t & Ht & Hs & Hlen & Hget).
  exists t. repeat split; try assumption.
  - apply Forall_data_of_get.
    + rewrite Hs, Hlen. cbn. lia.
    + rewrite Hs. intros idx Hr.
      inversion Hr as [|i d1 idx1 s1 Hi Hr1]; subst.
      inversion Hr1 as [|j d2 idx2 s2 Hj Hr2]; subst.
      inversion Hr2; subst.
      rewrite Hget by assumption.
      apply relative_index_value_range; assumption.
Qed.

(** ** Shapes of the results of the tensor operators *)

Lemma norm_index_nat (k n : nat) : k < n -> norm_index (Z.of_nat k) n = Ok k.
Proof.
  intros Hk. unfold norm_index.
  replace ((0 <=? Z.of_nat k) && (Z.of_nat k <? Z.of_nat n))%Z with true by lia.
  rewrite Nat2Z.id. reflexivity.
Qed.

Lemma norm_index_m1 (n : nat) : 0 < n -> norm_index (-1) n = Ok (n - 1).
Proof.
  intros Hn. unfold norm_index. cbn [Z.leb Z.compare andb Z.ltb].
  replace (- Z.of_nat n <=? -1)%Z with true by lia. cbn [andb].
  f_equal. lia.
Qed.

Section ShapeFacts.
Context {A : Type} `{Zero A}.

Lemma select_ok (dim : nat) (i : Z) (x : tensor A) (s : list nat) (n i' : nat) :
  shape x = s -> nth_error s dim = Some n -> norm_index i n = Ok i' ->
  exists y, select dim i x = Ok y /\ shape y = remove_at dim s.
Proof.
  intros Hs Hn Hi. unfold select. rewrite Hs, Hn, Hi. cbn [bindR].
  eexists. split; reflexivity.
Qed.

Lemma slice_from_ok (dim start : nat) (x : tensor A) (s : list nat) (n : nat) :
  shape x = s -> nth_error s dim = Some n ->
  exists y, slice_from dim start x = Ok y /\ shape y = set_at dim (n - start) s.
Proof.
  intros Hs Hn. unfold slice_from. rewrite Hs, Hn. eexists. split; reflexivity.
Qed.

Lemma permute_ok (perm : list nat) (x : tensor A) (s : list nat) :
  shape x = s -> is_permutation perm (length s) = true ->
  exists y, permute perm x = Ok y /\ shape y = map (fun p => nth p s 0) perm.
Proof.
  intros Hs Hp. unfold permute, rank. rewrite Hs, Hp. eexists. split; reflexivity.
Qed.

Lemma transpose_ok (d1 d2 : nat) (x : tensor A) (s : list nat) :
  shape x = s ->
  is_permutation
    (map (fun j => if j =? d1 then d2 else if j =? d2 then d1 else j) (seq 0 (length s)))
    (length s) = true ->
  exists y,
    transpose d1 d2 x = Ok y
    /\ shape y
       = map (fun p => nth p s 0)
           (map (fun j => if j =? d1 then d2 else if j =? d2 then d1 else j)
              (seq 0 (length s))).
Proof.
  intros Hs Hp. unfold transpose, rank. rewrite Hs. apply permute_ok; assumption.
Qed.

Lemma existsb_below_of_nat (s : list nat) :
  existsb (fun d => d <? -1)%Z (map Z.of_nat s) = false.
Proof.
  induction s as [|d s IH]; [reflexivity|]. cbn [map existsb].
  replace (Z.of_nat d <? -1)%Z with false by lia. apply IH.
Qed.

Lemma filter_nonneg_of_nat (s : list nat) :
  filter (fun d => 0 <=? d)%Z (map Z.of_nat s) = map Z.of_nat s.
Proof.
  induction s as [|d s IH]; [reflexivity|]. cbn [map filter].
  replace (0 <=? Z.of_nat d)%Z with true by lia. f_equal. apply IH.
Qed.

Lemma filter_minus1_of_nat (s : list nat) :
  filter (fun d => d =? -1)%Z (map Z.of_nat s) = [].
Proof.
  induction s as [|d s IH]; [reflexivity|]. cbn [map filter].
  replace (Z.of_nat d =? -1)%Z with false by lia. apply IH.
Qed.

Lemma map_to_nat_of_nat (s : list nat) : map Z.to_nat (map Z.of_nat s) = s.
Proof.
  rewrite map_map. rewrite <- (map_id s) at 2. apply map_ext. intros d.
  apply Nat2Z.id.
Qed.

Lemma map_fill_of_nat (k : nat) (s : list nat) :
  map (fun d => if (d =? -1)%Z then k else Z.to_nat d) (map Z.of_nat s) = s.
Proof.
  rewrite map_map. rewrite <- (map_id s) at 2. apply map_ext. intros d.
  replace (Z.of_nat d =? -1)%Z with false by lia. apply Nat2Z.id.
Qed.

Lemma infer_shape_exact (s : list nat) (n : nat) :
  numel s = n -> infer_shape n (map Z.of_nat s) = Ok s.
Proof.
  intros Hn. unfold infer_shape.
  rewrite existsb_below_of_nat, filter_nonneg_of_nat, filter_minus1_of_nat,
    map_to_nat_of_nat.
  cbn [length]. rewrite Hn, Nat.eqb_refl. reflexivity.
Qed.

Lemma infer_shape_minus1 (s1 s2 : list nat) (n k : nat) :
  numel (s1 ++ s2) <> 0 ->
  n = numel (s1 ++ s2) * k ->
  infer_shape n (map Z.of_nat s1 ++ (-1)%Z :: map Z.of_nat s2) = Ok (s1 ++ k :: s2).
Proof.
  intros Hne Hn. unfold infer_shape.
  rewrite existsb_app. cbn [existsb]. rewrite !existsb_below_of_nat.
  rewrite !filter_app. cbn [filter].
  change (0 <=? -1)%Z with false. change (-1 =? -1)%Z with true.
  change (-1 <? -1)%Z with false. cbv iota. cbn [orb].
  rewrite !filter_nonneg_of_nat, !filter_minus1_of_nat. cbn [app length].
  rewrite <- map_app, map_to_nat_of_nat.
  destruct (Nat.eqb_spec (numel (s1 ++ s2)) 0) as [He0|_]; [contradiction|].
  replace (n mod numel (s1 ++ s2) =? 0) with true.
  2:{ symmetry. apply Nat.eqb_eq. rewrite Hn, Nat.mul_comm. apply Nat.Div0.mod_mul. }
  rewrite map_app. cbn [map]. change (-1 =? -1)%Z with true. cbv iota.
  rewrite !map_fill_of_nat. do 3 f_equal.
  rewrite Hn, Nat.mul_comm. apply Nat.div_mul. exact Hne.
Qed.

Lemma reshape_exact (x : tensor A) (s s' : list nat) :
  shape x = s -> numel s' = numel s ->
  exists y, reshape (map Z.of_nat s') x = Ok y /\ shape y = s' /\ data y = data x.
Proof.
  intros Hs Hn. unfold reshape. rewrite Hs, (infer_shape_exact s' _ Hn). cbn [bindR].
  eexists. repeat split.
Qed.

Lemma reshape_minus1 (x : tensor A) (s s1 s2 : list nat) (k : nat) :
  shape x = s ->
  numel (s1 ++ s2) <> 0 ->
  numel s = numel (s1 ++ s2) * k ->
  exists y,
    reshape (map Z.of_nat s1 ++ (-1)%Z :: map Z.of_nat s2) x = Ok y
    /\ shape y = s1 ++ k :: s2 /\ data y = data x.
Proof.
  intros Hs Hne Hn. unfold reshape.
  rewrite Hs, (infer_shape_minus1 s1 s2 _ k Hne Hn). cbn [bindR].
  eexists. repeat split.
Qed.

Lemma binop_fits_r (f : A -> A -> A) (x y : tensor A) :
  bc_fits (rev (shape y)) (rev (shape x)) ->
  exists z, binop f x y = Ok z /\ shape z = shape x.
Proof.
  intros Hf. unfold binop. rewrite (bc_shape_fits_r _ _ Hf). cbn [bindR].
  eexists. split; reflexivity.
Qed.

Lemma cat_last_3_ok (x1 x2 x3 : tensor A) (lead : list nat) (w1 w2 w3 : nat) :
  shape x1 = lead ++ [w1] -> shape x2 = lead ++ [w2] -> shape x3 = lead ++ [w3] ->
  exists y, cat_last [x1; x2; x3] = Ok y /\ shape y = lead ++ [w1 + w2 + w3].
Proof.
  intros H1 H2 H3. unfold cat_last, rank.
  cbn [forallb map fold_right]. rewrite H1, H2, H3.
  rewrite !removelast_snoc, !last_snoc, !length_app, list_eqb_refl.
  cbn [length]. replace (0 <? length lead + 1) with true by lia.
  cbn [andb]. eexists. split; [reflexivity|].
  cbn [shape tabulate]. do 2 f_equal. lia.
Qed.

End ShapeFacts.

Lemma repeat_batch_ok {A : Type} `{Zero A} (r a b : nat) (x : tensor A) :
  shape x = [a; b] ->
  exists y, repeat_ [r; 1; 1] x = Ok y /\ shape y = [r; a; b].
Proof.
  intros Hs. unfold repeat_, rank. rewrite Hs. cbn [length Nat.ltb Nat.leb].
  eexists. split; [reflexivity|].
  cbn [shape tabulate length Nat.sub repeat app combine map].
  f_equal; [lia|]. f_equal; [lia|]. f_equal. lia.
Qed.

Lemma repeat_twice_ok {A : Type} `{Zero A} (a b c : nat) (x : tensor A) :
  shape x = [a; b; c] ->
  exists y, repeat_ [1; 2; 1] x = Ok y /\ shape y = [a; 2 * b; c].
Proof.
  intros Hs. unfold repeat_, rank. rewrite Hs. cbn [length Nat.ltb Nat.leb].
  eexists. split; [reflexivity|].
  cbn [shape tabulate length Nat.sub repeat app combine map].
  f_equal; [lia|]. f_equal. f_equal. lia.
Qed.

Lemma gather_rows_ok (table : tensor Q) (index : tensor Z)
    (n : nat) (rest : list nat) :
  shape table = n :: rest ->
  Forall (fun i => (0 <= i < Z.of_nat n)%Z) (data index) ->
  exists y, gather_rows table index = Ok y /\ shape y = shape index ++ rest.
Proof.
  intros Hs Hall. unfold gather_rows. rewrite Hs.
  replace (forallb _ (data index)) with true.
  - eexists. split; reflexivity.
  - symmetry. apply forallb_forall. intros i Hi.
    rewrite Forall_forall in Hall. specialize (Hall i Hi). lia.
Qed.

Lemma linear_ok (x w : tensor Q) (b : option (tensor Q)) (pre : list nat) (i o : nat) :
  shape w = [o; i] ->
  shape x = pre ++ [i] ->
  (forall bt, b = Some bt -> shape bt = [o]) ->
  exists y, linear x w b = Ok y /\ shape y = pre ++ [o].
Proof.
  intros Hw Hx Hb. unfold linear, rank. rewrite Hw, Hx.
  rewrite last_snoc, removelast_snoc, length_app, Nat.eqb_refl. cbn [length].
  replace (0 <? length pre + 1) with true by lia. cbn [andb].
  destruct b as [bt|].
  - rewrite (Hb bt eq_refl), list_eqb_refl. eexists. split; reflexivity.
  - eexists. split; reflexivity.
Qed.

Lemma linear_bad (x w : tensor Q) (b : option (tensor Q)) (pre : list nat) (i j o : nat) :
  shape w = [o; i] ->
  shape x = pre ++ [j] ->
  j <> i ->
  linear x w b = Raise RuntimeError.
Proof.
  intros Hw Hx Hne. unfold linear. rewrite Hw, Hx, last_snoc.
  replace (j =? i) with false by (symmetry; apply Nat.eqb_neq; exact Hne).
  rewrite andb_false_r. reflexivity.
Qed.

Lemma matmul_ok (x y : tensor Q) (bs : list nat) (n m p : nat) :
  shape x = bs ++ [n; m] ->
  shape y = bs ++ [m; p] ->
  exists z, matmul x y = Ok z /\ shape z = bs ++ [n; p].
Proof.
  intros Hx Hy. unfold matmul, rank. rewrite Hx, Hy, !length_app. cbn [length].
  replace (2 <=? length bs + 2) with true by lia. cbn [andb].
  replace (length bs + 2 - 2) with (length bs) by lia.
  replace (length bs + 2 - 1) with (S (length bs)) by lia.
  rewrite !firstn_app, !firstn_all, Nat.sub_diag. cbn [firstn]. rewrite !app_nil_r.
  rewrite !app_nth2 by lia.
  rewrite Nat.sub_diag. replace (S (length bs) - length bs) with 1 by lia.
  cbn [nth]. rewrite Nat.eqb_refl, bc_shape_same. cbn [bindR].
  eexists. split; reflexivity.
Qed.

Lemma rearrange_patches_ok (t p : nat) (x : tensor Q) (b n : nat) :
  0 < t ->
  shape x = [b; n; p * t] ->
  exists y, rearrange_patches (Z.of_nat t) x = Ok y /\ shape y = [b; n; p; t].
Proof.
  intros Ht Hs. unfold rearrange_patches. rewrite Hs, Nat2Z.id.
  replace (0 <? Z.of_nat t)%Z with true by lia.
  replace (p * t mod t =? 0) with true
    by (symmetry; apply Nat.eqb_eq; apply Nat.Div0.mod_mul).
  cbn [andb]. rewrite Nat.div_mul by lia. eexists. split; reflexivity.
Qed.

Lemma rearrange_patches_bad (t l : nat) (x : tensor Q) (b n : nat) :
  0 < t ->
  shape x = [b; n; l] ->
  l mod t <> 0 ->
  rearrange_patches (Z.of_nat t) x = Raise EinopsError.
Proof.
  intros Ht Hs Hl. unfold rearrange_patches. rewrite Hs, Nat2Z.id.
  replace (l mod t =? 0) with false by (symmetry; apply Nat.eqb_neq; exact Hl).
  rewrite andb_false_r. reflexivity.
Qed.

Lemma rearrange_nodes_ok (B N p d : nat) (x : tensor Q) :
  shape x = [B * N; p; d] ->
  exists y, rearrange_nodes B N x = Ok y /\ shape y = [B; N; p * d].
Proof.
  intros Hs. unfold rearrange_nodes. rewrite Hs, Nat.eqb_refl.
  eexists. split; reflexivity.
Qed.

(** ** Shapes through the layers

    What [forward] of each layer returns on parameters and buffers of the
    shapes the constructors create. *)

Section LayerFacts.
Context {F : FloatOps} {G : RandomGen}.

Lemma Linear_forward_ok (m : Linear.t) (x : tensor Q) (pre : list nat) (i o : nat) :
  wf_Linear i o m ->
  shape x = pre ++ [i] ->
  exists y, Linear.forward m x = Ok y /\ shape y = pre ++ [o].
Proof.
  intros [Hw Hb] Hx. unfold Linear.forward.
  apply (linear_ok x _ _ pre i o Hw Hx).
  intros bt Hbt. destruct (Linear.bias m) as [b|]; [|discriminate].
  injection Hbt as <-. apply Hb. reflexivity.
Qed.

Lemma Linear_forward_bad (m : Linear.t) (x : tensor Q) (pre : list nat) (i j o : nat) :
  wf_Linear i o m ->
  shape x = pre ++ [j] ->
  j <> i ->
  Linear.forward m x = Raise RuntimeError.
Proof.
  intros [Hw _] Hx Hne. unfold Linear.forward.
  apply (linear_bad x _ _ pre i j o Hw Hx Hne).
Qed.

Lemma LayerNorm_forward_ok (m : LayerNorm.t) (x : tensor Q) (pre : list nat) (n : nat) :
  LayerNorm.normalized_shape m = n ->
  shape x = pre ++ [n] ->
  exists y, LayerNorm.forward m x = Ok y /\ shape y = pre ++ [n].
Proof.
  intros Hn Hx. unfold LayerNorm.forward, rank.
  rewrite Hx, last_snoc, length_app, Hn, Nat.eqb_refl. cbn [length].
  replace (0 <? length pre + 1) with true by lia. cbn [andb].
  eexists. split; [reflexivity|]. rewrite shape_map_rows. exact Hx.
Qed.

End LayerFacts.

Lemma bind_lift_now {G : RandomGen} {A B : Type} (a : A) (k : A -> M B) (g : rng) :
  bind (lift (Ok a)) k g = k a g.
Proof. reflexivity. Qed.

Lemma unsqueeze_front_ok {A : Type} (x : tensor A) :
  exists y, unsqueeze 0 x = Ok y /\ shape y = 1 :: shape x.
Proof.
  exists (mkTensor (insert_at 0 1 (shape x)) (data x)).
  split; [apply (unsqueeze_ok 0 x); lia | reflexivity].
Qed.

(** One step of a run: the next operator succeeds with a result of a known
    shape. *)
Ltac step_with L :=
  let y := fresh "t" in
  let E := fresh "E" in
  let S := fresh "S" in
  destruct L as (y & E & S);
  first [rewrite (bind_lift_Ok _ _ _ _ E) | rewrite E; cbn [bindR]];
  clear E; cbv beta.

Ltac run_with L :=
  let y := fresh "t" in
  let g := fresh "g" in
  let E := fresh "E" in
  let S := fresh "S" in
  destruct L as (y & g & E & S);
  rewrite (bind_Ok _ _ _ _ _ E); clear E; cbv beta.

Section WindowAttentionFacts.
Context {F : FloatOps} {G : RandomGen}.

Lemma bias_table_shape (m : WindowAttention.t) (Wh Ww nh : nat) :
  WindowAttention.num_heads m = Z.of_nat nh ->
  wf_Linear 2 512 (WindowAttention.cpb_mlp_0 m) ->
  wf_Linear 512 nh (WindowAttention.cpb_mlp_2 m) ->
  shape (WindowAttention.relative_coords_table m) = [1; 2 * Wh - 1; 2 * Ww - 1; 2] ->
  0 < nh ->
  exists table,
    WindowAttention.relative_position_bias_table m = Ok table
    /\ shape table = [(2 * Wh - 1) * (2 * Ww - 1); nh].
Proof.
  intros Hnh Hc0 Hc2 Htab Hpos.
  unfold WindowAttention.relative_position_bias_table.
  step_with (Linear_forward_ok _ _ [1; 2 * Wh - 1; 2 * Ww - 1] 2 512 Hc0 Htab).
  step_with (Linear_forward_ok (WindowAttention.cpb_mlp_2 m) (map_t relu t)
               [1; 2 * Wh - 1; 2 * Ww - 1] 512 nh Hc2 S).
  rewrite Hnh.
  change [(-1)%Z; Z.of_nat nh] with (map Z.of_nat [] ++ (-1)%Z :: map Z.of_nat [nh]).
  destruct (reshape_minus1 t0 _ [] [nh] ((2 * Wh - 1) * (2 * Ww - 1)) S0)
    as (y & E & Sy & _).
  - cbn. lia.
  - cbn. lia.
  - exists y. split; [exact E | exact Sy].
Qed.

Lemma relative_position_bias_table_ok (m : WindowAttention.t) (dim Wh Ww nh : nat) :
  wf_WindowAttention dim Wh Ww nh m ->
  0 < nh ->
  exists table,
    WindowAttention.relative_position_bias_table m = Ok table
    /\ shape table = [(2 * Wh - 1) * (2 * Ww - 1); nh].
Proof.
  intros (Hnh & _ & _ & Hc0 & Hc2 & Htab & _) Hpos.
  apply bias_table_shape; assumption.
Qed.

Lemma WindowAttention_forward_ok (m : WindowAttention.t) (x : tensor Q)
    (Wh Ww nh hd B_ : nat) (g : rng) :
  wf_WindowAttention (nh * hd) Wh Ww nh m ->
  0 < nh -> 0 < hd -> 0 < B_ -> 0 < Wh -> 0 < Ww ->
  shape x = [B_; Wh * Ww; nh * hd] ->
  exists y g',
    WindowAttention.forward m x None g = Ok (y, g')
    /\ shape y = [B_; Wh * Ww; nh * hd].
Proof.
  intros Hwf Hnh Hhd HB HWh HWw Hx.
  pose proof Hwf as (Hheads & Hws & Hls & Hc0 & Hc2 & Htab & Hidx & Hlen & Hrange
                     & Hqkv & Hqkvb & (qb & vb & Hqb & Hvb & Hsq & Hsv) & Hproj).
  set (N := Wh * Ww) in *. set (dim := nh * hd) in *.
  assert (HN : 0 < N) by (unfold N; nia).
  unfold WindowAttention.forward. rewrite Hx, Hqb, Hvb.
  (* qkv_bias *)
  destruct (cat_last_3_ok (p_data qb) (full (shape (p_data vb)) 0%Q) (p_data vb)
              [] dim dim dim Hsq Hsv Hsv) as (c & Ec & Sc).
  rewrite Ec. cbn [bindR]. rewrite bind_lift_now.
  replace (dim + dim + dim) with (3 * dim) in Sc by lia.
  (* qkv *)
  step_with (linear_ok x (p_data (Linear.weight (WindowAttention.qkv m))) (Some c)
               [B_; N] dim (3 * dim) (proj1 Hqkv) Hx
               (fun bt (e : Some c = Some bt) =>
                  eq_ind c (fun u => shape u = [3 * dim]) Sc bt
                    (f_equal (fun o => match o with Some u => u | None => c end) e))).
  rewrite Hheads.
  change [Z.of_nat B_; Z.of_nat N; 3%Z; Z.of_nat nh; (-1)%Z]
    with (map Z.of_nat [B_; N; 3; nh] ++ (-1)%Z :: map Z.of_nat []).
  destruct (reshape_minus1 t _ [B_; N; 3; nh] [] hd S) as (t1 & E1 & S1 & _).
  { cbn. nia. }
  { cbn. unfold dim. nia. }
  rewrite (bind_lift_Ok _ _ _ _ E1). clear E1. cbn [app] in S1.
  step_with (permute_ok [2; 0; 3; 1; 4] t1 _ S1 eq_refl).
  cbn [map nth] in S0.
  step_with (select_ok 0 0 t0 _ 3 0 S0 eq_refl eq_refl).
  step_with (select_ok 0 1 t0 _ 3 1 S0 eq_refl eq_refl).
  step_with (select_ok 0 2 t0 _ 3 2 S0 eq_refl eq_refl).
  cbn [remove_at firstn skipn app] in S2, S3, S4.
  unfold rank at 1 2. rewrite S3. cbn [length Nat.sub].
  step_with (transpose_ok 2 3 (normalize t3) _ S3 eq_refl).
  cbn [length seq map nth Nat.eqb] in S5.
  step_with (matmul_ok (normalize t2) t5 [B_; nh] N hd N S2 S5).
  cbn [app] in S6.
  (* logit scale *)
  match goal with
  | |- context [binop Qmult t6 ?sc] =>
      destruct (binop_fits_r Qmult t6 sc) as (t7 & E7 & S7)
  end.
  { cbn [map_t shape]. rewrite S6, Hls. cbn [rev app]. repeat constructor. }
  rewrite (bind_lift_Ok _ _ _ _ E7). clear E7. rewrite S6 in S7.
  (* relative position bias *)
  step_with (relative_position_bias_table_ok m dim Wh Ww nh Hwf Hnh).
  change [(-1)%Z] with (map Z.of_nat [] ++ (-1)%Z :: map Z.of_nat []).
  destruct (reshape_minus1 (WindowAttention.relative_position_index m) _ [] []
              (N * N) Hidx) as (t9 & E9 & S9 & D9).
  { cbn. lia. }
  { cbn. lia. }
  rewrite (bind_lift_Ok _ _ _ _ E9). clear E9. cbn [app] in S9.
  destruct (gather_rows_ok t8 t9 _ [nh] S8) as (t10 & E10 & S10).
  { rewrite D9. eapply Forall_impl; [|exact Hrange]. cbv beta. intros v Hv. nia. }
  rewrite (bind_lift_Ok _ _ _ _ E10). clear E10. rewrite S9 in S10. cbn [app] in S10.
  rewrite Hws. cbn [fst snd]. rewrite <- Nat2Z.inj_mul. fold N.
  change [Z.of_nat N; Z.of_nat N; (-1)%Z]
    with (map Z.of_nat [N; N] ++ (-1)%Z :: map Z.of_nat []).
  destruct (reshape_minus1 t10 _ [N; N] [] nh S10) as (t11 & E11 & S11 & _).
  { cbn. nia. }
  { cbn. nia. }
  rewrite (bind_lift_Ok _ _ _ _ E11). clear E11. cbn [app] in S11.
  step_with (permute_ok [2; 0; 1] t11 _ S11 eq_refl).
  cbn [map nth] in S12.
  step_with (unsqueeze_front_ok (map_t (fun b => (16 * sigmoid b)%Q) t12)).
  cbn [map_t shape] in S13. rewrite S12 in S13.
  destruct (binop_fits_r Qplus t7 t13) as (t14 & E14 & S14).
  { rewrite S7, S13. cbn [rev app]. repeat constructor. }
  rewrite (bind_lift_Ok _ _ _ _ E14). clear E14. rewrite S7 in S14.
  cbn [WindowAttention.masked_softmax]. rewrite bind_lift_now.
  destruct (Dropout_forward_ok (WindowAttention.attn_drop m) (softmax t14) g)
    as (t15 & g1 & E15 & S15 & _).
  rewrite (bind_Ok _ _ _ _ _ E15). clear E15.
  change (shape (softmax t14)) with (shape t14) in S15. rewrite S14 in S15.
  step_with (matmul_ok t15 t4 [B_; nh] N N hd S15 S4).
  cbn [app] in S16.
  step_with (transpose_ok 1 2 t16 _ S16 eq_refl).
  cbn [length seq map nth Nat.eqb] in S17.
  change [Z.of_nat B_; Z.of_nat N; Z.of_nat dim] with (map Z.of_nat [B_; N; dim]).
  destruct (reshape_exact t17 _ [B_; N; dim] S17) as (t18 & E18 & S18 & _).
  { cbn. unfold dim. nia. }
  rewrite (bind_lift_Ok _ _ _ _ E18). clear E18.
  step_with (Linear_forward_ok (WindowAttention.proj m) t18 [B_; N] dim dim Hproj S18).
  destruct (Dropout_forward_ok (WindowAttention.proj_drop m) t19 g1)
    as (t20 & g2 & E20 & S20 & _).
  exists t20, g2. split; [exact E20|]. rewrite S20. exact S19.
Qed.

End WindowAttentionFacts.

(** ** What the constructors return *)

Lemma to_dim_inv (z : Z) (n : nat) : to_dim z = Ok n -> (0 <= z)%Z /\ n = Z.to_nat z.
Proof.
  unfold to_dim. destruct (Z.ltb_spec z 0); [discriminate|].
  intros [= <-]. auto.
Qed.

Lemma to_dim_ok (z : Z) : (0 <= z)%Z -> to_dim z = Ok (Z.to_nat z).
Proof. intros Hz. unfold to_dim. replace (z <? 0)%Z with false by lia. reflexivity. Qed.

Section InitFacts.
Context {F : FloatOps} {G : RandomGen}.

Lemma uniform_inv (lo hi : Q) (x y : tensor Q) (g g' : rng) :
  uniform_ lo hi x g = Ok (y, g') -> shape y = shape x.
Proof.
  unfold uniform_. destruct (Qle_bool lo hi); [|discriminate].
  destruct (draw_uniform lo hi (numel (shape x)) g) as [vs g1].
  intros [= <- _]. reflexivity.
Qed.

Lemma Linear_init_wf (i o : Z) (wb : bool) (g g' : rng) (m : Linear.t) :
  Linear.init i o wb g = Ok (m, g') ->
  wf_Linear (Z.to_nat i) (Z.to_nat o) m /\ (wb = false -> Linear.bias m = None).
Proof.
  intros H. unfold Linear.init in H. minv H.
  apply to_dim_inv in Hstep. destruct Hstep as [_ ->].
  apply to_dim_inv in Hstep0. destruct Hstep0 as [_ ->].
  assert (Hw : shape a1 = [Z.to_nat o; Z.to_nat i]).
  { destruct (numel [Z.to_nat o; Z.to_nat i] =? 0).
    - apply ret_Ok_inv in Hstep1. destruct Hstep1 as [-> _]. reflexivity.
    - apply uniform_inv in Hstep1. exact Hstep1. }
  destruct wb; minv H.
  - apply uniform_inv in Hstep. split; [|discriminate].
    split; [exact Hw|]. cbn [Linear.bias]. intros b [= <-]. exact Hstep.
  - split; [|reflexivity]. split; [exact Hw|]. cbn [Linear.bias]. discriminate.
Qed.

Lemma make_relative_coords_table_ok (Wh Ww : nat) (pws : Z * Z) :
  0 < Wh -> 0 < Ww ->
  exists t,
    WindowAttention.make_relative_coords_table (Z.of_nat Wh, Z.of_nat Ww) pws = Ok t
    /\ shape t = [1; 2 * Wh - 1; 2 * Ww - 1; 2].
Proof.
  intros HWh HWw. unfold WindowAttention.make_relative_coords_table. cbn [fst snd].
  replace (arange (- (Z.of_nat Wh - 1)) (Z.of_nat Wh))
    with (arange (- (Z.of_nat Wh - 1)) (- (Z.of_nat Wh - 1) + Z.of_nat (2 * Wh - 1)))
    by (f_equal; lia).
  replace (arange (- (Z.of_nat Ww - 1)) (Z.of_nat Ww))
    with (arange (- (Z.of_nat Ww - 1)) (- (Z.of_nat Ww - 1) + Z.of_nat (2 * Ww - 1)))
    by (f_equal; lia).
  rewrite !arange_ok. cbn [bindR].
  unfold meshgrid2, to_float. cbn [shape tabulate bindR].
  unfold stack2. cbn [shape]. rewrite list_eqb_refl. cbn [bindR].
  match goal with
  | |- context [permute [1; 2; 0] ?st] =>
      destruct (permute_ok [1; 2; 0] st _ eq_refl eq_refl) as (pm & Epm & Spm)
  end.
  rewrite Epm. cbn [bindR]. cbn [shape tabulate map nth] in Spm.
  destruct (unsqueeze_front_ok pm) as (tb & Etb & Stb).
  rewrite Etb. cbn [bindR]. rewrite Spm in Stb.
  eexists. split; [reflexivity|].
  destruct (0 <? fst pws)%Z; cbn [map_t update_last shape tabulate]; exact Stb.
Qed.

Lemma WindowAttention_init_wf (dim : Z) (Wh Ww : nat) (nh : Z) (ad pd : Q) (pws : Z * Z)
    (g g' : rng) (m : WindowAttention.t) :
  WindowAttention.init dim (Z.of_nat Wh, Z.of_nat Ww) nh true ad pd pws g = Ok (m, g') ->
  0 < Wh -> 0 < Ww ->
  wf_WindowAttention (Z.to_nat dim) Wh Ww (Z.to_nat nh) m.
Proof.
  intros H HWh HWw. unfold WindowAttention.init in H. minv H.
  apply to_dim_inv in Hstep. destruct Hstep as [Hnh ->].
  apply to_dim_inv in Hstep5. destruct Hstep5 as [Hdim ->].
  apply Linear_init_wf in Hstep0, Hstep1, Hstep4, Hstep7.
  destruct (make_relative_coords_table_ok Wh Ww pws HWh HWw) as (tb & Etb & Stb).
  rewrite Etb in Hstep2. injection Hstep2 as <-.
  destruct (make_relative_position_index_range Wh Ww) as (ti & Eti & Sti & Lti & Rti).
  rewrite Eti in Hstep3. injection Hstep3 as <-.
  unfold wf_WindowAttention.
  cbn [WindowAttention.num_heads WindowAttention.window_size
       WindowAttention.logit_scale WindowAttention.cpb_mlp_0
       WindowAttention.cpb_mlp_2 WindowAttention.relative_coords_table
       WindowAttention.relative_position_index WindowAttention.qkv
       WindowAttention.q_bias WindowAttention.v_bias WindowAttention.proj].
  repeat match goal with |- _ /\ _ => split end;
    try assumption; try reflexivity; try tauto.
  - lia.
  - destruct Hstep4 as [Hq _].
    replace (3 * Z.to_nat dim) with (Z.to_nat (dim * 3)) by lia. exact Hq.
  - eexists. eexists. repeat split.
Qed.

End InitFacts.

Section WindowTables.
Context {F : FloatOps} {G : RandomGen}.

(** C6.  In a [WindowAttention] constructed with [window_size=(2,12)] and a
    positive number of heads, the bias table computed from the relative
    coordinate table has exactly 69 rows and [num_heads] columns, and the
    buffer [relative_position_index] has shape [(24, 24)] and holds 576
    integers, every one of them between 0 and 68. *)
Theorem window_2_12_bias_tables (dim nh : Z) (qkv_bias : bool) (ad pd : Q)
    (pws : Z * Z) (g g' : rng) (m : WindowAttention.t) :
  WindowAttention.init dim (2, 12)%Z nh qkv_bias ad pd pws g = Ok (m, g') ->
  (0 < nh)%Z ->
  (exists table,
      WindowAttention.relative_position_bias_table m = Ok table
      /\ shape table = [69; Z.to_nat nh])
  /\ shape (WindowAttention.relative_position_index m) = [24; 24]
  /\ length (data (WindowAttention.relative_position_index m)) = 576
  /\ Forall (fun v => (0 <= v <= 68)%Z)
       (data (WindowAttention.relative_position_index m)).
Proof.
  intros H Hnh. unfold WindowAttention.init in H. minv H.
  apply to_dim_inv in Hstep. destruct Hstep as [_ ->].
  apply Linear_init_wf in Hstep0, Hstep1.
  destruct (make_relative_coords_table_ok 2 12 pws) as (tb & Etb & Stb); try lia.
  change (Z.of_nat 2, Z.of_nat 12) with (2%Z, 12%Z) in Etb.
  rewrite Etb in Hstep2. injection Hstep2 as <-.
  destruct (make_relative_position_index_range 2 12) as (ti & Eti & Sti & Lti & Rti).
  change (Z.of_nat 2, Z.of_nat 12) with (2%Z, 12%Z) in Eti.
  rewrite Eti in Hstep3. injection Hstep3 as <-.
  cbn [WindowAttention.relative_position_index].
  split; [|split; [exact Sti | split; [exact Lti|]]].
  - apply (bias_table_shape _ 2 12 (Z.to_nat nh)); cbn [WindowAttention.num_heads
      WindowAttention.cpb_mlp_0 WindowAttention.cpb_mlp_2
      WindowAttention.relative_coords_table]; try tauto; try lia.
  - eapply Forall_impl; [|exact Rti]. cbv beta. intros v Hv. lia.
Qed.

End WindowTables.

Lemma window_2_12_bias_tables_witness :
  match @WindowAttention.init demo_float demo_rng 64 (2, 12)%Z 8 true
          (1 # 10) (1 # 10) (0, 0)%Z tt with
  | Ok (m, _) =>
      (exists table,
          WindowAttention.relative_position_bias_table m = Ok table
          /\ shape table = [69; Z.to_nat 8])
      /\ shape (WindowAttention.relative_position_index m) = [24; 24]
      /\ length (data (WindowAttention.relative_position_index m)) = 576
      /\ Forall (fun v => (0 <= v <= 68)%Z)
           (data (WindowAttention.relative_position_index m))
  | Raise _ => False
  end.
Proof.
  destruct (@WindowAttention.init demo_float demo_rng 64 (2, 12)%Z 8 true
              (1 # 10) (1 # 10) (0, 0)%Z tt) as [[m g']|e] eqn:E.
  - apply (@window_2_12_bias_tables demo_float demo_rng 64 8 true (1 # 10) (1 # 10)
             (0, 0)%Z tt g' m E). reflexivity.
  - assert (Hok : is_ok (@WindowAttention.init demo_float demo_rng 64 (2, 12)%Z 8 true
                           (1 # 10) (1 # 10) (0, 0)%Z tt) = true)
      by (vm_compute; reflexivity).
    rewrite E in Hok. discriminate Hok.
Defined.

(** ** Shapes through the attention blocks *)

Section AttentionFacts.
Context {F : FloatOps} {G : RandomGen}.

Lemma SegmentMerging_forward_ok (m : SegmentMerging.t) (x : tensor Q) (b p d : nat) :
  wf_SegmentMerging d m ->
  shape x = [b; 2 * p; d] ->
  exists y, SegmentMerging.forward m x = Ok y /\ shape y = [b; p; 2 * d].
Proof.
  intros Hwf Hs. unfold SegmentMerging.forward.
  rewrite (rearrange_merge_pairs_ok x b p d Hs). cbn [bindR].
  apply (LayerNorm_forward_ok _ _ [b; p] (2 * d) Hwf). reflexivity.
Qed.

Lemma FullAttention_forward_ok (m : FullAttention.t) (queries keys values : tensor Q)
    (B L S_ H E : nat) (g : rng) :
  shape queries = [B; L; H; E] ->
  shape keys = [B; S_; H; E] ->
  shape values = [B; S_; H; E] ->
  exists V g',
    FullAttention.forward m queries keys values g = Ok (V, g')
    /\ shape V = [B; L; H; E].
Proof.
  intros Hq Hk Hv.
  unfold FullAttention.forward, FullAttention.attention_weights. rewrite Hq, Hv.
  unfold bind at 1.
  rewrite (bind_lift_Ok _ _ _ _ (einsum_scores_ok queries keys B L S_ H E Hq Hk)).
  match goal with
  | |- context [Dropout.forward ?d ?x g] =>
      destruct (Dropout_forward_ok d x g) as (A & g1 & EA & SA & _)
  end.
  rewrite EA.
  assert (HshA : shape A = [B; H; L; S_]) by (rewrite SA; reflexivity).
  rewrite (bind_lift_Ok _ _ _ _ (einsum_values_ok A values B L S_ H E HshA Hv)).
  match goal with
  | |- context [binop Qplus ?V0 queries] =>
      rewrite (bind_lift_Ok _ _ _ _ (binop_same_shape Qplus V0 queries
                                       (eq_trans Hq (eq_sym (shape_tabulate _ _)))))
  end.
  eexists. eexists. split; reflexivity.
Qed.

Lemma AttentionLayer_forward_ok (m : AttentionLayer.t) (q k v : tensor Q)
    (B L S_ H dk : nat) (g : rng) :
  wf_AttentionLayer H dk m ->
  0 < B -> 0 < L -> 0 < S_ -> 0 < H -> 0 < dk ->
  shape q = [B; L; H * dk] ->
  shape k = [B; S_; H * dk] ->
  shape v = [B; S_; H * dk] ->
  exists y g',
    AttentionLayer.forward m (q, k, v) g = Ok (y, g')
    /\ shape y = [B; L; H * dk].
Proof.
  intros (Hh & Hn & Hn1 & Hqp & Hkp & Hvp & Hop) HB HL HS HH Hdk Hq Hk Hv.
  set (d := H * dk) in *.
  unfold AttentionLayer.forward. rewrite Hq, Hk.
  step_with (LayerNorm_forward_ok (AttentionLayer.norm m) q [B; L] d Hn Hq).
  step_with (LayerNorm_forward_ok (AttentionLayer.norm m) k [B; S_] d Hn Hk).
  step_with (LayerNorm_forward_ok (AttentionLayer.norm m) v [B; S_] d Hn Hv).
  step_with (Linear_forward_ok (AttentionLayer.query_projection m) t [B; L] d d Hqp S).
  rewrite Hh.
  change [Z.of_nat B; Z.of_nat L; Z.of_nat H; (-1)%Z]
    with (map Z.of_nat [B; L; H] ++ (-1)%Z :: map Z.of_nat []).
  destruct (reshape_minus1 t2 _ [B; L; H] [] dk S2) as (qh & Eq & Sq & _).
  { cbn. nia. }
  { cbn. unfold d. nia. }
  rewrite (bind_lift_Ok _ _ _ _ Eq). clear Eq. cbn [app] in Sq.
  step_with (Linear_forward_ok (AttentionLayer.key_projection m) t0 [B; S_] d d Hkp S0).
  change [Z.of_nat B; Z.of_nat S_; Z.of_nat H; (-1)%Z]
    with (map Z.of_nat [B; S_; H] ++ (-1)%Z :: map Z.of_nat []).
  destruct (reshape_minus1 t3 _ [B; S_; H] [] dk S3) as (kh & Ek & Sk & _).
  { cbn. nia. }
  { cbn. unfold d. nia. }
  rewrite (bind_lift_Ok _ _ _ _ Ek). clear Ek. cbn [app] in Sk.
  step_with (Linear_forward_ok (AttentionLayer.value_projection m) t1 [B; S_] d d Hvp S1).
  destruct (reshape_minus1 t4 _ [B; S_; H] [] dk S4) as (vh & Ev & Sv & _).
  { cbn. nia. }
  { cbn. unfold d. nia. }
  rewrite (bind_lift_Ok _ _ _ _ Ev). clear Ev. cbn [app] in Sv.
  run_with (FullAttention_forward_ok (AttentionLayer.inner_attention m) qh kh vh
              B L S_ H dk g Sq Sk Sv).
  assert (Hmix : exists o,
             (if AttentionLayer.mix m then transpose 2 1 t5 else Ok t5) = Ok o
             /\ numel (shape o) = B * (L * (H * dk)) /\ True).
  { destruct (AttentionLayer.mix m).
    - destruct (transpose_ok 2 1 t5 _ S5 eq_refl) as (o & Eo & So).
      exists o. split; [exact Eo|]. rewrite So. cbn. split; [nia | exact I].
    - exists t5. split; [reflexivity|]. rewrite S5. cbn. split; [nia | exact I]. }
  destruct Hmix as (o & Eo & No & _).
  rewrite (bind_lift_Ok _ _ _ _ Eo). clear Eo.
  change [Z.of_nat B; Z.of_nat L; (-1)%Z]
    with (map Z.of_nat [B; L] ++ (-1)%Z :: map Z.of_nat []).
  destruct (reshape_minus1 o (shape o) [B; L] [] d eq_refl) as (out & Eout & Sout & _).
  { cbn. nia. }
  { rewrite No. cbn. unfold d. nia. }
  rewrite (bind_lift_Ok _ _ _ _ Eout). clear Eout. cbn [app] in Sout.
  step_with (LayerNorm_forward_ok (AttentionLayer.norm_1 m) out [B; L] d Hn1 Sout).
  step_with (Linear_forward_ok (AttentionLayer.out_projection m) t6 [B; L] d d Hop S6).
  unfold lift.
  rewrite (binop_same_shape Qplus t7 out) by (rewrite S7; exact Sout).
  eexists. eexists. split; [reflexivity|]. exact S7.
Qed.

End AttentionFacts.

(** ** What [HUTformer.__init__] returns *)

Section ModelInit.
Context {F : FloatOps} {G : RandomGen} {FS : FileSystem}.

Lemma trunc_normal_inv (t t' : tensor Q) (mean std a b : option Q) (g g' : rng) :
  trunc_normal_ t mean std a b g = Ok (t', g') -> shape t' = shape t.
Proof.
  unfold trunc_normal_, _no_grad_trunc_normal_.
  destruct (Qeq_bool _ 0); [discriminate|].
  intros H. minv H. apply uniform_inv in Hstep. exact Hstep.
Qed.

Lemma LayerNorm_init_wf (n : Z) (m : LayerNorm.t) :
  LayerNorm.init n = Ok m ->
  (0 <= n)%Z /\ LayerNorm.normalized_shape m = Z.to_nat n.
Proof.
  unfold LayerNorm.init. intros H. minv H.
  apply to_dim_inv in Hstep. destruct Hstep as [Hn ->]. injection H as <-.
  split; [exact Hn | reflexivity].
Qed.

Lemma SegmentMerging_init_wf (dim : Z) (m : SegmentMerging.t) :
  SegmentMerging.init dim = Ok m -> wf_SegmentMerging (Z.to_nat dim) m.
Proof.
  unfold SegmentMerging.init. intros H. minv H.
  apply LayerNorm_init_wf in Hstep. destruct Hstep as [Hd Hn].
  injection H as <-. unfold wf_SegmentMerging. cbn [SegmentMerging.norm].
  rewrite Hn. lia.
Qed.

Lemma AttentionLayer_init_wf (mix : bool) (dr : Q) (g g' : rng) (m : AttentionLayer.t) :
  AttentionLayer.init 64 8 None None mix dr g = Ok (m, g') ->
  wf_AttentionLayer 8 8 m.
Proof.
  intros H. unfold AttentionLayer.init in H. cbn [or_default floordiv Z.eqb] in H.
  change (64 / 8)%Z with 8%Z in H.
  minv H. injection Hstep as <-. injection Hstep0 as <-.
  apply Linear_init_wf in Hstep2, Hstep3, Hstep4, Hstep5.
  apply LayerNorm_init_wf in Hstep6, Hstep7.
  destruct Hstep6 as [_ Hstep6]. destruct Hstep7 as [_ Hstep7].
  unfold wf_AttentionLayer.
  cbn [AttentionLayer.n_heads AttentionLayer.norm AttentionLayer.norm_1
       AttentionLayer.query_projection AttentionLayer.key_projection
       AttentionLayer.value_projection AttentionLayer.out_projection].
  repeat match goal with |- _ /\ _ => split end;
    try reflexivity; try assumption; tauto.
Qed.

End ModelInit.

Lemma freeze_keeps_data : keeps_data HUTformer.freeze.
Proof.
  intros name p. unfold HUTformer.freeze.
  destruct (negb (contains "decoder" name)); reflexivity.
Qed.

Lemma wf_Linear_map (f : string -> param -> param) (prefix : string) (i o : nat)
    (m : Linear.t) :
  keeps_data f -> wf_Linear i o m -> wf_Linear i o (Linear.map_parameters f prefix m).
Proof.
  intros Hf [Hw Hb]. split; cbn [Linear.map_parameters Linear.weight Linear.bias].
  - rewrite Hf. exact Hw.
  - intros b Hbias. destruct (Linear.bias m) as [b0|]; [|discriminate].
    injection Hbias as <-. rewrite Hf. apply Hb. reflexivity.
Qed.

Lemma wf_WindowAttention_map (f : string -> param -> param) (prefix : string)
    (dim Wh Ww nh : nat) (m : WindowAttention.t) :
  keeps_data f ->
  wf_WindowAttention dim Wh Ww nh m ->
  wf_WindowAttention dim Wh Ww nh (WindowAttention.map_parameters f prefix m).
Proof.
  intros Hf (H1 & H2 & H3 & H4 & H5 & H6 & H7 & H8 & H9 & H10 & H11
             & (qb & vb & Hq & Hv & Hsq & Hsv) & H13).
  unfold wf_WindowAttention.
  cbn [WindowAttention.map_parameters WindowAttention.num_heads
       WindowAttention.window_size WindowAttention.logit_scale
       WindowAttention.cpb_mlp_0 WindowAttention.cpb_mlp_2
       WindowAttention.relative_coords_table WindowAttention.relative_position_index
       WindowAttention.qkv WindowAttention.q_bias WindowAttention.v_bias
       WindowAttention.proj].
  repeat match goal with |- _ /\ _ => split end;
    try assumption; try (apply wf_Linear_map; assumption).
  - rewrite Hf. exact H3.
  - cbn [Linear.map_parameters Linear.bias]. rewrite H11. reflexivity.
  - rewrite Hq, Hv. cbn [option_map]. eexists. eexists.
    split; [reflexivity|]. split; [reflexivity|]. rewrite !Hf. auto.
Qed.

Lemma wf_AttentionLayer_map (f : string -> param -> param) (prefix : string)
    (H dk : nat) (m : AttentionLayer.t) :
  keeps_data f ->
  wf_AttentionLayer H dk m ->
  wf_AttentionLayer H dk (AttentionLayer.map_parameters f prefix m).
Proof.
  intros Hf (H1 & H2 & H3 & H4 & H5 & H6 & H7).
  unfold wf_AttentionLayer.
  cbn [AttentionLayer.map_parameters AttentionLayer.n_heads AttentionLayer.norm
       AttentionLayer.norm_1 AttentionLayer.query_projection
       AttentionLayer.key_projection AttentionLayer.value_projection
       AttentionLayer.out_projection LayerNorm.map_parameters
       LayerNorm.normalized_shape].
  repeat match goal with |- _ /\ _ => split end;
    try assumption; apply wf_Linear_map; assumption.
Qed.

Lemma wf_HUTformer_map (f : string -> param -> param) (n k t lp : nat)
    (m : HUTformer.t) :
  keeps_data f ->
  wf_HUTformer n k t lp m ->
  wf_HUTformer n k t lp (HUTformer.map_parameters f m).
Proof.
  intros Hf (H1 & H2 & H3 & H4 & H5 & H6 & H7 & H8 & H9 & H10 & H11).
  unfold wf_HUTformer.
  cbn [HUTformer.map_parameters HUTformer.len_patch HUTformer.embed_dim HUTformer.SE
       HUTformer.embedding HUTformer.STPE HUTformer.encoder_1 HUTformer.encoder_2_0
       HUTformer.encoder_2_1 HUTformer.encoder_3_0 HUTformer.encoder_3_1
       HUTformer.encoder_project].
  repeat match goal with |- _ /\ _ => split end;
    try assumption;
    try (apply wf_Linear_map; assumption);
    try (apply wf_WindowAttention_map; assumption).
  rewrite Hf. exact H3.
Qed.

Lemma wf_decoder_map (f : string -> param -> param) (k t : nat)
    (d : HUTformer.decoder_t) :
  keeps_data f -> wf_decoder k t d -> wf_decoder k t (HUTformer.decoder_map_parameters f d).
Proof.
  intros Hf (H1 & H2 & H3 & H4 & H5 & H6 & H7).
  unfold wf_decoder.
  cbn [HUTformer.decoder_map_parameters HUTformer.decoder_1
       HUTformer.decoder_project_0 HUTformer.decoder_2_0 HUTformer.decoder_2_1
       HUTformer.decoder_3_0 HUTformer.decoder_3_1 HUTformer.decoder_project].
  repeat match goal with |- _ /\ _ => split end;
    first [apply wf_Linear_map; assumption
          | apply wf_WindowAttention_map; assumption
          | apply wf_AttentionLayer_map; assumption].
Qed.

Section ModelInitWf.
Context {F : FloatOps} {G : RandomGen} {FS : FileSystem}.

Lemma guard_inv (b : bool) (e : exn) (u : unit) : guard b e = Ok u -> b = true.
Proof. destruct b; [reflexivity | discriminate]. Qed.

Lemma int_truediv_mul (a b : nat) :
  0 < b -> int_truediv (Z.of_nat (a * b)) (Z.of_nat b) = Ok (Z.of_nat a).
Proof.
  intros Hb. unfold int_truediv.
  replace (Z.of_nat b =? 0)%Z with false by lia. f_equal.
  rewrite Z.quot_div_nonneg by lia.
  rewrite Nat2Z.inj_mul. apply Z.div_mul. lia.
Qed.

(** What a run of lines 271-296 returns, for a history of [8 k] patches. *)
Lemma init_encoder_inv (n k t lp : nat) (mode : string) (g g' : rng) (m : HUTformer.t) :
  0 < k -> 0 < t ->
  HUTformer.init_encoder (Z.of_nat n) (Z.of_nat (8 * k * t)) (Z.of_nat lp) (Z.of_nat t)
    mode g = Ok (m, g') ->
  wf_HUTformer n k t lp m
  /\ HUTformer.mode m = mode
  /\ (mode = "encoder"%string \/ mode = "decoder"%string)
  /\ HUTformer.decoder m = None
  /\ HUTformer.num_patch m = Z.of_nat (8 * k)
  /\ HUTformer.num_heads m = 8%Z
  /\ HUTformer.drop m = (1 # 10)%Q.
Proof.
  intros Hk Ht H. unfold HUTformer.init_encoder in H. minv H.
  rewrite (int_truediv_mul (8 * k) t Ht) in Hstep0.
  assert (Ha0 : a0 = Z.of_nat (8 * k)) by congruence. clear Hstep0.
  apply guard_inv in Hstep.
  apply to_dim_inv in Hstep1. destruct Hstep1 as [_ ->].
  apply to_dim_inv in Hstep2. destruct Hstep2 as [_ ->].
  apply trunc_normal_inv in Hstep3, Hstep5.
  apply Linear_init_wf in Hstep4, Hstep6, Hstep12.
  replace (a0 ÷ 2)%Z with (Z.of_nat (4 * k)) in Hstep7 by lia.
  replace (a0 ÷ 4)%Z with (Z.of_nat (2 * k)) in Hstep9 by lia.
  replace (a0 ÷ 8)%Z with (Z.of_nat k) in Hstep11 by lia.
  pose proof (WindowAttention_init_wf 64 2 (4 * k) 8 _ _ _ _ _ _ Hstep7
                ltac:(lia) ltac:(lia)) as Hw1.
  pose proof (WindowAttention_init_wf (64 * 2) 2 (2 * k) 8 _ _ _ _ _ _ Hstep9
                ltac:(lia) ltac:(lia)) as Hw2.
  pose proof (WindowAttention_init_wf (64 * 4) 2 k 8 _ _ _ _ _ _ Hstep11
                ltac:(lia) ltac:(lia)) as Hw3.
  apply SegmentMerging_init_wf in Hstep8, Hstep10.
  split; [|split; [reflexivity | split; [|repeat split]]].
  - unfold wf_HUTformer.
    cbn [HUTformer.len_patch HUTformer.embed_dim HUTformer.SE HUTformer.embedding
         HUTformer.STPE HUTformer.encoder_1 HUTformer.encoder_2_0
         HUTformer.encoder_2_1 HUTformer.encoder_3_0 HUTformer.encoder_3_1
         HUTformer.encoder_project].
    repeat match goal with |- _ /\ _ => split end;
      try reflexivity; try assumption.
    + cbn [nn_Parameter p_data]. rewrite Hstep3. cbn [full shape].
      rewrite Nat2Z.id. reflexivity.
    + destruct Hstep4 as [[Hw Hb] _]. split; cbn [Linear.weight Linear.bias p_data].
      * rewrite Hstep5, Hw, Nat2Z.id. reflexivity.
      * intros b Hbias. rewrite (Hb b Hbias). reflexivity.
    + destruct Hstep6 as [Hl _].
      replace (8 * k * 64 + 18) with (Z.to_nat (a0 * 64 + 16 + 2)) by lia.
      replace (8 * k * 64) with (Z.to_nat (a0 * 64)) by lia.
      exact Hl.
    + destruct Hstep12 as [Hl _].
      replace (8 * k * 64) with (Z.to_nat (a0 * 64)) by lia.
      rewrite Nat2Z.id in Hl. exact Hl.
  - apply orb_true_iff in Hstep.
    destruct Hstep as [He | He]; apply String.eqb_eq in He; auto.
  - exact Ha0.
Qed.

Lemma init_decoder_wf (m : HUTformer.t) (k t : nat) (g g' : rng)
    (d : HUTformer.decoder_t) :
  0 < k ->
  HUTformer.embed_dim m = 64%Z ->
  HUTformer.num_patch m = Z.of_nat (8 * k) ->
  HUTformer.num_heads m = 8%Z ->
  HUTformer.len_patch m = Z.of_nat t ->
  HUTformer.init_decoder m g = Ok (d, g') ->
  wf_decoder k t d.
Proof.
  intros Hk He Hnp Hnh Hlp H. unfold HUTformer.init_decoder in H.
  rewrite He, Hnh, Hlp in H.
  replace (HUTformer.num_patch m ÷ 2)%Z with (Z.of_nat (4 * k)) in H by lia.
  minv H.
  pose proof (WindowAttention_init_wf 64 2 (4 * k) 8 _ _ _ _ _ _ Hstep
                ltac:(lia) ltac:(lia)) as Hw1.
  pose proof (WindowAttention_init_wf 64 2 (4 * k) 8 _ _ _ _ _ _ Hstep2
                ltac:(lia) ltac:(lia)) as Hw2.
  pose proof (WindowAttention_init_wf 64 2 (4 * k) 8 _ _ _ _ _ _ Hstep4
                ltac:(lia) ltac:(lia)) as Hw3.
  apply AttentionLayer_init_wf in Hstep1, Hstep3.
  apply Linear_init_wf in Hstep0, Hstep5.
  destruct Hstep0 as [Hl0 _]. destruct Hstep5 as [Hl5 _].
  rewrite Nat2Z.id in Hl5.
  unfold wf_decoder.
  cbn [HUTformer.decoder_1 HUTformer.decoder_project_0 HUTformer.decoder_2_0
       HUTformer.decoder_2_1 HUTformer.decoder_3_0 HUTformer.decoder_3_1
       HUTformer.decoder_project].
  repeat match goal with |- _ /\ _ => split end; assumption.
Qed.

(** What a construction without a checkpoint returns, for a history of
    [8 k] patches of length [t]. *)
Lemma init_inv (n k t lp : nat) (mode : string) (g g' : rng) (m : HUTformer.t) :
  0 < k -> 0 < t ->
  HUTformer.init (Z.of_nat n) (Z.of_nat (8 * k * t)) (Z.of_nat lp) (Z.of_nat t)
    mode None g = Ok (m, g') ->
  wf_HUTformer n k t lp m
  /\ HUTformer.mode m = mode
  /\ (mode = "encoder"%string
      \/ (mode = "decoder"%string
          /\ exists d, HUTformer.decoder m = Some d /\ wf_decoder k t d)).
Proof.
  intros Hk Ht H. unfold HUTformer.init in H.
  apply bind_Ok_inv in H. destruct H as (m0 & g0 & Hm0 & H).
  apply (init_encoder_inv n k t lp mode g g0 m0 Hk Ht) in Hm0.
  destruct Hm0 as (Hwf & Hmode & Hvalid & Hdec & Hnp & Hnh & Hdrop).
  destruct Hvalid as [-> | ->].
  - change (String.eqb "encoder" "encoder") with true in H. cbv iota in H.
    apply ret_Ok_inv in H. destruct H as [-> _]. auto.
  - change (String.eqb "decoder" "encoder") with false in H.
    change (String.eqb "decoder" "decoder") with true in H.
    cbv iota in H. minv H.
    injection Hstep as <-.
    pose proof Hwf as (Hlp & Hed & _).
    pose proof (init_decoder_wf m0 k t _ _ _ Hk Hed Hnp Hnh Hlp Hstep0) as Hwd.
    split; [|split].
    + apply wf_HUTformer_map; [apply freeze_keeps_data|].
      destruct m0. exact Hwf.
    + destruct m0. exact Hmode.
    + right. split; [reflexivity|].
      exists (HUTformer.decoder_map_parameters HUTformer.freeze a0).
      split; [reflexivity|].
      apply wf_decoder_map; [apply freeze_keeps_data | exact Hwd].
Qed.

End ModelInitWf.

(** ** Shapes through [forward] *)

Section ForwardFacts.
Context {F : FloatOps} {G : RandomGen}.

(** Lines 332-337 and 348-353: up to the concatenation, any number [C >= 1]
    of channels goes through. *)
Lemma embed_cat (m : HUTformer.t) (n k t lp B L C : nat) (series aux : tensor Q) :
  wf_HUTformer n k t lp m ->
  0 < B -> 0 < n -> 0 < t -> 0 < L ->
  shape series = [B; n; 8 * k * t] ->
  shape aux = [B; L; n; C] ->
  exists S_,
    shape S_ = [B; n; 8 * k * 64 + 16 + (C - 1)]
    /\ HUTformer.embed m B n series aux
       = (let? U := Linear.forward (HUTformer.STPE m) S_ in
          reshape [Z.of_nat (B * n); -1; 64]%Z U).
Proof.
  intros (Hlp & Hed & Hse & Hemb & _) HB Hn Ht HL Hs Ha.
  unfold HUTformer.embed. rewrite Hlp, Hed.
  step_with (rearrange_patches_ok t (8 * k) series B n Ht Hs).
  step_with (Linear_forward_ok (HUTformer.embedding m) t0 [B; n; 8 * k] t 64 Hemb S).
  change [Z.of_nat B; Z.of_nat n; (-1)%Z]
    with (map Z.of_nat [B; n] ++ (-1)%Z :: map Z.of_nat []).
  destruct (reshape_minus1 t1 _ [B; n] [] (8 * k * 64) S0) as (t2 & E2 & S2 & _).
  { cbn. nia. }
  { cbn. nia. }
  rewrite E2. cbn [bindR]. cbn [app] in S2.
  step_with (repeat_batch_ok B n 16 (p_data (HUTformer.SE m)) Hse).
  step_with (select_ok 1 (-1) aux _ L (L - 1) Ha eq_refl (norm_index_m1 L HL)).
  cbn [remove_at firstn skipn app] in S3.
  step_with (slice_from_ok 2 1 t4 _ C S3 eq_refl).
  cbn [set_at firstn skipn app] in S4.
  step_with (cat_last_3_ok t2 t3 t5 [B; n] (8 * k * 64) 16 (C - 1) S2 S1 S4).
  exists t6. split; [exact S5 | reflexivity].
Qed.

Lemma embed_ok (m : HUTformer.t) (n k t lp B L : nat) (series aux : tensor Q) :
  wf_HUTformer n k t lp m ->
  0 < B -> 0 < n -> 0 < t -> 0 < L ->
  shape series = [B; n; 8 * k * t] ->
  shape aux = [B; L; n; 3] ->
  exists U, HUTformer.embed m B n series aux = Ok U /\ shape U = [B * n; 8 * k; 64].
Proof.
  intros Hwf HB Hn Ht HL Hs Ha.
  destruct (embed_cat m n k t lp B L 3 series aux Hwf HB Hn Ht HL Hs Ha)
    as (S_ & HS & ->).
  destruct Hwf as (_ & _ & _ & _ & Hstpe & _).
  replace (8 * k * 64 + 16 + (3 - 1)) with (8 * k * 64 + 18) in HS by lia.
  step_with (Linear_forward_ok (HUTformer.STPE m) S_ [B; n] _ _ Hstpe HS).
  change [Z.of_nat (B * n); (-1)%Z; 64%Z]
    with (map Z.of_nat [B * n] ++ (-1)%Z :: map Z.of_nat [64]).
  destruct (reshape_minus1 t0 _ [B * n] [64] (8 * k) S) as (U & EU & SU & _).
  { cbn. nia. }
  { cbn. nia. }
  exists U. split; [exact EU | exact SU].
Qed.


(** Lines 332-342 on a history of [8 k] patches with three channels. *)
Lemma encode_ok (m : HUTformer.t) (n k t lp B : nat) (history : tensor Q) (g : rng) :
  wf_HUTformer n k t lp m ->
  0 < B -> 0 < n -> 0 < t -> 0 < k ->
  shape history = [B; 8 * k * t; n; 3] ->
  exists H_1 H_2 pe g',
    HUTformer.encode m B n history g = Ok ((H_1, H_2, pe), g')
    /\ shape H_1 = [B * n; 8 * k; 64]
    /\ shape H_2 = [B * n; 4 * k; 128]
    /\ shape pe = [B; n; lp].
Proof.
  intros Hwf HB Hn Ht Hk Hh.
  pose proof Hwf as (_ & _ & _ & _ & _ & He1 & He20 & He21 & He30 & He31 & Hep).
  assert (HBn : 0 < B * n) by nia.
  assert (HL : 0 < 8 * k * t) by nia.
  unfold HUTformer.encode.
  step_with (select_ok 3 0 history _ 3 0 Hh eq_refl eq_refl).
  cbn [remove_at firstn skipn app] in S.
  step_with (permute_ok [0; 2; 1] t0 _ S eq_refl).
  cbn [map nth] in S0.
  step_with (embed_ok m n k t lp B (8 * k * t) t1 history Hwf HB Hn Ht HL S0 Hh).
  replace (8 * k) with (2 * (4 * k)) in S1 at 1 by lia.
  run_with (WindowAttention_forward_ok (HUTformer.encoder_1 m) t2 2 (4 * k) 8 8
              (B * n) g He1 ltac:(lia) ltac:(lia) HBn ltac:(lia) ltac:(lia) S1).
  step_with (SegmentMerging_forward_ok (HUTformer.encoder_2_0 m) t3 (B * n) (4 * k) 64
               He20 S2).
  replace (4 * k) with (2 * (2 * k)) in S3 at 1 by lia.
  run_with (WindowAttention_forward_ok (HUTformer.encoder_2_1 m) t4 2 (2 * k) 8 16
              (B * n) g0 He21 ltac:(lia) ltac:(lia) HBn ltac:(lia) ltac:(lia) S3).
  step_with (SegmentMerging_forward_ok (HUTformer.encoder_3_0 m) t5 (B * n) (2 * k) 128
               He30 S4).
  run_with (WindowAttention_forward_ok (HUTformer.encoder_3_1 m) t6 2 k 8 32
              (B * n) g1 He31 ltac:(lia) ltac:(lia) HBn ltac:(lia) ltac:(lia) S5).
  step_with (rearrange_nodes_ok B n (2 * k) (8 * 32) t7 S6).
  replace (2 * k * (8 * 32)) with (8 * k * 64) in S7 by lia.
  step_with (Linear_forward_ok (HUTformer.encoder_project m) t8 [B; n] _ _ Hep S7).
  exists t3, t5, t9, g2. split; [reflexivity|].
  split; [rewrite S2; f_equal; f_equal; lia|].
  split; [rewrite S4; f_equal; f_equal; lia | exact S8].
Qed.


(** Lines 348-358 on an encoder prediction of [8 k] patches. *)
Lemma decode_ok (m : HUTformer.t) (d : HUTformer.decoder_t) (n k t lp B L : nat)
    (H_1 H_2 pe future : tensor Q) (g : rng) :
  wf_HUTformer n k t lp m ->
  wf_decoder k t d ->
  0 < B -> 0 < n -> 0 < t -> 0 < k -> 0 < L ->
  shape H_1 = [B * n; 8 * k; 64] ->
  shape H_2 = [B * n; 4 * k; 128] ->
  shape pe = [B; n; 8 * k * t] ->
  shape future = [B; L; n; 3] ->
  exists y g',
    HUTformer.decode m d B n H_1 H_2 pe future g = Ok (y, g')
    /\ shape y = [B; 8 * k * t; n; 1].
Proof.
  intros Hwf (Hd1 & Hp0 & Ha2 & Hw2 & Ha3 & Hw3 & Hdp) HB Hn Ht Hk HL H1 H2 Hpe Hf.
  assert (HBn : 0 < B * n) by nia.
  unfold HUTformer.decode.
  step_with (embed_ok m n k t lp B L pe future Hwf HB Hn Ht HL Hpe Hf).
  replace (8 * k) with (2 * (4 * k)) in S at 1 by lia.
  run_with (WindowAttention_forward_ok (HUTformer.decoder_1 d) t0 2 (4 * k) 8 8
              (B * n) g Hd1 ltac:(lia) ltac:(lia) HBn ltac:(lia) ltac:(lia) S).
  step_with (Linear_forward_ok (HUTformer.decoder_project_0 d) H_2 [B * n; 4 * k]
               128 64 Hp0 H2).
  step_with (repeat_twice_ok (B * n) (4 * k) 64 t2 S1).
  run_with (AttentionLayer_forward_ok (HUTformer.decoder_2_0 d) t3 t1 t1
              (B * n) (2 * (4 * k)) (2 * (4 * k)) 8 8 g0 Ha2 HBn
              ltac:(lia) ltac:(lia) ltac:(lia) ltac:(lia) S2 S0 S0).
  run_with (WindowAttention_forward_ok (HUTformer.decoder_2_1 d) t4 2 (4 * k) 8 8
              (B * n) g1 Hw2 ltac:(lia) ltac:(lia) HBn ltac:(lia) ltac:(lia) S3).
  replace (8 * k) with (2 * (4 * k)) in H1 at 1 by lia.
  run_with (AttentionLayer_forward_ok (HUTformer.decoder_3_0 d) H_1 t5 t5
              (B * n) (2 * (4 * k)) (2 * (4 * k)) 8 8 g2 Ha3 HBn
              ltac:(lia) ltac:(lia) ltac:(lia) ltac:(lia) H1 S4 S4).
  run_with (WindowAttention_forward_ok (HUTformer.decoder_3_1 d) t6 2 (4 * k) 8 8
              (B * n) g3 Hw3 ltac:(lia) ltac:(lia) HBn ltac:(lia) ltac:(lia) S5).
  step_with (Linear_forward_ok (HUTformer.decoder_project d) t7 [B * n; 2 * (4 * k)]
               64 t Hdp S6).
  change [Z.of_nat B; Z.of_nat n; (-1)%Z]
    with (map Z.of_nat [B; n] ++ (-1)%Z :: map Z.of_nat []).
  destruct (reshape_minus1 t8 _ [B; n] [] (8 * k * t) S7) as (t9 & E9 & S9 & _).
  { cbn. nia. }
  { cbn. nia. }
  rewrite (bind_lift_Ok _ _ _ _ E9). clear E9. cbn [app] in S9.
  step_with (permute_ok [0; 2; 1] t9 _ S9 eq_refl).
  cbn [map nth] in S8.
  unfold lift. rewrite unsqueeze_last.
  eexists. eexists. split; [reflexivity|]. cbn [shape]. rewrite S8. reflexivity.
Qed.

End ForwardFacts.

(** ** The forward pass of a constructed model *)

Section ForwardClaims.
Context {F : FloatOps} {G : RandomGen} {FS : FileSystem}.

Lemma forward_run (m : HUTformer.t) (n k t lp B : nat) (history future : tensor Q)
    (batch_seen epoch : Z) (train : bool) (kwargs : list (string * Z)) (g : rng) :
  wf_HUTformer n k t lp m ->
  (HUTformer.mode m = "encoder"%string
   \/ (HUTformer.mode m = "decoder"%string
       /\ lp = 8 * k * t
       /\ exists d, HUTformer.decoder m = Some d /\ wf_decoder k t d)) ->
  0 < n -> 0 < k -> 0 < t -> 0 < B ->
  shape history = [B; 8 * k * t; n; 3] ->
  shape future = [B; lp; n; 3] ->
  exists y g',
    HUTformer.forward m history future batch_seen epoch train kwargs g = Ok (y, g')
    /\ shape y = [B; lp; n; 1].
Proof.
  intros Hwf Hmode Hn Hk Ht HB Hh Hf.
  unfold HUTformer.forward. rewrite Hh.
  destruct (encode_ok m n k t lp B history g Hwf HB Hn Ht Hk Hh)
    as (H_1 & H_2 & pe & g1 & Eenc & S1 & S2 & Spe).
  rewrite (bind_Ok _ _ _ _ _ Eenc). cbv beta iota.
  destruct Hmode as [Hm | (Hm & Hlp & d & Hd & Hwd)]; rewrite Hm.
  - change (String.eqb "encoder" "encoder") with true. cbv iota.
    step_with (permute_ok [0; 2; 1] pe _ Spe eq_refl).
    cbn [map nth] in S. unfold lift. rewrite unsqueeze_last.
    eexists. eexists. split; [reflexivity|]. cbn [shape]. rewrite S. reflexivity.
  - change (String.eqb "decoder" "encoder") with false. cbv iota. rewrite Hd.
    subst lp.
    destruct (decode_ok m d n k t (8 * k * t) B (8 * k * t) H_1 H_2 pe future g1
                Hwf Hwd HB Hn Ht Hk ltac:(nia) S1 S2 Spe Hf)
      as (y & g2 & Ey & Sy).
    exists y, g2. split; assumption.
Qed.


(** C1, as the code has it.  A model constructed without a checkpoint for a
    history of [8 k] patches of length [t] maps every history of shape
    [(B, len_hist, n, 3)] and future of shape [(B, len_pred, n, 3)] to a
    tensor of shape exactly [(B, len_pred, n, 1)]: in mode 'encoder' for
    every prediction length, in mode 'decoder' when the prediction length
    equals the history length. *)
Theorem forward_output_shape (n k t lp B : nat) (mode : string) (m : HUTformer.t)
    (history future : tensor Q) (batch_seen epoch : Z) (train : bool)
    (kwargs : list (string * Z)) (g0 g1 g : rng) :
  0 < n -> 0 < k -> 0 < t -> 0 < B ->
  HUTformer.init (Z.of_nat n) (Z.of_nat (8 * k * t)) (Z.of_nat lp) (Z.of_nat t)
    mode None g0 = Ok (m, g1) ->
  (mode = "decoder"%string -> lp = 8 * k * t) ->
  shape history = [B; 8 * k * t; n; 3] ->
  shape future = [B; lp; n; 3] ->
  exists y g',
    HUTformer.forward m history future batch_seen epoch train kwargs g = Ok (y, g')
    /\ shape y = [B; lp; n; 1].
Proof.
  intros Hn Hk Ht HB Hinit Hlp Hh Hf.
  destruct (init_inv n k t lp mode g0 g1 m Hk Ht Hinit) as (Hwf & Hm & Hcase).
  apply (forward_run m n k t lp B); try assumption.
  rewrite Hm. destruct Hcase as [He | (Hd & d & Hdec & Hwd)]; [left; exact He|].
  right. split; [exact Hd|]. split; [apply Hlp; exact Hd|].
  exists d. split; assumption.
Qed.


(** C9.  The result of [forward] (prediction and generator state alike) is
    the same for all values of [batch_seen], [epoch], [train] and the
    keyword arguments.  The [train] argument in particular is never read:
    whether dropout is applied is decided by the [training] attribute of
    the dropout modules, see [Dropout_forward_ok]. *)
Theorem forward_ignores_counters (m : HUTformer.t) (history future : tensor Q)
    (batch_seen batch_seen' epoch epoch' : Z) (train train' : bool)
    (kwargs kwargs' : list (string * Z)) (g : rng) :
  HUTformer.forward m history future batch_seen epoch train kwargs g
  = HUTformer.forward m history future batch_seen' epoch' train' kwargs' g.
Proof. reflexivity. Qed.

Lemma tabulate_ext {A : Type} (s : list nat) (f f' : list nat -> A) :
  (forall idx, in_range s idx -> f idx = f' idx) -> tabulate s f = tabulate s f'.
Proof.
  intros Hf. unfold tabulate. f_equal. apply map_ext_in. intros k Hk.
  apply in_seq in Hk. apply Hf. apply unravel_in_range. lia.
Qed.

(** [history_data[:, :, :, 0]] sees channel 0 only. *)
Lemma select_channel_agree (h h' : tensor Q) (B L N C : nat) :
  shape h = [B; L; N; C] -> shape h' = [B; L; N; C] ->
  (forall b l n, b < B -> l < L -> n < N -> get h [b; l; n; 0] = get h' [b; l; n; 0]) ->
  select 3 0 h = select 3 0 h'.
Proof.
  intros Hs Hs' Hag. unfold select. rewrite Hs, Hs'. cbn [nth_error].
  destruct (norm_index 0 C) as [i'|e] eqn:Hi; [|reflexivity]. cbn [bindR].
  assert (Hz : i' = 0).
  { unfold norm_index in Hi. cbn [Z.leb Z.compare andb] in Hi.
    destruct (0 <? Z.of_nat C)%Z; cbn in Hi; [congruence|].
    destruct (- Z.of_nat C <=? 0)%Z; discriminate. }
  subst i'. f_equal. apply tabulate_ext. intros idx Hr.
  inversion Hr as [|b d1 idx1 s1 Hb Hr1]; subst.
  inversion Hr1 as [|l d2 idx2 s2 Hl Hr2]; subst.
  inversion Hr2 as [|n d3 idx3 s3 Hn Hr3]; subst.
  inversion Hr3; subst. cbn. apply Hag; assumption.
Qed.

(** [history_data[:, -1, :, 1:]] sees the channels from 1 on of the last
    time step only. *)
Lemma covariates_agree (h h' : tensor Q) (B L N C : nat) :
  shape h = [B; L; N; C] -> shape h' = [B; L; N; C] ->
  (forall b n c, b < B -> n < N -> 1 <= c < C ->
     get h [b; L - 1; n; c] = get h' [b; L - 1; n; c]) ->
  (let? last_step := select 1 (-1) h in slice_from 2 1 last_step)
  = (let? last_step := select 1 (-1) h' in slice_from 2 1 last_step).
Proof.
  intros Hs Hs' Hag. unfold select. rewrite Hs, Hs'. cbn [nth_error].
  destruct (Nat.eq_dec L 0) as [->|HL]; [reflexivity|].
  rewrite (norm_index_m1 L) by lia. cbn [bindR].
  unfold slice_from. rewrite !shape_tabulate.
  cbn [remove_at firstn skipn app nth_error].
  f_equal. apply tabulate_ext. intros idx Hr. cbn [set_at firstn skipn app] in Hr.
  inversion Hr as [|b d1 idx1 s1 Hb Hr1]; subst.
  inversion Hr1 as [|n d2 idx2 s2 Hn Hr2]; subst.
  inversion Hr2 as [|c d3 idx3 s3 Hc Hr3]; subst.
  inversion Hr3; subst.
  cbn [set_at firstn skipn app ix nth].
  rewrite !get_tabulate by (apply in_range_3; lia).
  cbn [insert_at firstn skipn app]. apply Hag; lia.
Qed.

Lemma bindR_assoc {A B C : Type} (c : result A) (k1 : A -> result B)
    (k2 : B -> result C) :
  bindR (bindR c k1) k2 = bindR c (fun a => bindR (k1 a) k2).
Proof. destruct c; reflexivity. Qed.

Lemma bind_lift_ext {A B : Type} (c : result A) (k k' : A -> M B) (g : rng) :
  (forall a, k a g = k' a g) -> bind (lift c) k g = bind (lift c) k' g.
Proof. intros Hk. unfold bind, lift. destruct c; [apply Hk|reflexivity]. Qed.

Lemma embed_agree (m : HUTformer.t) (B N : nat) (series h h' : tensor Q) :
  (let? last_step := select 1 (-1) h in slice_from 2 1 last_step)
  = (let? last_step := select 1 (-1) h' in slice_from 2 1 last_step) ->
  HUTformer.embed m B N series h = HUTformer.embed m B N series h'.
Proof.
  intros Hcov. unfold HUTformer.embed.
  destruct (rearrange_patches _ series) as [patches|]; [|reflexivity]. cbn [bindR].
  destruct (Linear.forward _ patches) as [S0|]; [|reflexivity]. cbn [bindR].
  destruct (reshape _ S0) as [S1|]; [|reflexivity]. cbn [bindR].
  destruct (repeat_ _ _) as [se|]; [|reflexivity]. cbn [bindR].
  assert (HK : forall K : tensor Q -> result (tensor Q),
             bindR (select 1 (-1) h) (fun last_step => bindR (slice_from 2 1 last_step) K)
             = bindR (select 1 (-1) h')
                 (fun last_step => bindR (slice_from 2 1 last_step) K)).
  { intros K. pose proof (f_equal (fun r => bindR r K) Hcov) as H.
    cbv beta in H. rewrite !bindR_assoc in H. exact H. }
  apply HK.
Qed.

(** C10.  In mode 'encoder' the result of [forward] is the same for all
    future tensors.  The history tensor in turn is read only at channel 0
    of every time step and at the channels from 1 on of the last time
    step: two calls whose histories agree there return the same result,
    whatever their future tensors are. *)
Theorem encoder_forward_ignores_future (m : HUTformer.t)
    (batch_seen epoch : Z) (train : bool) (kwargs : list (string * Z)) (g : rng) :
  HUTformer.mode m = "encoder"%string ->
  (forall history future future' : tensor Q,
      HUTformer.forward m history future batch_seen epoch train kwargs g
      = HUTformer.forward m history future' batch_seen epoch train kwargs g)
  /\ (forall (history history' future future' : tensor Q) (B L N C : nat),
        shape history = [B; L; N; C] ->
        shape history' = [B; L; N; C] ->
        (forall b l n, b < B -> l < L -> n < N ->
           get history [b; l; n; 0] = get history' [b; l; n; 0]) ->
        (forall b n c, b < B -> n < N -> 1 <= c < C ->
           get history [b; L - 1; n; c] = get history' [b; L - 1; n; c]) ->
        HUTformer.forward m history future batch_seen epoch train kwargs g
        = HUTformer.forward m history' future' batch_seen epoch train kwargs g).
Proof.
  intros Hm. split.
  - intros history future future'. unfold HUTformer.forward.
    destruct (shape history) as [|B [|L [|N [|C [|]]]]]; try reflexivity.
    unfold bind.
    destruct (HUTformer.encode m B N history g) as [[[[H_1 H_2] pe] g1]|e];
      [|reflexivity].
    rewrite Hm. reflexivity.
  - intros history history' future future' B L N C Hs Hs' Hch Hcov.
    unfold HUTformer.forward. rewrite Hs, Hs'.
    assert (Henc : HUTformer.encode m B N history g
                   = HUTformer.encode m B N history' g).
    { unfold HUTformer.encode.
      rewrite (select_channel_agree history history' B L N C Hs Hs' Hch).
      apply bind_lift_ext. intros target.
      apply bind_lift_ext. intros series.
      rewrite (embed_agree m B N series history history'
                 (covariates_agree history history' B L N C Hs Hs' Hcov)).
      reflexivity. }
    unfold bind. rewrite Henc.
    destruct (HUTformer.encode m B N history' g) as [[[[H_1 H_2] pe] g1]|e];
      [|reflexivity].
    rewrite Hm. reflexivity.
Qed.

End ForwardClaims.

(** C9, counterexample.  The [train] argument does not gate dropout.  A
    model as constructed is in training mode: called with [train=False] it
    still draws dropout masks, the counter of the generator moves.  The
    same model after [train(False)] draws none when called with
    [train=True]. *)
Lemma forward_train_flag_counterexample :
  match @HUTformer.init demo_float counting_rng demo_fs 1 8 5 1 "encoder" None 0%N with
  | Ok (m, _) =>
      match @HUTformer.forward demo_float counting_rng m (full [1; 8; 1; 3] 0%Q)
              (full [1; 5; 1; 3] 0%Q) 0 0 false [] 0%N with
      | Ok (_, g') => g' <> 0%N
      | Raise _ => False
      end
      /\ match @HUTformer.forward demo_float counting_rng (HUTformer.train false m)
                 (full [1; 8; 1; 3] 0%Q) (full [1; 5; 1; 3] 0%Q) 0 0 true [] 0%N with
         | Ok (_, g') => g' = 0%N
         | Raise _ => False
         end
  | Raise _ => False
  end.
Proof. lazy. split; [discriminate | reflexivity]. Qed.

Lemma forward_output_shape_witness :
  match @HUTformer.init demo_float demo_rng demo_fs 1 8 5 1 "encoder" None tt with
  | Ok (m, _) =>
      exists y g',
        @HUTformer.forward demo_float demo_rng m (full [1; 8; 1; 3] 0%Q)
          (full [1; 5; 1; 3] 0%Q) 0 0 true [] tt = Ok (y, g')
        /\ shape y = [1; 5; 1; 1]
  | Raise _ => False
  end.
Proof.
  destruct (@HUTformer.init demo_float demo_rng demo_fs 1 8 5 1 "encoder" None tt)
    as [[m g1]|e] eqn:E.
  - apply (@forward_output_shape demo_float demo_rng demo_fs 1 1 1 5 1 "encoder" m
             (full [1; 8; 1; 3] 0%Q) (full [1; 5; 1; 3] 0%Q) 0 0 true [] tt g1 tt);
      try lia; try reflexivity; [exact E | discriminate].
  - assert (Hok : is_ok (@HUTformer.init demo_float demo_rng demo_fs 1 8 5 1
                           "encoder" None tt) = true) by (vm_compute; reflexivity).
    rewrite E in Hok. discriminate Hok.
Defined.

(** A decoder whose prediction length differs from the history length, and
    an encoder with 12 patches (a multiple of 4, not of 8): both are
    constructed, and both raise in [forward]. *)
Lemma forward_output_shape_counterexample :
  match @HUTformer.init demo_float demo_rng demo_fs 1 8 16 1 "decoder" None tt with
  | Ok (m, _) =>
      @HUTformer.forward demo_float demo_rng m (full [1; 8; 1; 3] 0%Q)
        (full [1; 16; 1; 3] 0%Q) 0 0 true [] tt = Raise RuntimeError
  | Raise _ => False
  end
  /\ match @HUTformer.init demo_float demo_rng demo_fs 1 12 12 1 "encoder" None tt with
     | Ok (m, _) =>
         @HUTformer.forward demo_float demo_rng m (full [1; 12; 1; 3] 0%Q)
           (full [1; 12; 1; 3] 0%Q) 0 0 true [] tt = Raise RuntimeError
     | Raise _ => False
     end.
Proof. split; lazy; reflexivity. Qed.



Lemma encoder_forward_ignores_future_witness :
  match @HUTformer.init demo_float demo_rng demo_fs 1 8 8 1 "encoder" None tt with
  | Ok (m, _) =>
      @HUTformer.forward demo_float demo_rng m (full [1; 8; 1; 3] 0%Q)
        (full [1; 8; 1; 3] 0%Q) 0 0 true [] tt
      = @HUTformer.forward demo_float demo_rng m (full [1; 8; 1; 3] 0%Q)
          (full [1; 8; 1; 3] 1%Q) 0 0 true [] tt
  | Raise _ => False
  end.
Proof.
  destruct (@HUTformer.init demo_float demo_rng demo_fs 1 8 8 1 "encoder" None tt)
    as [[m g1]|e] eqn:E.
  - apply (proj1 (@encoder_forward_ignores_future demo_float demo_rng m 0 0 true [] tt
                    (proj1 (proj2 (@init_inv demo_float demo_rng demo_fs 1 1 1 8
                                     "encoder" tt g1 m ltac:(lia) ltac:(lia) E))))).
  - assert (Hok : is_ok (@HUTformer.init demo_float demo_rng demo_fs 1 8 8 1
                           "encoder" None tt) = true) by (vm_compute; reflexivity).
    rewrite E in Hok. discriminate Hok.
Defined.

(** ** When construction succeeds *)

Ltac run_pure L :=
  let y := fresh "t" in
  let g := fresh "g" in
  let E := fresh "E" in
  destruct L as (y & g & E);
  rewrite (bind_Ok _ _ _ _ _ E); clear E; cbv beta.

Section InitSucceeds.
Context {F : FloatOps} {G : RandomGen} {FS : FileSystem} {L : FloatLaws F}.

Lemma Linear_init_ok (i o : Z) (wb : bool) (g : rng) :
  (0 <= i)%Z -> (0 <= o)%Z ->
  exists m g', Linear.init i o wb g = Ok (m, g').
Proof.
  intros Hi Ho. unfold Linear.init.
  rewrite (bind_lift_Ok _ _ _ _ (to_dim_ok i Hi)).
  rewrite (bind_lift_Ok _ _ _ _ (to_dim_ok o Ho)).
  set (bound := if 0 <? Z.to_nat i then _ else _).
  assert (Hb : (- bound <= bound)%Q).
  { assert (H0 : (0 <= bound)%Q).
    { unfold bound. destruct (0 <? Z.to_nat i); [|discriminate].
      unfold Qdiv. rewrite Qmult_1_l. apply Qinv_le_0_compat. apply f_sqrt_nonneg. }
    apply Qle_trans with 0%Q; [|exact H0].
    apply (Qopp_le_compat 0 bound) in H0. exact H0. }
  assert (Hw : exists w g1,
             (if numel [Z.to_nat o; Z.to_nat i] =? 0
              then ret (full [Z.to_nat o; Z.to_nat i] 0%Q)
              else uniform_ (- bound) bound (full [Z.to_nat o; Z.to_nat i] 0%Q)) g
             = Ok (w, g1)).
  { destruct (numel [Z.to_nat o; Z.to_nat i] =? 0).
    - eexists. eexists. reflexivity.
    - destruct (uniform_ok _ _ (full [Z.to_nat o; Z.to_nat i] 0%Q) g Hb)
        as (w & g1 & E & _). eauto. }
  run_pure Hw.
  destruct wb.
  - destruct (uniform_ok _ _ (full [Z.to_nat o] 0%Q) g0 Hb) as (b & g1 & E & _).
    rewrite (bind_Ok _ _ _ _ _ E). eexists. eexists. reflexivity.
  - eexists. eexists. reflexivity.
Qed.

Lemma trunc_normal_ok (t : tensor Q) (g : rng) :
  exists t' g', trunc_normal_ t None (Some (2 # 100)%Q) None None g = Ok (t', g').
Proof.
  unfold trunc_normal_.
  destruct (no_grad_trunc_normal_run t 0 (2 # 100) (-2) 2 g) as (t' & g' & E & _);
    [reflexivity | reflexivity |].
  eauto.
Qed.

Lemma WindowAttention_init_ok (dim nh wh ww : Z) (qb : bool) (pws : Z * Z) (g : rng) :
  (0 <= dim)%Z -> (0 <= nh)%Z -> (1 <= wh)%Z -> (1 <= ww)%Z ->
  exists m g',
    WindowAttention.init dim (wh, ww) nh qb (1 # 10) (1 # 10) pws g = Ok (m, g').
Proof.
  intros Hd Hn Hh Hw. unfold WindowAttention.init.
  rewrite (bind_lift_Ok _ _ _ _ (to_dim_ok nh Hn)).
  run_pure (Linear_init_ok 2 512 true g ltac:(lia) ltac:(lia)).
  run_pure (Linear_init_ok 512 nh false g0 ltac:(lia) Hn).
  destruct (make_relative_coords_table_ok (Z.to_nat wh) (Z.to_nat ww) pws)
    as (tb & Etb & _); try lia.
  rewrite !Z2Nat.id in Etb by lia.
  rewrite (bind_lift_Ok _ _ _ _ Etb).
  destruct (make_relative_position_index_range (Z.to_nat wh) (Z.to_nat ww))
    as (ti & Eti & _).
  rewrite !Z2Nat.id in Eti by lia.
  rewrite (bind_lift_Ok _ _ _ _ Eti).
  run_pure (Linear_init_ok dim (dim * 3) false g1 Hd ltac:(lia)).
  rewrite (bind_lift_Ok _ _ _ _ (to_dim_ok dim Hd)).
  change (Dropout.init (1 # 10)) with (Ok (Dropout.mk (1 # 10) true)).
  rewrite bind_lift_now.
  run_pure (Linear_init_ok dim dim true g2 Hd Hd).
  rewrite bind_lift_now.
  eexists. eexists. reflexivity.
Qed.

Lemma AttentionLayer_init_ok (g : rng) :
  exists m g', AttentionLayer.init 64 8 None None true (1 # 10) g = Ok (m, g').
Proof.
  unfold AttentionLayer.init.
  change (or_default None (floordiv 64 8)) with (Ok 8%Z).
  rewrite !bind_lift_now.
  change (FullAttention.init None (1 # 10))
    with (Ok (FullAttention.mk None (Dropout.mk (1 # 10) true))).
  rewrite bind_lift_now.
  run_pure (Linear_init_ok 64 (8 * 8) true g ltac:(lia) ltac:(lia)).
  run_pure (Linear_init_ok 64 (8 * 8) true g0 ltac:(lia) ltac:(lia)).
  run_pure (Linear_init_ok 64 (8 * 8) true g1 ltac:(lia) ltac:(lia)).
  run_pure (Linear_init_ok (8 * 8) 64 true g2 ltac:(lia) ltac:(lia)).
  change (LayerNorm.init 64)
    with (Ok (LayerNorm.mk 64 (nn_Parameter (full [64] 1%Q))
                (nn_Parameter (full [64] 0%Q)) (1 # 100000))).
  rewrite !bind_lift_now.
  eexists. eexists. reflexivity.
Qed.

Lemma SegmentMerging_init_ok (dim : Z) :
  (0 <= dim)%Z -> exists m, SegmentMerging.init dim = Ok m.
Proof.
  intros Hd. unfold SegmentMerging.init, LayerNorm.init.
  rewrite (to_dim_ok (2 * dim)) by lia. cbn [bindR]. eexists. reflexivity.
Qed.

Lemma init_encoder_ok (N lh lp t : Z) (mode : string) (g : rng) :
  mode = "encoder"%string \/ mode = "decoder"%string ->
  (0 <= N)%Z -> (0 <= lp)%Z -> (0 < t)%Z -> (8 <= lh ÷ t)%Z ->
  exists m g',
    HUTformer.init_encoder N lh lp t mode g = Ok (m, g')
    /\ HUTformer.embed_dim m = 64%Z /\ HUTformer.num_heads m = 8%Z
    /\ HUTformer.drop m = (1 # 10)%Q /\ HUTformer.num_patch m = (lh ÷ t)%Z
    /\ HUTformer.len_patch m = t.
Proof.
  intros Hmode HN Hlp Ht Hnp. unfold HUTformer.init_encoder.
  replace (String.eqb mode "encoder" || String.eqb mode "decoder") with true
    by (destruct Hmode as [-> | ->]; reflexivity).
  cbn [guard]. rewrite bind_lift_now.
  unfold int_truediv. replace (t =? 0)%Z with false by lia. rewrite bind_lift_now.
  set (np := (lh ÷ t)%Z) in *.
  rewrite (bind_lift_Ok _ _ _ _ (to_dim_ok N HN)).
  rewrite (bind_lift_Ok _ _ _ _ (to_dim_ok 16 ltac:(lia))).
  run_pure (trunc_normal_ok (full [Z.to_nat N; Z.to_nat 16] 0%Q) g).
  run_pure (Linear_init_ok t 64 true g0 ltac:(lia) ltac:(lia)).
  run_pure (trunc_normal_ok (p_data (Linear.weight t1)) g1).
  run_pure (Linear_init_ok (np * 64 + 16 + 2) (np * 64) true g2 ltac:(lia) ltac:(lia)).
  run_pure (WindowAttention_init_ok 64 8 2 (np ÷ 2) true (0, 0)%Z g3
              ltac:(lia) ltac:(lia) ltac:(lia) ltac:(lia)).
  destruct (SegmentMerging_init_ok 64 ltac:(lia)) as (s20 & E20).
  rewrite (bind_lift_Ok _ _ _ _ E20).
  run_pure (WindowAttention_init_ok (64 * 2) 8 2 (np ÷ 4) true (0, 0)%Z g4
              ltac:(lia) ltac:(lia) ltac:(lia) ltac:(lia)).
  destruct (SegmentMerging_init_ok (64 * 2) ltac:(lia)) as (s30 & E30).
  rewrite (bind_lift_Ok _ _ _ _ E30).
  run_pure (WindowAttention_init_ok (64 * 4) 8 2 (np ÷ 8) true (0, 0)%Z g5
              ltac:(lia) ltac:(lia) ltac:(lia) ltac:(lia)).
  run_pure (Linear_init_ok (np * 64) lp true g6 ltac:(lia) Hlp).
  eexists. eexists. split; [reflexivity|]. repeat split.
Qed.

Lemma init_decoder_ok (m : HUTformer.t) (g : rng) :
  HUTformer.embed_dim m = 64%Z ->
  HUTformer.num_heads m = 8%Z ->
  HUTformer.drop m = (1 # 10)%Q ->
  (8 <= HUTformer.num_patch m)%Z ->
  (0 <= HUTformer.len_patch m)%Z ->
  exists d g', HUTformer.init_decoder m g = Ok (d, g').
Proof.
  intros He Hh Hd Hnp Hlp. unfold HUTformer.init_decoder. rewrite He, Hh, Hd.
  run_pure (WindowAttention_init_ok 64 8 2 (HUTformer.num_patch m ÷ 2) true (0, 0)%Z g
              ltac:(lia) ltac:(lia) ltac:(lia) ltac:(lia)).
  run_pure (Linear_init_ok (64 * 2) 64 true g0 ltac:(lia) ltac:(lia)).
  run_pure (AttentionLayer_init_ok g1).
  run_pure (WindowAttention_init_ok 64 8 2 (HUTformer.num_patch m ÷ 2) true (0, 0)%Z g2
              ltac:(lia) ltac:(lia) ltac:(lia) ltac:(lia)).
  run_pure (AttentionLayer_init_ok g3).
  run_pure (WindowAttention_init_ok 64 8 2 (HUTformer.num_patch m ÷ 2) true (0, 0)%Z g4
              ltac:(lia) ltac:(lia) ltac:(lia) ltac:(lia)).
  run_pure (Linear_init_ok 64 (HUTformer.len_patch m) true g5 ltac:(lia) Hlp).
  eexists. eexists. reflexivity.
Qed.

Lemma Linear_init_nonneg (i o : Z) (wb : bool) (g g' : rng) (m : Linear.t) :
  Linear.init i o wb g = Ok (m, g') -> (0 <= i)%Z /\ (0 <= o)%Z.
Proof.
  intros H. unfold Linear.init in H.
  apply bind_Ok_inv in H. destruct H as (a & g1 & H1 & H).
  apply lift_Ok_inv in H1. destruct H1 as [H1 _]. apply to_dim_inv in H1.
  apply bind_Ok_inv in H. destruct H as (b & g2 & H2 & H).
  apply lift_Ok_inv in H2. destruct H2 as [H2 _]. apply to_dim_inv in H2.
  tauto.
Qed.

Lemma arange_inv (lo hi : Z) (t : tensor Z) : arange lo hi = Ok t -> (lo <= hi)%Z.
Proof. unfold arange. destruct (Z.ltb_spec hi lo); [discriminate | lia]. Qed.

Lemma WindowAttention_init_window (dim : Z) (ws : Z * Z) (nh : Z) (qb : bool)
    (ad pd : Q) (pws : Z * Z) (g g' : rng) (m : WindowAttention.t) :
  WindowAttention.init dim ws nh qb ad pd pws g = Ok (m, g') ->
  (1 <= fst ws)%Z /\ (1 <= snd ws)%Z.
Proof.
  intros H. unfold WindowAttention.init in H. minv H.
  unfold WindowAttention.make_relative_coords_table in Hstep2.
  apply bindR_Ok_inv in Hstep2. destruct Hstep2 as (h & Hh & Hstep2).
  apply bindR_Ok_inv in Hstep2. destruct Hstep2 as (w & Hw & _).
  apply arange_inv in Hh, Hw. lia.
Qed.

(** C3, as the code has it.  [__init__] checks the mode and nothing about
    divisibility.  Without a checkpoint it returns a model exactly when the
    mode is one of the two strings, [NUM_NODES] and [len_pred] are not
    negative, [len_patch] is positive and [int(len_hist / len_patch)] is at
    least 8 (below that [torch.arange] refuses the window of the third
    encoder stage). *)
Theorem construction_succeeds_iff (N lh lp t : Z) (mode : string) (g : rng) :
  (exists m g', HUTformer.init N lh lp t mode None g = Ok (m, g'))
  <-> ((mode = "encoder"%string \/ mode = "decoder"%string)
       /\ (0 <= N)%Z /\ (0 <= lp)%Z /\ (0 < t)%Z /\ (8 <= lh ÷ t)%Z).
Proof.
  split.
  - intros (m & g' & H). unfold HUTformer.init in H.
    apply bind_Ok_inv in H. destruct H as (m0 & g0 & H0 & _).
    unfold HUTformer.init_encoder in H0. minv H0.
    apply guard_inv in Hstep. apply orb_true_iff in Hstep.
    unfold int_truediv in Hstep0.
    destruct (Z.eqb_spec t 0) as [|Hne]; [discriminate|]. injection Hstep0 as <-.
    apply to_dim_inv in Hstep1. destruct Hstep1 as [HN _].
    apply Linear_init_nonneg in Hstep4, Hstep12.
    apply WindowAttention_init_window in Hstep11. cbn [fst snd] in Hstep11.
    split; [|lia].
    destruct Hstep as [He | He]; apply String.eqb_eq in He; auto.
  - intros (Hmode & HN & Hlp & Ht & Hnp).
    unfold HUTformer.init.
    destruct (init_encoder_ok N lh lp t mode g Hmode HN Hlp Ht Hnp)
      as (m0 & g0 & E0 & He & Hh & Hd & Hp & Hl).
    rewrite (bind_Ok _ _ _ _ _ E0).
    destruct Hmode as [-> | ->].
    + eexists. eexists. reflexivity.
    + change (String.eqb "decoder" "encoder") with false.
      change (String.eqb "decoder" "decoder") with true. cbv iota.
      rewrite bind_lift_now.
      run_pure (init_decoder_ok m0 g0 He Hh Hd ltac:(lia) ltac:(lia)).
      eexists. eexists. reflexivity.
Qed.

End InitSucceeds.

Lemma construction_succeeds_iff_witness :
  exists m g',
    @HUTformer.init demo_float demo_rng demo_fs 1 110 50 12 "decoder" None tt
    = Ok (m, g').
Proof.
  apply (proj2 (@construction_succeeds_iff demo_float demo_rng demo_fs demo_float_laws
                  1 110 50 12 "decoder" tt)).
  split; [right; reflexivity|]. repeat split; try discriminate; reflexivity.
Defined.

(** Neither length is a multiple of the patch length and [num_patch = 9] is
    not divisible by 4, yet both modes construct. *)
Lemma construction_counterexample :
  ((110 mod 12 <> 0) /\ (50 mod 12 <> 0) /\ ((110 ÷ 12) mod 4 <> 0))%Z
  /\ is_ok (@HUTformer.init demo_float demo_rng demo_fs 1 110 50 12 "encoder" None tt)
     = true
  /\ is_ok (@HUTformer.init demo_float demo_rng demo_fs 1 110 50 12 "decoder" None tt)
     = true.
Proof.
  split; [repeat split; discriminate|].
  split; vm_compute; reflexivity.
Qed.

(** * What the forward pass reads and refuses *)

Section ForwardReads.
Context {F : FloatOps} {G : RandomGen}.

(** X1.  In either mode [forward] reads of [future_data] at most the
    channels from 1 on of its last time step: two calls whose future tensors
    have the same four-axis shape and agree there return the same result.
    In particular the target channel 0 of the future is never read. *)
Theorem forward_reads_future_covariates_only (m : HUTformer.t)
    (history future future' : tensor Q) (B L N C : nat)
    (batch_seen epoch : Z) (train : bool) (kwargs : list (string * Z)) (g : rng) :
  shape future = [B; L; N; C] ->
  shape future' = [B; L; N; C] ->
  (forall b n c, b < B -> n < N -> 1 <= c < C ->
     get future [b; L - 1; n; c] = get future' [b; L - 1; n; c]) ->
  HUTformer.forward m history future batch_seen epoch train kwargs g
  = HUTformer.forward m history future' batch_seen epoch train kwargs g.
Proof.
  intros Hs Hs' Hag. unfold HUTformer.forward.
  destruct (shape history) as [|B0 [|L0 [|N0 [|C0 [|]]]]]; try reflexivity.
  unfold bind at 1 3.
  destruct (HUTformer.encode m B0 N0 history g) as [[[[H_1 H_2] pe] g1]|e];
    [|reflexivity].
  destruct (String.eqb (HUTformer.mode m) "encoder"); [reflexivity|].
  destruct (HUTformer.decoder m) as [d|]; [|reflexivity].
  unfold HUTformer.decode.
  rewrite (embed_agree m B0 N0 pe future future'
             (covariates_agree future future' B L N C Hs Hs' Hag)).
  reflexivity.
Qed.

(** X2.  A history whose length is not a multiple of the patch length is
    refused by the first [rearrange] of [forward], in either mode and
    whatever the parameters are: the call raises [EinopsError]. *)
Theorem forward_rejects_ragged_history (m : HUTformer.t)
    (history future : tensor Q) (B L N C t : nat)
    (batch_seen epoch : Z) (train : bool) (kwargs : list (string * Z)) (g : rng) :
  shape history = [B; L; N; C] ->
  0 < C ->
  HUTformer.len_patch m = Z.of_nat t ->
  0 < t ->
  L mod t <> 0 ->
  HUTformer.forward m history future batch_seen epoch train kwargs g
  = Raise EinopsError.
Proof.
  intros Hs HC Hlp Ht HL.
  assert (Henc : HUTformer.encode m B N history g = Raise EinopsError).
  { unfold HUTformer.encode.
    step_with (select_ok 3 0 history _ C 0 Hs eq_refl (norm_index_nat 0 C HC)).
    cbn [remove_at firstn skipn app] in S.
    step_with (permute_ok [0; 2; 1] t0 _ S eq_refl).
    cbn [map nth] in S0.
    apply bind_lift_Raise. unfold HUTformer.embed. rewrite Hlp.
    rewrite (rearrange_patches_bad t L t1 B N Ht S0 HL).
    reflexivity. }
  unfold HUTformer.forward. rewrite Hs. unfold bind. rewrite Henc. reflexivity.
Qed.

End ForwardReads.

Lemma forward_reads_future_covariates_only_witness :
  match @HUTformer.init demo_float demo_rng demo_fs 1 8 8 1 "decoder" None tt with
  | Ok (m, _) =>
      @HUTformer.forward demo_float demo_rng m (full [1; 8; 1; 3] 0%Q)
        (full [1; 8; 1; 3] 0%Q) 0 0 true [] tt
      = @HUTformer.forward demo_float demo_rng m (full [1; 8; 1; 3] 0%Q)
          (mkTensor [1; 8; 1; 3]
             (repeat 7%Q 21 ++ [9%Q; 0%Q; 0%Q])) 0 0 true [] tt
  | Raise _ => False
  end.
Proof.
  destruct (@HUTformer.init demo_float demo_rng demo_fs 1 8 8 1 "decoder" None tt)
    as [[m g1]|e] eqn:E.
  - apply (@forward_reads_future_covariates_only demo_float demo_rng m
             (full [1; 8; 1; 3] 0%Q) (full [1; 8; 1; 3] 0%Q)
             (mkTensor [1; 8; 1; 3] (repeat 7%Q 21 ++ [9%Q; 0%Q; 0%Q]))
             1 8 1 3 0 0 true [] tt); try reflexivity.
    intros b n c Hb Hn Hc.
    assert (b = 0) by lia. assert (n = 0) by lia. subst b n.
    assert (c = 1 \/ c = 2) as [-> | ->] by lia; reflexivity.
  - assert (Hok : is_ok (@HUTformer.init demo_float demo_rng demo_fs 1 8 8 1
                           "decoder" None tt) = true) by (vm_compute; reflexivity).
    rewrite E in Hok. discriminate Hok.
Defined.

Lemma forward_rejects_ragged_history_witness :
  match @HUTformer.init demo_float demo_rng demo_fs 1 16 16 2 "encoder" None tt with
  | Ok (m, _) =>
      @HUTformer.forward demo_float demo_rng m (full [1; 15; 1; 3] 0%Q)
        (full [1; 16; 1; 3] 0%Q) 0 0 true [] tt = Raise EinopsError
  | Raise _ => False
  end.
Proof.
  destruct (@HUTformer.init demo_float demo_rng demo_fs 1 16 16 2 "encoder" None tt)
    as [[m g1]|e] eqn:E.
  - apply (@forward_rejects_ragged_history demo_float demo_rng m
             (full [1; 15; 1; 3] 0%Q) (full [1; 16; 1; 3] 0%Q) 1 15 1 3 2
             0 0 true [] tt); try reflexivity; try lia.
    pose proof (@init_inv demo_float demo_rng demo_fs 1 1 2 16 "encoder" tt g1 m
                  ltac:(lia) ltac:(lia) E) as (Hwf & _).
    destruct Hwf as (Hlp & _). exact Hlp.
  - assert (Hok : is_ok (@HUTformer.init demo_float demo_rng demo_fs 1 16 16 2
                           "encoder" None tt) = true) by (vm_compute; reflexivity).
    rewrite E in Hok. discriminate Hok.
Defined.

(** * Construction: modes, checkpoint, first errors *)

Section ConstructionFacts.
Context {F : FloatOps} {G : RandomGen}.

Lemma SegmentMerging_init_grad (dim : Z) (m : SegmentMerging.t) (prefix : string) :
  SegmentMerging.init dim = Ok m ->
  all_grad (SegmentMerging.named_parameters prefix m).
Proof.
  intros H. unfold SegmentMerging.init in H. minv H. injection H as <-.
  unfold SegmentMerging.named_parameters. cbn [SegmentMerging.norm].
  eapply LayerNorm_init_grad; eassumption.
Qed.

Lemma init_encoder_grad (N lh lp t : Z) (mode : string) (g g' : rng) (m : HUTformer.t) :
  HUTformer.init_encoder N lh lp t mode g = Ok (m, g') ->
  all_grad (HUTformer.encoder_named_parameters m) /\ HUTformer.decoder m = None.
Proof.
  intros H. unfold HUTformer.init_encoder in H. minv H.
  split; [|reflexivity].
  unfold HUTformer.encoder_named_parameters.
  cbn [HUTformer.SE HUTformer.embedding HUTformer.STPE HUTformer.encoder_1
       HUTformer.encoder_2_0 HUTformer.encoder_2_1 HUTformer.encoder_3_0
       HUTformer.encoder_3_1 HUTformer.encoder_project].
  constructor; [reflexivity|].
  match goal with |- Forall _ ?l => change (all_grad l) end.
  repeat (match goal with |- all_grad (_ ++ _) => apply all_grad_app end);
    try (eapply Linear_init_grad; eassumption);
    try (eapply WindowAttention_init_grad; eassumption);
    try (eapply SegmentMerging_init_grad; eassumption).
  pose proof (Linear_init_grad _ _ _ _ _ _ "embedding." Hstep4) as Hg.
  unfold Linear.named_parameters in Hg |- *. cbn [Linear.weight Linear.bias].
  inversion Hg as [|x l Hx Hl]; subst.
  constructor; [exact Hx | exact Hl].
Qed.

End ConstructionFacts.

Section ConstructionModes.
Context {F : FloatOps} {G : RandomGen}.

(** X3.  Whenever a construction in mode 'encoder' returns a model, the
    model has none of the decoder layers, every one of its parameters has
    [requires_grad] on, and no parameter name contains 'decoder'. *)
Theorem encoder_mode_all_trainable {FS : FileSystem} (N lh lp t : Z)
    (pre_train : option string) (g g' : rng) (m : HUTformer.t) :
  HUTformer.init N lh lp t "encoder" pre_train g = Ok (m, g') ->
  HUTformer.decoder m = None
  /\ forall name para,
       In (name, para) (HUTformer.named_parameters m) ->
       requires_grad para = true /\ contains "decoder" name = false.
Proof.
  intros H. unfold HUTformer.init in H.
  apply bind_Ok_inv in H. destruct H as (m0 & g0 & Hm0 & H).
  change (String.eqb "encoder" "encoder") with true in H. cbv iota in H.
  apply ret_Ok_inv in H. destruct H as [<- <-].
  apply init_encoder_grad in Hm0. destruct Hm0 as [Hgrad Hdec].
  split; [exact Hdec|].
  intros name para Hin. unfold HUTformer.named_parameters in Hin.
  rewrite Hdec, app_nil_r in Hin. split.
  - unfold all_grad in Hgrad. rewrite Forall_forall in Hgrad.
    apply (Hgrad (name, para) Hin).
  - assert (Hn : In name encoder_names).
    { apply (encoder_names_incl m). apply in_map_iff. exists (name, para). auto. }
    pose proof encoder_names_no_decoder as Hall.
    rewrite forallb_forall in Hall. specialize (Hall name Hn).
    apply negb_true_iff in Hall. exact Hall.
Qed.

(** X4.  In mode 'encoder' [__init__] returns before it looks at
    [pre_train]: the call gives the same result with and without a
    checkpoint path, whatever the file system holds. *)
Theorem encoder_mode_ignores_checkpoint (FS FS' : FileSystem) (N lh lp t : Z)
    (pre_train pre_train' : option string) (g : rng) :
  @HUTformer.init F G FS N lh lp t "encoder" pre_train g
  = @HUTformer.init F G FS' N lh lp t "encoder" pre_train' g.
Proof. reflexivity. Qed.

Lemma load_state_dict_fields (sd : state_dict) (m m' : HUTformer.t) :
  HUTformer.load_state_dict sd m = Ok m' ->
  HUTformer.num_patch m' = HUTformer.num_patch m
  /\ HUTformer.embed_dim m' = HUTformer.embed_dim m
  /\ HUTformer.num_heads m' = HUTformer.num_heads m
  /\ HUTformer.drop m' = HUTformer.drop m
  /\ HUTformer.len_patch m' = HUTformer.len_patch m.
Proof.
  intros H. unfold HUTformer.load_state_dict in H. minv H. injection H as <-.
  repeat split.
Qed.

Lemma init_decoder_fields (m m' : HUTformer.t) (g : rng) :
  HUTformer.num_patch m' = HUTformer.num_patch m ->
  HUTformer.embed_dim m' = HUTformer.embed_dim m ->
  HUTformer.num_heads m' = HUTformer.num_heads m ->
  HUTformer.drop m' = HUTformer.drop m ->
  HUTformer.len_patch m' = HUTformer.len_patch m ->
  HUTformer.init_decoder m' g = HUTformer.init_decoder m g.
Proof.
  intros H1 H2 H3 H4 H5. unfold HUTformer.init_decoder.
  rewrite H1, H2, H3, H4, H5. reflexivity.
Qed.

(** X5.  The checkpoint is loaded before the decoder layers exist, so it
    never reaches them: when a construction in mode 'decoder' with a
    checkpoint returns a model, the construction without checkpoint returns
    one too, with the same decoder layers and the same generator state. *)
Theorem checkpoint_never_reaches_decoder {FS : FileSystem} (N lh lp t : Z)
    (path : string) (g g' : rng) (m : HUTformer.t) :
  HUTformer.init N lh lp t "decoder" (Some path) g = Ok (m, g') ->
  exists m0,
    HUTformer.init N lh lp t "decoder" None g = Ok (m0, g')
    /\ HUTformer.decoder m = HUTformer.decoder m0.
Proof.
  intros H. unfold HUTformer.init in *.
  apply bind_Ok_inv in H. destruct H as (m1 & g1 & Hm1 & H).
  rewrite (bind_Ok _ _ _ _ _ Hm1).
  change (String.eqb "decoder" "encoder") with false in *.
  change (String.eqb "decoder" "decoder") with true in *.
  cbv iota in *. minv H.
  apply bindR_Ok_inv in Hstep. destruct Hstep as (sd & _ & Hload).
  apply load_state_dict_fields in Hload.
  destruct Hload as (H1 & H2 & H3 & H4 & H5).
  rewrite (init_decoder_fields m1 a g1 H1 H2 H3 H4 H5) in Hstep0.
  rewrite bind_lift_now. rewrite (bind_Ok _ _ _ _ _ Hstep0).
  eexists. split; reflexivity.
Qed.

(** X6.  The mode is checked before anything else, and the patch length is
    divided by right after: a mode other than the two strings raises
    [AssertionError] whatever the other arguments are, and with a valid mode
    a patch length of zero raises [ZeroDivisionError]. *)
Theorem construction_first_errors {FS : FileSystem} (N lh lp t : Z) (mode : string)
    (pre_train : option string) (g : rng) :
  (mode <> "encoder"%string -> mode <> "decoder"%string ->
   HUTformer.init N lh lp t mode pre_train g = Raise AssertionError)
  /\ (mode = "encoder"%string \/ mode = "decoder"%string ->
      HUTformer.init N lh lp 0 mode pre_train g = Raise ZeroDivisionError).
Proof.
  split.
  - intros He Hd. apply String.eqb_neq in He, Hd.
    unfold HUTformer.init, HUTformer.init_encoder, bind, lift, guard.
    rewrite He, Hd. reflexivity.
  - intros [-> | ->]; reflexivity.
Qed.

End ConstructionModes.

Lemma encoder_mode_all_trainable_witness :
  match @HUTformer.init demo_float demo_rng demo_fs 1 8 8 1 "encoder" None tt with
  | Ok (m, _) =>
      HUTformer.decoder m = None
      /\ forall name para,
           In (name, para) (HUTformer.named_parameters m) ->
           requires_grad para = true /\ contains "decoder" name = false
  | Raise _ => False
  end.
Proof.
  destruct (@HUTformer.init demo_float demo_rng demo_fs 1 8 8 1 "encoder" None tt)
    as [[m g1]|e] eqn:E.
  - apply (@encoder_mode_all_trainable demo_float demo_rng demo_fs 1 8 8 1 None tt g1 m E).
  - assert (Hok : is_ok (@HUTformer.init demo_float demo_rng demo_fs 1 8 8 1
                           "encoder" None tt) = true) by (vm_compute; reflexivity).
    rewrite E in Hok. discriminate Hok.
Defined.

Lemma checkpoint_never_reaches_decoder_witness :
  match @HUTformer.init demo_float demo_rng demo_fs_checkpoint 1 8 8 1 "decoder"
          (Some "encoder.pt"%string) tt with
  | Ok (m, g') =>
      exists m0,
        @HUTformer.init demo_float demo_rng demo_fs_checkpoint 1 8 8 1 "decoder" None tt
        = Ok (m0, g')
        /\ HUTformer.decoder m = HUTformer.decoder m0
  | Raise _ => False
  end.
Proof.
  destruct (@HUTformer.init demo_float demo_rng demo_fs_checkpoint 1 8 8 1 "decoder"
              (Some "encoder.pt"%string) tt) as [[m g1]|e] eqn:E.
  - apply (@checkpoint_never_reaches_decoder demo_float demo_rng demo_fs_checkpoint
             1 8 8 1 "encoder.pt" tt g1 m E).
  - assert (Hok : is_ok (@HUTformer.init demo_float demo_rng demo_fs_checkpoint 1 8 8 1
                           "decoder" (Some "encoder.pt"%string) tt) = true)
      by (vm_compute; reflexivity).
    rewrite E in Hok. discriminate Hok.
Defined.

(** * Operation count, initialiser and full attention *)

(** X7.  [flops(N)] on Python ints: without heads the head width
    [dim // num_heads] divides by zero; with a number of heads that divides
    the channel width the count is [4 N dim^2 + 2 N^2 dim] (the projections
    to [qkv], the output projection and the two products with the attention
    matrix). *)
Theorem flops_closed_form (m : WindowAttention.t) (N : Z) :
  (WindowAttention.num_heads m = 0%Z ->
   WindowAttention.flops m N = Raise ZeroDivisionError)
  /\ (WindowAttention.num_heads m <> 0%Z ->
      (WindowAttention.dim m mod WindowAttention.num_heads m = 0)%Z ->
      WindowAttention.flops m N
      = Ok (4 * N * WindowAttention.dim m * WindowAttention.dim m
            + 2 * N * N * WindowAttention.dim m)%Z).
Proof.
  unfold WindowAttention.flops, floordiv. split.
  - intros H. rewrite H. reflexivity.
  - intros Hnh Hdiv.
    destruct (Z.eqb_spec (WindowAttention.num_heads m) 0) as [E|_]; [contradiction|].
    cbn [bindR]. f_equal.
    set (d := WindowAttention.dim m) in *. set (h := WindowAttention.num_heads m) in *.
    assert (Hd : (h * (d / h) = d)%Z).
    { symmetry. apply Z_div_exact_full_2; assumption. }
    set (q := (d / h)%Z) in *. clearbody q d h. subst d.
    ring.
Qed.

Section InitialiserFacts.
Context {F : FloatOps} {G : RandomGen}.

(** X8.  The initialiser overwrites: its result depends on the shape of the
    tensor it is given and not on the values in it, and has that shape. *)
Theorem trunc_normal_overwrites (t t' : tensor Q) (mean std a b : option Q)
    (g : rng) :
  shape t = shape t' ->
  trunc_normal_ t mean std a b g = trunc_normal_ t' mean std a b g
  /\ forall r g', trunc_normal_ t mean std a b g = Ok (r, g') -> shape r = shape t.
Proof.
  intros Hs. split.
  - unfold trunc_normal_, _no_grad_trunc_normal_.
    destruct (Qeq_bool _ 0); [reflexivity|].
    unfold bind, uniform_. rewrite Hs. reflexivity.
  - intros r g' H. exact (trunc_normal_inv t r mean std a b g g' H).
Qed.

(** X9.  A standard deviation of zero makes [(a - mean) / std] divide by
    zero: the call raises [ZeroDivisionError] before any number is drawn,
    whatever the tensor, the mean and the bounds are. *)
Theorem trunc_normal_zero_std (t : tensor Q) (mean a b : option Q) (std : Q)
    (g : rng) :
  (std == 0)%Q ->
  trunc_normal_ t mean (Some std) a b g = Raise ZeroDivisionError.
Proof.
  intros Hstd. unfold trunc_normal_, _no_grad_trunc_normal_.
  apply Qeq_bool_iff in Hstd. rewrite Hstd. reflexivity.
Qed.

(** X10.  [self.scale or ...]: a scale of zero counts as absent, the
    attention then runs with the default [1/sqrt(E)]. *)
Theorem FullAttention_zero_scale_is_default (s : Q) (d : Dropout.t)
    (queries keys values : tensor Q) (g : rng) :
  (s == 0)%Q ->
  FullAttention.forward (FullAttention.mk (Some s) d) queries keys values g
  = FullAttention.forward (FullAttention.mk None d) queries keys values g.
Proof.
  intros Hs. apply Qeq_bool_iff in Hs.
  unfold FullAttention.forward, FullAttention.attention_weights,
    FullAttention.effective_scale.
  cbn [FullAttention.scale FullAttention.dropout]. rewrite Hs. reflexivity.
Qed.

Lemma bdim_raises (a b : nat) (e : exn) : bdim a b = Raise e -> e = RuntimeError.
Proof.
  unfold bdim. destruct (a =? b); [discriminate|].
  destruct (a =? 1); [discriminate|]. destruct (b =? 1); [discriminate|].
  congruence.
Qed.

Lemma einsum_scores_raises (q k : tensor Q) (e : exn) :
  einsum_blhe_bshe_bhls q k = Raise e -> e = RuntimeError.
Proof.
  unfold einsum_blhe_bshe_bhls.
  destruct (shape q) as [|b1 [|l [|h1 [|e1 [|]]]]]; try congruence;
    destruct (shape k) as [|b2 [|s [|h2 [|e2 [|]]]]]; try congruence.
  destruct (bdim b1 b2) eqn:E1; [|apply bdim_raises in E1; cbn; congruence].
  destruct (bdim h1 h2) eqn:E2; [|apply bdim_raises in E2; cbn; congruence].
  destruct (bdim e1 e2) eqn:E3; [|apply bdim_raises in E3; cbn; congruence].
  discriminate.
Qed.

Lemma einsum_values_shape (a v r : tensor Q) (b2 s2 h2 d : nat) :
  shape v = [b2; s2; h2; d] ->
  einsum_bhls_bshd_blhd a v = Ok r ->
  exists b l h, shape r = [b; l; h; d].
Proof.
  intros Hv. unfold einsum_bhls_bshd_blhd. rewrite Hv.
  destruct (shape a) as [|b1 [|h1 [|l [|s1 [|]]]]]; try discriminate.
  destruct (bdim b1 b2); [|discriminate]. destruct (bdim h1 h2); [|discriminate].
  destruct (bdim s1 s2); [|discriminate]. cbn [bindR].
  intros [= <-]. eexists. eexists. eexists. reflexivity.
Qed.

Lemma einsum_values_raises (a v : tensor Q) (e : exn) :
  einsum_bhls_bshd_blhd a v = Raise e -> e = RuntimeError.
Proof.
  unfold einsum_bhls_bshd_blhd.
  destruct (shape a) as [|b1 [|h1 [|l [|s1 [|]]]]]; try congruence;
    destruct (shape v) as [|b2 [|s2 [|h2 [|d [|]]]]]; try congruence.
  destruct (bdim b1 b2) eqn:E1; [|apply bdim_raises in E1; cbn; congruence].
  destruct (bdim h1 h2) eqn:E2; [|apply bdim_raises in E2; cbn; congruence].
  destruct (bdim s1 s2) eqn:E3; [|apply bdim_raises in E3; cbn; congruence].
  discriminate.
Qed.

Lemma bc_rev_raises (r1 r2 : list nat) (e : exn) :
  bc_rev r1 r2 = Raise e -> e = RuntimeError.
Proof.
  revert r2. induction r1 as [|a r1 IH]; intros [|b r2]; cbn [bc_rev]; try discriminate.
  destruct (bc_rev r1 r2) as [r|e'] eqn:E; cbn [bindR].
  - destruct (a =? b); [discriminate|]. destruct (a =? 1); [discriminate|].
    destruct (b =? 1); [discriminate|]. congruence.
  - intros [= <-]. apply (IH r2). exact E.
Qed.

Lemma bc_shape_last_mismatch (s1 s2 : list nat) (a b : nat) :
  a <> b -> a <> 1 -> b <> 1 ->
  bc_shape (s1 ++ [a]) (s2 ++ [b]) = Raise RuntimeError.
Proof.
  intros Hab Ha Hb. unfold bc_shape. rewrite !rev_app_distr. cbn [rev app bc_rev].
  destruct (bc_rev (rev s1) (rev s2)) as [r|e] eqn:E; cbn [bindR].
  - apply Nat.eqb_neq in Hab, Ha, Hb. rewrite Hab, Ha, Hb. reflexivity.
  - apply bc_rev_raises in E. subst e. reflexivity.
Qed.

(** X11.  The residual [V + queries] needs values as wide as the queries:
    when the last axis of the values differs from that of the queries, and
    neither of them is one (which would broadcast), [forward] raises
    [RuntimeError], whatever the keys are. *)
Theorem FullAttention_rejects_value_width (m : FullAttention.t)
    (queries keys values : tensor Q) (B L H E B' S_ H' D : nat) (g : rng) :
  shape queries = [B; L; H; E] ->
  shape values = [B'; S_; H'; D] ->
  D <> E -> D <> 1 -> E <> 1 ->
  FullAttention.forward m queries keys values g = Raise RuntimeError.
Proof.
  intros Hq Hv HDE HD HE.
  unfold FullAttention.forward, FullAttention.attention_weights. rewrite Hq, Hv.
  unfold bind, lift.
  destruct (einsum_blhe_bshe_bhls queries keys) as [scores|e] eqn:E1;
    [|apply einsum_scores_raises in E1; subst e; reflexivity].
  match goal with
  | |- context [Dropout.forward ?d ?x g] =>
      destruct (Dropout_forward_ok d x g) as (A & g1 & EA & _)
  end.
  rewrite EA.
  destruct (einsum_bhls_bshd_blhd A values) as [V|e] eqn:E2;
    [|apply einsum_values_raises in E2; subst e; reflexivity].
  destruct (einsum_values_shape A values V B' S_ H' D Hv E2) as (b & l & h & HV).
  unfold binop. rewrite HV, Hq.
  pose proof (bc_shape_last_mismatch [b; l; h] [B; L; H] D E HDE HD HE) as Hbc.
  cbn [app] in Hbc. rewrite Hbc. reflexivity.
Qed.

End InitialiserFacts.

Lemma flops_closed_form_witness :
  match @WindowAttention.init demo_float demo_rng 64 (2, 12)%Z 8 true
          (1 # 10) (1 # 10) (0, 0)%Z tt with
  | Ok (m, _) => WindowAttention.flops m 24 = Ok 466944%Z
  | Raise _ => False
  end.
Proof.
  destruct (@WindowAttention.init demo_float demo_rng 64 (2, 12)%Z 8 true
              (1 # 10) (1 # 10) (0, 0)%Z tt) as [[m g']|e] eqn:E.
  - assert (Hd : WindowAttention.dim m = 64%Z /\ WindowAttention.num_heads m = 8%Z).
    { unfold WindowAttention.init in E. minv E. split; reflexivity. }
    destruct Hd as [Hd Hh].
    pose proof (proj2 (flops_closed_form m 24)) as Hf. rewrite Hd, Hh in Hf.
    apply Hf; [discriminate | reflexivity].
  - assert (Hok : is_ok (@WindowAttention.init demo_float demo_rng 64 (2, 12)%Z 8 true
                           (1 # 10) (1 # 10) (0, 0)%Z tt) = true)
      by (vm_compute; reflexivity).
    rewrite E in Hok. discriminate Hok.
Defined.

Lemma trunc_normal_overwrites_witness :
  @trunc_normal_ demo_float demo_rng (full [2; 3] 0%Q) None (Some (2 # 100)%Q) None None tt
  = @trunc_normal_ demo_float demo_rng (full [2; 3] 7%Q) None (Some (2 # 100)%Q) None None tt
  /\ forall r g',
       @trunc_normal_ demo_float demo_rng (full [2; 3] 0%Q) None (Some (2 # 100)%Q)
         None None tt = Ok (r, g') ->
       shape r = [2; 3].
Proof.
  apply (@trunc_normal_overwrites demo_float demo_rng (full [2; 3] 0%Q) (full [2; 3] 7%Q)
           None (Some (2 # 100)%Q) None None tt).
  reflexivity.
Defined.

Lemma trunc_normal_zero_std_witness :
  @trunc_normal_ demo_float demo_rng (full [2; 3] 0%Q) None (Some (0 # 5)%Q) None None tt
  = Raise ZeroDivisionError.
Proof.
  apply (@trunc_normal_zero_std demo_float demo_rng). reflexivity.
Defined.

Lemma FullAttention_zero_scale_is_default_witness :
  @FullAttention.forward demo_float demo_rng
    (FullAttention.mk (Some 0%Q) (Dropout.mk (1 # 10) false))
    (full [1; 2; 1; 2] 1%Q) (full [1; 3; 1; 2] 1%Q) (full [1; 3; 1; 2] 1%Q) tt
  = @FullAttention.forward demo_float demo_rng
      (FullAttention.mk None (Dropout.mk (1 # 10) false))
      (full [1; 2; 1; 2] 1%Q) (full [1; 3; 1; 2] 1%Q) (full [1; 3; 1; 2] 1%Q) tt.
Proof.
  apply (@FullAttention_zero_scale_is_default demo_float demo_rng). reflexivity.
Defined.

Lemma FullAttention_rejects_value_width_witness :
  @FullAttention.forward demo_float demo_rng
    (FullAttention.mk None (Dropout.mk (1 # 10) true))
    (full [1; 2; 1; 2] 1%Q) (full [1; 3; 1; 2] 1%Q) (full [1; 3; 1; 3] 1%Q) tt
  = Raise RuntimeError.
Proof.
  apply (@FullAttention_rejects_value_width demo_float demo_rng _ _ _ _ 1 2 1 2 1 3 1 3);
    try reflexivity; discriminate.
Defined.

(** * The relative position index *)

Section IndexFacts.
Context {F : FloatOps} {G : RandomGen}.

Lemma WindowAttention_init_index (dim : Z) (ws : Z * Z) (nh : Z) (qb : bool)
    (ad pd : Q) (pws : Z * Z) (g g' : rng) (m : WindowAttention.t) :
  WindowAttention.init dim ws nh qb ad pd pws g = Ok (m, g') ->
  WindowAttention.make_relative_position_index ws
  = Ok (WindowAttention.relative_position_index m).
Proof.
  intros H. unfold WindowAttention.init in H. minv H. exact Hstep3.
Qed.

Lemma init_index_entries (dim : Z) (Wh Ww : nat) (nh : Z) (qb : bool)
    (ad pd : Q) (pws : Z * Z) (g g' : rng) (m : WindowAttention.t) :
  WindowAttention.init dim (Z.of_nat Wh, Z.of_nat Ww) nh qb ad pd pws g = Ok (m, g') ->
  shape (WindowAttention.relative_position_index m) = [Wh * Ww; Wh * Ww]
  /\ forall i j, i < Wh * Ww -> j < Wh * Ww ->
       get (WindowAttention.relative_position_index m) [i; j]
       = relative_index_value Wh Ww i j.
Proof.
  intros H. apply WindowAttention_init_index in H.
  destruct (make_relative_position_index_spec Wh Ww) as (t & Et & Hs & _ & Hget).
  rewrite Et in H. injection H as <-. split; assumption.
Qed.

(** X12.  The index buffer of a window attention constructed for a window
    of [Wh] rows and [Ww] columns has shape [(Wh Ww, Wh Ww)].  With the
    tokens numbered row by row, its entry for the tokens [i] and [j] is the
    row offset, shifted by [Wh - 1] and weighted by [2 Ww - 1], plus the
    column offset shifted by [Ww - 1]; it addresses a row of the bias table,
    which has [(2 Wh - 1) (2 Ww - 1)] rows. *)
Theorem relative_position_index_closed_form (dim : Z) (Wh Ww : nat) (nh : Z)
    (qb : bool) (ad pd : Q) (pws : Z * Z) (g g' : rng) (m : WindowAttention.t) :
  WindowAttention.init dim (Z.of_nat Wh, Z.of_nat Ww) nh qb ad pd pws g = Ok (m, g') ->
  shape (WindowAttention.relative_position_index m) = [Wh * Ww; Wh * Ww]
  /\ forall i j, i < Wh * Ww -> j < Wh * Ww ->
       (get (WindowAttention.relative_position_index m) [i; j]
        = (Z.of_nat (i / Ww) - Z.of_nat (j / Ww) + (Z.of_nat Wh - 1))
          * (2 * Z.of_nat Ww - 1)
          + (Z.of_nat (i mod Ww) - Z.of_nat (j mod Ww) + (Z.of_nat Ww - 1)))%Z
       /\ (0 <= get (WindowAttention.relative_position_index m) [i; j]
           < (2 * Z.of_nat Wh - 1) * (2 * Z.of_nat Ww - 1))%Z.
Proof.
  intros H. apply init_index_entries in H. destruct H as [Hs Hget].
  split; [exact Hs|]. intros i j Hi Hj. rewrite (Hget i j Hi Hj).
  split; [reflexivity|]. apply relative_index_value_range; assumption.
Qed.

Lemma relative_index_value_inj (Wh Ww i j i' j' : nat) :
  i < Wh * Ww -> j < Wh * Ww -> i' < Wh * Ww -> j' < Wh * Ww ->
  relative_index_value Wh Ww i j = relative_index_value Wh Ww i' j' ->
  (Z.of_nat (i / Ww) - Z.of_nat (j / Ww) = Z.of_nat (i' / Ww) - Z.of_nat (j' / Ww))%Z
  /\ (Z.of_nat (i mod Ww) - Z.of_nat (j mod Ww)
      = Z.of_nat (i' mod Ww) - Z.of_nat (j' mod Ww))%Z.
Proof.
  intros Hi Hj Hi' Hj'. unfold relative_index_value.
  assert (HWw : Ww <> 0) by nia.
  pose proof (Nat.mod_upper_bound i Ww HWw).
  pose proof (Nat.mod_upper_bound j Ww HWw).
  pose proof (Nat.mod_upper_bound i' Ww HWw).
  pose proof (Nat.mod_upper_bound j' Ww HWw).
  set (dh := (Z.of_nat (i / Ww) - Z.of_nat (j / Ww))%Z).
  set (dh' := (Z.of_nat (i' / Ww) - Z.of_nat (j' / Ww))%Z).
  set (dw := (Z.of_nat (i mod Ww) - Z.of_nat (j mod Ww))%Z).
  set (dw' := (Z.of_nat (i' mod Ww) - Z.of_nat (j' mod Ww))%Z).
  assert (Hdw : (- Z.of_nat Ww < dw < Z.of_nat Ww)%Z) by (unfold dw; lia).
  assert (Hdw' : (- Z.of_nat Ww < dw' < Z.of_nat Ww)%Z) by (unfold dw'; lia).
  clearbody dh dh' dw dw'. intros Heq.
  assert (Hdh : dh = dh').
  { destruct (Z.lt_total dh dh') as [Hlt | [Heq' | Hgt]]; [|exact Heq'|]; nia. }
  subst dh'. split; [reflexivity | lia].
Qed.

(** X13.  Two pairs of tokens of a window are given the same row of the
    bias table exactly when they have the same relative position, that is
    the same row offset and the same column offset. *)
Theorem relative_position_index_same_offset (dim : Z) (Wh Ww : nat) (nh : Z)
    (qb : bool) (ad pd : Q) (pws : Z * Z) (g g' : rng) (m : WindowAttention.t) :
  WindowAttention.init dim (Z.of_nat Wh, Z.of_nat Ww) nh qb ad pd pws g = Ok (m, g') ->
  forall i j i' j',
    i < Wh * Ww -> j < Wh * Ww -> i' < Wh * Ww -> j' < Wh * Ww ->
    get (WindowAttention.relative_position_index m) [i; j]
    = get (WindowAttention.relative_position_index m) [i'; j']
    <-> ((Z.of_nat (i / Ww) - Z.of_nat (j / Ww)
          = Z.of_nat (i' / Ww) - Z.of_nat (j' / Ww))%Z
         /\ (Z.of_nat (i mod Ww) - Z.of_nat (j mod Ww)
             = Z.of_nat (i' mod Ww) - Z.of_nat (j' mod Ww))%Z).
Proof.
  intros H i j i' j' Hi Hj Hi' Hj'.
  apply init_index_entries in H. destruct H as [_ Hget].
  rewrite (Hget i j Hi Hj), (Hget i' j' Hi' Hj'). split.
  - apply relative_index_value_inj; assumption.
  - intros [Hh Hw]. unfold relative_index_value. rewrite Hh, Hw. reflexivity.
Qed.

(** X14.  Exchanging the two tokens mirrors the index: the entries for
    [(i, j)] and [(j, i)] add up to the number of the last row of the bias
    table, and every token is given the middle row with itself. *)
Theorem relative_position_index_mirror (dim : Z) (Wh Ww : nat) (nh : Z)
    (qb : bool) (ad pd : Q) (pws : Z * Z) (g g' : rng) (m : WindowAttention.t) :
  WindowAttention.init dim (Z.of_nat Wh, Z.of_nat Ww) nh qb ad pd pws g = Ok (m, g') ->
  forall i j,
    i < Wh * Ww -> j < Wh * Ww ->
    (get (WindowAttention.relative_position_index m) [i; j]
     + get (WindowAttention.relative_position_index m) [j; i]
     = (2 * Z.of_nat Wh - 1) * (2 * Z.of_nat Ww - 1) - 1)%Z
    /\ (2 * get (WindowAttention.relative_position_index m) [i; i]
        = (2 * Z.of_nat Wh - 1) * (2 * Z.of_nat Ww - 1) - 1)%Z.
Proof.
  intros H i j Hi Hj.
  apply init_index_entries in H. destruct H as [_ Hget].
  rewrite (Hget i j Hi Hj), (Hget j i Hj Hi), (Hget i i Hi Hi).
  unfold relative_index_value. split; ring.
Qed.

End IndexFacts.

Lemma relative_position_index_closed_form_witness :
  match @WindowAttention.init demo_float demo_rng 64 (Z.of_nat 2, Z.of_nat 4) 8 true
          (1 # 10) (1 # 10) (0, 0)%Z tt with
  | Ok (m, _) =>
      shape (WindowAttention.relative_position_index m) = [2 * 4; 2 * 4]
      /\ get (WindowAttention.relative_position_index m) [5; 2] = 16%Z
  | Raise _ => False
  end.
Proof.
  destruct (@WindowAttention.init demo_float demo_rng 64 (Z.of_nat 2, Z.of_nat 4) 8 true
              (1 # 10) (1 # 10) (0, 0)%Z tt) as [[m g']|e] eqn:E.
  - destruct (@relative_position_index_closed_form demo_float demo_rng 64 2 4 8 true
                (1 # 10) (1 # 10) (0, 0)%Z tt g' m E) as [Hs Hget].
    split; [exact Hs|].
    destruct (Hget 5 2 ltac:(lia) ltac:(lia)) as [Hv _]. exact Hv.
  - assert (Hok : is_ok (@WindowAttention.init demo_float demo_rng 64
                           (Z.of_nat 2, Z.of_nat 4) 8 true
                           (1 # 10) (1 # 10) (0, 0)%Z tt) = true)
      by (vm_compute; reflexivity).
    rewrite E in Hok. discriminate Hok.
Defined.

Lemma relative_position_index_same_offset_witness :
  match @WindowAttention.init demo_float demo_rng 64 (Z.of_nat 2, Z.of_nat 4) 8 true
          (1 # 10) (1 # 10) (0, 0)%Z tt with
  | Ok (m, _) =>
      get (WindowAttention.relative_position_index m) [5; 2]
      = get (WindowAttention.relative_position_index m) [4; 1]
  | Raise _ => False
  end.
Proof.
  destruct (@WindowAttention.init demo_float demo_rng 64 (Z.of_nat 2, Z.of_nat 4) 8 true
              (1 # 10) (1 # 10) (0, 0)%Z tt) as [[m g']|e] eqn:E.
  - apply (proj2 (@relative_position_index_same_offset demo_float demo_rng 64 2 4 8 true
                    (1 # 10) (1 # 10) (0, 0)%Z tt g' m E 5 2 4 1
                    ltac:(lia) ltac:(lia) ltac:(lia) ltac:(lia))).
    split; reflexivity.
  - assert (Hok : is_ok (@WindowAttention.init demo_float demo_rng 64
                           (Z.of_nat 2, Z.of_nat 4) 8 true
                           (1 # 10) (1 # 10) (0, 0)%Z tt) = true)
      by (vm_compute; reflexivity).
    rewrite E in Hok. discriminate Hok.
Defined.

Lemma relative_position_index_mirror_witness :
  match @WindowAttention.init demo_float demo_rng 64 (Z.of_nat 2, Z.of_nat 4) 8 true
          (1 # 10) (1 # 10) (0, 0)%Z tt with
  | Ok (m, _) =>
      (get (WindowAttention.relative_position_index m) [5; 2]%nat
       + get (WindowAttention.relative_position_index m) [2; 5]%nat = 20)%Z
      /\ (2 * get (WindowAttention.relative_position_index m) [5; 5]%nat = 20)%Z
  | Raise _ => False
  end.
Proof.
  destruct (@WindowAttention.init demo_float demo_rng 64 (Z.of_nat 2, Z.of_nat 4) 8 true
              (1 # 10) (1 # 10) (0, 0)%Z tt) as [[m g']|e] eqn:E.
  - apply (@relative_position_index_mirror demo_float demo_rng 64 2 4 8 true
             (1 # 10) (1 # 10) (0, 0)%Z tt g' m E 5 2); lia.
  - assert (Hok : is_ok (@WindowAttention.init demo_float demo_rng 64
                           (Z.of_nat 2, Z.of_nat 4) 8 true
                           (1 # 10) (1 # 10) (0, 0)%Z tt) = true)
      by (vm_compute; reflexivity).
    rewrite E in Hok. discriminate Hok.
Defined.

(** * Window attention on inputs and masks of any size *)

Section WindowAttentionMask.
Context {F : FloatOps} {G : RandomGen}.

(** Lines 144-161 on an input of [N] tokens per window: the scaled cosine
    scores have one [N] by [N] matrix per window and head, the position
    bias one matrix of the size of the module's window per head. *)
Lemma WindowAttention_forward_scores (m : WindowAttention.t) (x : tensor Q)
    (mask : option (tensor Q)) (Wh Ww nh hd B_ N : nat) (g : rng)
    (P : result (tensor Q * rng) -> Prop) :
  wf_WindowAttention (nh * hd) Wh Ww nh m ->
  0 < nh -> 0 < hd -> 0 < B_ -> 0 < Wh -> 0 < Ww -> 0 < N ->
  shape x = [B_; N; nh * hd] ->
  (forall attn rpb v,
      shape attn = [B_; nh; N; N] ->
      shape rpb = [1; nh; Wh * Ww; Wh * Ww] ->
      shape v = [B_; nh; N; hd] ->
      P ((attn <~ binop Qplus attn rpb ;;
          attention_tail m B_ N (nh * hd) mask attn v) g)) ->
  P (WindowAttention.forward m x mask g).
Proof.
  intros Hwf Hnh Hhd HB HWh HWw HN Hx HP.
  pose proof Hwf as (Hheads & Hws & Hls & Hc0 & Hc2 & Htab & Hidx & Hlen & Hrange
                     & Hqkv & Hqkvb & (qb & vb & Hqb & Hvb & Hsq & Hsv) & Hproj).
  set (W := Wh * Ww) in *. set (dim := nh * hd) in *.
  assert (HW : 0 < W) by (unfold W; nia).
  unfold WindowAttention.forward. rewrite Hx, Hqb, Hvb.
  destruct (cat_last_3_ok (p_data qb) (full (shape (p_data vb)) 0%Q) (p_data vb)
              [] dim dim dim Hsq Hsv Hsv) as (c & Ec & Sc).
  rewrite Ec. cbn [bindR]. rewrite bind_lift_now.
  replace (dim + dim + dim) with (3 * dim) in Sc by lia.
  step_with (linear_ok x (p_data (Linear.weight (WindowAttention.qkv m))) (Some c)
               [B_; N] dim (3 * dim) (proj1 Hqkv) Hx
               (fun bt (e : Some c = Some bt) =>
                  eq_ind c (fun u => shape u = [3 * dim]) Sc bt
                    (f_equal (fun o => match o with Some u => u | None => c end) e))).
  rewrite Hheads.
  change [Z.of_nat B_; Z.of_nat N; 3%Z; Z.of_nat nh; (-1)%Z]
    with (map Z.of_nat [B_; N; 3; nh] ++ (-1)%Z :: map Z.of_nat []).
  destruct (reshape_minus1 t _ [B_; N; 3; nh] [] hd S) as (t1 & E1 & S1 & _).
  { cbn. nia. }
  { cbn. unfold dim. nia. }
  rewrite (bind_lift_Ok _ _ _ _ E1). clear E1. cbn [app] in S1.
  step_with (permute_ok [2; 0; 3; 1; 4] t1 _ S1 eq_refl).
  cbn [map nth] in S0.
  step_with (select_ok 0 0 t0 _ 3 0 S0 eq_refl eq_refl).
  step_with (select_ok 0 1 t0 _ 3 1 S0 eq_refl eq_refl).
  step_with (select_ok 0 2 t0 _ 3 2 S0 eq_refl eq_refl).
  cbn [remove_at firstn skipn app] in S2, S3, S4.
  unfold rank at 1 2. rewrite S3. cbn [length Nat.sub].
  step_with (transpose_ok 2 3 (normalize t3) _ S3 eq_refl).
  cbn [length seq map nth Nat.eqb] in S5.
  step_with (matmul_ok (normalize t2) t5 [B_; nh] N hd N S2 S5).
  cbn [app] in S6.
  match goal with
  | |- context [binop Qmult t6 ?sc] =>
      destruct (binop_fits_r Qmult t6 sc) as (t7 & E7 & S7)
  end.
  { cbn [map_t shape]. rewrite S6, Hls. cbn [rev app]. repeat constructor. }
  rewrite (bind_lift_Ok _ _ _ _ E7). clear E7. rewrite S6 in S7.
  step_with (relative_position_bias_table_ok m dim Wh Ww nh Hwf Hnh).
  change [(-1)%Z] with (map Z.of_nat [] ++ (-1)%Z :: map Z.of_nat []).
  destruct (reshape_minus1 (WindowAttention.relative_position_index m) _ [] []
              (W * W) Hidx) as (t9 & E9 & S9 & D9).
  { cbn. lia. }
  { cbn. lia. }
  rewrite (bind_lift_Ok _ _ _ _ E9). clear E9. cbn [app] in S9.
  destruct (gather_rows_ok t8 t9 _ [nh] S8) as (t10 & E10 & S10).
  { rewrite D9. eapply Forall_impl; [|exact Hrange]. cbv beta. intros v Hv. nia. }
  rewrite (bind_lift_Ok _ _ _ _ E10). clear E10. rewrite S9 in S10. cbn [app] in S10.
  rewrite Hws. cbn [fst snd]. rewrite <- Nat2Z.inj_mul. fold W.
  change [Z.of_nat W; Z.of_nat W; (-1)%Z]
    with (map Z.of_nat [W; W] ++ (-1)%Z :: map Z.of_nat []).
  destruct (reshape_minus1 t10 _ [W; W] [] nh S10) as (t11 & E11 & S11 & _).
  { cbn. nia. }
  { cbn. nia. }
  rewrite (bind_lift_Ok _ _ _ _ E11). clear E11. cbn [app] in S11.
  step_with (permute_ok [2; 0; 1] t11 _ S11 eq_refl).
  cbn [map nth] in S12.
  step_with (unsqueeze_front_ok (map_t (fun b => (16 * sigmoid b)%Q) t12)).
  cbn [map_t shape] in S13. rewrite S12 in S13.
  exact (HP t7 t13 t4 S7 S13 S4).
Qed.

(** A window attention fed with a number of tokens other than that of its
    window cannot add the position bias. *)
Lemma WindowAttention_forward_bad (m : WindowAttention.t) (x : tensor Q)
    (mask : option (tensor Q)) (Wh Ww nh hd B_ N : nat) (g : rng) :
  wf_WindowAttention (nh * hd) Wh Ww nh m ->
  0 < nh -> 0 < hd -> 0 < B_ -> 0 < Wh -> 0 < Ww ->
  shape x = [B_; N; nh * hd] ->
  N <> Wh * Ww -> 1 < N -> 1 < Wh * Ww ->
  WindowAttention.forward m x mask g = Raise RuntimeError.
Proof.
  intros Hwf Hnh Hhd HB HWh HWw Hx HNW HN HW.
  apply (WindowAttention_forward_scores m x mask Wh Ww nh hd B_ N g
           (fun r => r = Raise RuntimeError) Hwf Hnh Hhd HB HWh HWw ltac:(lia) Hx).
  intros attn rpb v Sa Sr Sv. apply bind_lift_Raise.
  unfold binop. rewrite Sa, Sr.
  pose proof (bc_shape_last_mismatch [B_; nh; N] [1; nh; Wh * Ww] N (Wh * Ww)
                HNW ltac:(lia) ltac:(lia)) as Hbc.
  cbn [app] in Hbc. rewrite Hbc. reflexivity.
Qed.

(** Lines 144-162 on an input that fits the module: the logits have one
    [N] by [N] matrix per window and head. *)
Lemma WindowAttention_forward_logits (m : WindowAttention.t) (x : tensor Q)
    (mask : option (tensor Q)) (Wh Ww nh hd B_ : nat) (g : rng)
    (P : result (tensor Q * rng) -> Prop) :
  wf_WindowAttention (nh * hd) Wh Ww nh m ->
  0 < nh -> 0 < hd -> 0 < B_ -> 0 < Wh -> 0 < Ww ->
  shape x = [B_; Wh * Ww; nh * hd] ->
  (forall attn v,
      shape attn = [B_; nh; Wh * Ww; Wh * Ww] ->
      shape v = [B_; nh; Wh * Ww; hd] ->
      P (attention_tail m B_ (Wh * Ww) (nh * hd) mask attn v g)) ->
  P (WindowAttention.forward m x mask g).
Proof.
  intros Hwf Hnh Hhd HB HWh HWw Hx HP.
  apply (WindowAttention_forward_scores m x mask Wh Ww nh hd B_ (Wh * Ww) g P
           Hwf Hnh Hhd HB HWh HWw ltac:(nia) Hx).
  intros attn rpb v Sa Sr Sv.
  destruct (binop_fits_r Qplus attn rpb) as (a & Ea & Sa').
  { rewrite Sa, Sr. cbn [rev app]. repeat constructor. }
  rewrite (bind_lift_Ok _ _ _ _ Ea). rewrite Sa in Sa'.
  exact (HP a v Sa' Sv).
Qed.

Lemma infer_shape_mismatch (s : list nat) (n : nat) :
  numel s <> n -> infer_shape n (map Z.of_nat s) = Raise RuntimeError.
Proof.
  intros Hn. unfold infer_shape.
  rewrite existsb_below_of_nat, filter_nonneg_of_nat, filter_minus1_of_nat,
    map_to_nat_of_nat.
  cbn [length]. apply Nat.eqb_neq in Hn. rewrite Hn. reflexivity.
Qed.

(** Lines 164-170 with a mask of [nW] windows, where [nW] divides the
    number of windows of the input. *)
Lemma masked_softmax_ok (m : WindowAttention.t) (B_ N nh nW : nat)
    (attn msk : tensor Q) :
  WindowAttention.num_heads m = Z.of_nat nh ->
  0 < nh -> 0 < N -> 0 < nW -> B_ mod nW = 0 ->
  shape attn = [B_; nh; N; N] ->
  shape msk = [nW; N; N] ->
  exists a,
    WindowAttention.masked_softmax m B_ N attn (Some msk) = Ok a
    /\ shape a = [B_; nh; N; N].
Proof.
  intros Hh Hnh HN HnW Hdiv Ha Hm.
  unfold WindowAttention.masked_softmax. rewrite Hm, Hh.
  replace (nW =? 0) with false by (symmetry; apply Nat.eqb_neq; lia).
  assert (HB : B_ / nW * nW = B_).
  { pose proof (Nat.div_mod_eq B_ nW). lia. }
  change [Z.of_nat (B_ / nW); Z.of_nat nW; Z.of_nat nh; Z.of_nat N; Z.of_nat N]
    with (map Z.of_nat [B_ / nW; nW; nh; N; N]).
  destruct (reshape_exact attn _ [B_ / nW; nW; nh; N; N] Ha) as (a1 & E1 & S1 & _).
  { cbn. nia. }
  rewrite E1. cbn [bindR].
  assert (Hu : unsqueeze 1 msk = Ok (mkTensor [nW; 1; N; N] (data msk))).
  { pose proof (unsqueeze_ok 1 msk) as Hu. rewrite Hm in Hu. apply Hu.
    unfold rank. rewrite Hm. cbn. lia. }
  rewrite Hu. cbn [bindR].
  match goal with
  | |- context [unsqueeze 0 ?t] => destruct (unsqueeze_front_ok t) as (m2 & E2 & S2)
  end.
  rewrite E2. cbn [bindR]. cbn [shape] in S2.
  destruct (binop_fits_r Qplus a1 m2) as (a2 & E3 & S3).
  { rewrite S1, S2. cbn [rev app]. repeat constructor. }
  rewrite E3. cbn [bindR]. rewrite S1 in S3.
  change [(-1)%Z; Z.of_nat nh; Z.of_nat N; Z.of_nat N]
    with (map Z.of_nat [] ++ (-1)%Z :: map Z.of_nat [nh; N; N]).
  destruct (reshape_minus1 a2 _ [] [nh; N; N] B_ S3) as (a3 & E4 & S4 & _).
  { cbn. nia. }
  { cbn. nia. }
  rewrite E4. cbn [bindR]. eexists. split; [reflexivity|]. exact S4.
Qed.

Lemma attention_tail_ok (m : WindowAttention.t) (B_ N nh hd : nat)
    (mask : option (tensor Q)) (attn v a : tensor Q) (g : rng) :
  wf_Linear (nh * hd) (nh * hd) (WindowAttention.proj m) ->
  WindowAttention.masked_softmax m B_ N attn mask = Ok a ->
  shape a = [B_; nh; N; N] ->
  shape v = [B_; nh; N; hd] ->
  exists y g',
    attention_tail m B_ N (nh * hd) mask attn v g = Ok (y, g')
    /\ shape y = [B_; N; nh * hd].
Proof.
  intros Hproj Ea Sa Sv. unfold attention_tail.
  rewrite (bind_lift_Ok _ _ _ _ Ea).
  destruct (Dropout_forward_ok (WindowAttention.attn_drop m) a g)
    as (t15 & g1 & E15 & S15 & _).
  rewrite (bind_Ok _ _ _ _ _ E15). clear E15. rewrite Sa in S15.
  step_with (matmul_ok t15 v [B_; nh] N N hd S15 Sv).
  cbn [app] in S.
  step_with (transpose_ok 1 2 t _ S eq_refl).
  cbn [length seq map nth Nat.eqb] in S0.
  change [Z.of_nat B_; Z.of_nat N; Z.of_nat (nh * hd)]
    with (map Z.of_nat [B_; N; nh * hd]).
  destruct (reshape_exact t0 _ [B_; N; nh * hd] S0) as (t18 & E18 & S18 & _).
  { cbn. nia. }
  rewrite (bind_lift_Ok _ _ _ _ E18). clear E18.
  step_with (Linear_forward_ok (WindowAttention.proj m) t18 [B_; N] _ _ Hproj S18).
  destruct (Dropout_forward_ok (WindowAttention.proj_drop m) t1 g1)
    as (t20 & g2 & E20 & S20 & _).
  exists t20, g2. split; [exact E20|]. rewrite S20. exact S1.
Qed.

Lemma WindowAttention_init_fits (Wh Ww nh hd : nat) (ad pd : Q) (pws : Z * Z)
    (g g' : rng) (m : WindowAttention.t) :
  WindowAttention.init (Z.of_nat (nh * hd)) (Z.of_nat Wh, Z.of_nat Ww) (Z.of_nat nh)
    true ad pd pws g = Ok (m, g') ->
  wf_WindowAttention (nh * hd) Wh Ww nh m /\ 0 < Wh /\ 0 < Ww.
Proof.
  intros H.
  pose proof (WindowAttention_init_window _ _ _ _ _ _ _ _ _ _ H) as [Hh Hw].
  cbn [fst snd] in Hh, Hw.
  apply WindowAttention_init_wf in H; [|lia|lia].
  rewrite !Nat2Z.id in H. split; [exact H | lia].
Qed.

(** X15.  A window attention constructed (with [qkv_bias=True]) for [nh]
    heads of width [hd] and a window of [Wh] by [Ww] tokens maps every input
    of shape [(B_, Wh Ww, nh hd)] to a tensor of the same shape: without a
    mask, and with a mask of shape [(nW, Wh Ww, Wh Ww)] whose number of
    windows [nW] divides [B_]. *)
Theorem WindowAttention_forward_shape (Wh Ww nh hd B_ : nat) (ad pd : Q)
    (pws : Z * Z) (g0 g1 g : rng) (m : WindowAttention.t) (x : tensor Q)
    (mask : option (tensor Q)) :
  WindowAttention.init (Z.of_nat (nh * hd)) (Z.of_nat Wh, Z.of_nat Ww) (Z.of_nat nh)
    true ad pd pws g0 = Ok (m, g1) ->
  0 < nh -> 0 < hd -> 0 < B_ ->
  shape x = [B_; Wh * Ww; nh * hd] ->
  match mask with
  | None => True
  | Some msk =>
      exists nW, shape msk = [nW; Wh * Ww; Wh * Ww] /\ 0 < nW /\ B_ mod nW = 0
  end ->
  exists y g',
    WindowAttention.forward m x mask g = Ok (y, g')
    /\ shape y = [B_; Wh * Ww; nh * hd].
Proof.
  intros Hinit Hnh Hhd HB Hx Hmask.
  apply WindowAttention_init_fits in Hinit. destruct Hinit as (Hwf & HWh & HWw).
  apply (WindowAttention_forward_logits m x mask Wh Ww nh hd B_ g
           (fun r => exists y g', r = Ok (y, g') /\ shape y = [B_; Wh * Ww; nh * hd])
           Hwf Hnh Hhd HB HWh HWw Hx).
  intros attn v Sa Sv.
  pose proof Hwf as (Hheads & _ & _ & _ & _ & _ & _ & _ & _ & _ & _ & _ & Hproj).
  assert (Hsm : exists a,
             WindowAttention.masked_softmax m B_ (Wh * Ww) attn mask = Ok a
             /\ shape a = [B_; nh; Wh * Ww; Wh * Ww]).
  { destruct mask as [msk|].
    - destruct Hmask as (nW & Hm & HnW & Hdiv).
      apply (masked_softmax_ok m B_ (Wh * Ww) nh nW attn msk); try assumption. nia.
    - exists (softmax attn). split; [reflexivity | exact Sa]. }
  destruct Hsm as (a & Ea & Sa').
  exact (attention_tail_ok m B_ (Wh * Ww) nh hd mask attn v a g Hproj Ea Sa' Sv).
Qed.

(** X16.  What [forward] does with a mask that does not fit: a mask without
    windows divides by zero, and a mask whose number of windows does not
    divide [B_] makes the [view] of the logits raise [RuntimeError]. *)
Theorem WindowAttention_forward_rejects_mask (Wh Ww nh hd B_ : nat) (ad pd : Q)
    (pws : Z * Z) (g0 g1 g : rng) (m : WindowAttention.t) (x msk : tensor Q) :
  WindowAttention.init (Z.of_nat (nh * hd)) (Z.of_nat Wh, Z.of_nat Ww) (Z.of_nat nh)
    true ad pd pws g0 = Ok (m, g1) ->
  0 < nh -> 0 < hd -> 0 < B_ ->
  shape x = [B_; Wh * Ww; nh * hd] ->
  (forall rest, shape msk = 0 :: rest ->
     WindowAttention.forward m x (Some msk) g = Raise ZeroDivisionError)
  /\ (forall nW rest, shape msk = nW :: rest -> 0 < nW -> B_ mod nW <> 0 ->
        WindowAttention.forward m x (Some msk) g = Raise RuntimeError).
Proof.
  intros Hinit Hnh Hhd HB Hx.
  apply WindowAttention_init_fits in Hinit. destruct Hinit as (Hwf & HWh & HWw).
  pose proof Hwf as (Hheads & _).
  split.
  - intros rest Hm.
    apply (WindowAttention_forward_logits m x (Some msk) Wh Ww nh hd B_ g
             (fun r => r = Raise ZeroDivisionError) Hwf Hnh Hhd HB HWh HWw Hx).
    intros attn v Sa Sv. unfold attention_tail. apply bind_lift_Raise.
    unfold WindowAttention.masked_softmax. rewrite Hm. reflexivity.
  - intros nW rest Hm HnW Hdiv.
    apply (WindowAttention_forward_logits m x (Some msk) Wh Ww nh hd B_ g
             (fun r => r = Raise RuntimeError) Hwf Hnh Hhd HB HWh HWw Hx).
    intros attn v Sa Sv. unfold attention_tail. apply bind_lift_Raise.
    unfold WindowAttention.masked_softmax. rewrite Hm, Hheads.
    replace (nW =? 0) with false by (symmetry; apply Nat.eqb_neq; lia).
    unfold reshape. rewrite Sa.
    change [Z.of_nat (B_ / nW); Z.of_nat nW; Z.of_nat nh; Z.of_nat (Wh * Ww);
            Z.of_nat (Wh * Ww)]
      with (map Z.of_nat [B_ / nW; nW; nh; Wh * Ww; Wh * Ww]).
    rewrite infer_shape_mismatch; [reflexivity|].
    cbn [numel fold_right].
    assert (Hlt : B_ / nW * nW < B_).
    { pose proof (Nat.div_mod_eq B_ nW). lia. }
    assert (Hpos : 0 < nh * (Wh * Ww * (Wh * Ww * 1))) by nia.
    nia.
Qed.

End WindowAttentionMask.

Lemma WindowAttention_forward_shape_witness :
  match @WindowAttention.init demo_float demo_rng (Z.of_nat (2 * 4))
          (Z.of_nat 2, Z.of_nat 2) (Z.of_nat 2) true (1 # 10) (1 # 10) (0, 0)%Z tt with
  | Ok (m, _) =>
      exists y g',
        @WindowAttention.forward demo_float demo_rng m (full [2; 2 * 2; 2 * 4] 1%Q)
          (Some (full [2; 2 * 2; 2 * 2] 0%Q)) tt = Ok (y, g')
        /\ shape y = [2; 2 * 2; 2 * 4]
  | Raise _ => False
  end.
Proof.
  destruct (@WindowAttention.init demo_float demo_rng (Z.of_nat (2 * 4))
              (Z.of_nat 2, Z.of_nat 2) (Z.of_nat 2) true (1 # 10) (1 # 10) (0, 0)%Z tt)
    as [[m g']|e] eqn:E.
  - apply (@WindowAttention_forward_shape demo_float demo_rng 2 2 2 4 2 (1 # 10) (1 # 10)
             (0, 0)%Z tt g' tt m (full [2; 2 * 2; 2 * 4] 1%Q)
             (Some (full [2; 2 * 2; 2 * 2] 0%Q)) E); try lia; try reflexivity.
    exists 2. repeat split; lia.
  - assert (Hok : is_ok (@WindowAttention.init demo_float demo_rng (Z.of_nat (2 * 4))
                           (Z.of_nat 2, Z.of_nat 2) (Z.of_nat 2) true (1 # 10) (1 # 10)
                           (0, 0)%Z tt) = true)
      by (vm_compute; reflexivity).
    rewrite E in Hok. discriminate Hok.
Defined.

Lemma WindowAttention_forward_rejects_mask_witness :
  match @WindowAttention.init demo_float demo_rng (Z.of_nat (2 * 4))
          (Z.of_nat 2, Z.of_nat 2) (Z.of_nat 2) true (1 # 10) (1 # 10) (0, 0)%Z tt with
  | Ok (m, _) =>
      @WindowAttention.forward demo_float demo_rng m (full [3; 2 * 2; 2 * 4] 1%Q)
        (Some (full [2; 2 * 2; 2 * 2] 0%Q)) tt = Raise RuntimeError
  | Raise _ => False
  end.
Proof.
  destruct (@WindowAttention.init demo_float demo_rng (Z.of_nat (2 * 4))
              (Z.of_nat 2, Z.of_nat 2) (Z.of_nat 2) true (1 # 10) (1 # 10) (0, 0)%Z tt)
    as [[m g']|e] eqn:E.
  - apply (proj2 (@WindowAttention_forward_rejects_mask demo_float demo_rng 2 2 2 4 3
                    (1 # 10) (1 # 10) (0, 0)%Z tt g' tt m (full [3; 2 * 2; 2 * 4] 1%Q)
                    (full [2; 2 * 2; 2 * 2] 0%Q) E ltac:(lia) ltac:(lia) ltac:(lia)
                    eq_refl) 2 [2 * 2; 2 * 2] eq_refl ltac:(lia)).
    discriminate.
  - assert (Hok : is_ok (@WindowAttention.init demo_float demo_rng (Z.of_nat (2 * 4))
                           (Z.of_nat 2, Z.of_nat 2) (Z.of_nat 2) true (1 # 10) (1 # 10)
                           (0, 0)%Z tt) = true)
      by (vm_compute; reflexivity).
    rewrite E in Hok. discriminate Hok.
Defined.

(** * Attention layer and segment merging *)

Section AttentionLayerShape.
Context {F : FloatOps} {G : RandomGen}.

Lemma AttentionLayer_init_fits (H dk : nat) (mix : bool) (dr : Q) (g g' : rng)
    (m : AttentionLayer.t) :
  0 < H ->
  AttentionLayer.init (Z.of_nat (H * dk)) (Z.of_nat H) None None mix dr g = Ok (m, g') ->
  wf_AttentionLayer H dk m.
Proof.
  intros HH H0. unfold AttentionLayer.init in H0. cbn [or_default] in H0.
  assert (Hdiv : floordiv (Z.of_nat (H * dk)) (Z.of_nat H) = Ok (Z.of_nat dk)).
  { unfold floordiv. replace (Z.of_nat H =? 0)%Z with false by lia.
    f_equal. rewrite Nat2Z.inj_mul, Z.mul_comm. apply Z.div_mul. lia. }
  rewrite Hdiv in H0. minv H0. injection Hstep as <-. injection Hstep0 as <-.
  apply Linear_init_wf in Hstep2, Hstep3, Hstep4, Hstep5.
  apply LayerNorm_init_wf in Hstep6, Hstep7.
  destruct Hstep6 as [_ Hstep6]. destruct Hstep7 as [_ Hstep7].
  rewrite <- Nat2Z.inj_mul, !Nat2Z.id in Hstep2, Hstep3, Hstep4, Hstep5.
  rewrite Nat2Z.id in Hstep6, Hstep7.
  replace (dk * H) with (H * dk) in * by lia.
  unfold wf_AttentionLayer.
  cbn [AttentionLayer.n_heads AttentionLayer.norm AttentionLayer.norm_1
       AttentionLayer.query_projection AttentionLayer.key_projection
       AttentionLayer.value_projection AttentionLayer.out_projection].
  repeat match goal with |- _ /\ _ => split end;
    try reflexivity; try assumption; tauto.
Qed.

(** X17.  An attention layer constructed for [H] heads of width [dk] (with
    the default [d_keys] and [d_values], mixing or not) maps queries of shape
    [(B, L, H dk)] and keys and values of shape [(B, S, H dk)] to a tensor
    of the shape of the queries; the lengths [L] and [S] need not agree. *)
Theorem AttentionLayer_forward_shape (H dk B L S_ : nat) (mix : bool) (dr : Q)
    (g0 g1 g : rng) (m : AttentionLayer.t) (q k v : tensor Q) :
  AttentionLayer.init (Z.of_nat (H * dk)) (Z.of_nat H) None None mix dr g0
  = Ok (m, g1) ->
  0 < H -> 0 < dk -> 0 < B -> 0 < L -> 0 < S_ ->
  shape q = [B; L; H * dk] ->
  shape k = [B; S_; H * dk] ->
  shape v = [B; S_; H * dk] ->
  exists y g',
    AttentionLayer.forward m (q, k, v) g = Ok (y, g')
    /\ shape y = [B; L; H * dk].
Proof.
  intros Hinit HH Hdk HB HL HS Hq Hk Hv.
  apply (AttentionLayer_init_fits H dk mix dr g0 g1 m HH) in Hinit.
  apply (AttentionLayer_forward_ok m q k v B L S_ H dk g); assumption.
Qed.

(** X18.  [SegmentMerging(d)] normalises over [2 d] channels: an input of
    even length whose channel width is not [d] gets through the
    rearrangement and is refused by the normalisation with
    [RuntimeError]. *)
Theorem SegmentMerging_rejects_width (d b p c : nat) (m : SegmentMerging.t)
    (x : tensor Q) :
  SegmentMerging.init (Z.of_nat d) = Ok m ->
  shape x = [b; 2 * p; c] ->
  c <> d ->
  SegmentMerging.forward m x = Raise RuntimeError.
Proof.
  intros Hinit Hx Hc.
  apply SegmentMerging_init_wf in Hinit. unfold wf_SegmentMerging in Hinit.
  rewrite Nat2Z.id in Hinit.
  unfold SegmentMerging.forward.
  rewrite (rearrange_merge_pairs_ok x b p c Hx). cbn [bindR].
  unfold LayerNorm.forward. rewrite shape_tabulate, Hinit.
  cbn [rank shape length last].
  replace (2 * c =? 2 * d) with false by (symmetry; apply Nat.eqb_neq; lia).
  reflexivity.
Qed.

End AttentionLayerShape.

Lemma AttentionLayer_forward_shape_witness :
  match @AttentionLayer.init demo_float demo_rng (Z.of_nat (2 * 3)) (Z.of_nat 2)
          None None true (1 # 10) tt with
  | Ok (m, _) =>
      exists y g',
        @AttentionLayer.forward demo_float demo_rng m
          (full [1; 2; 2 * 3] 1%Q, full [1; 4; 2 * 3] 1%Q, full [1; 4; 2 * 3] 1%Q) tt
        = Ok (y, g')
        /\ shape y = [1; 2; 2 * 3]
  | Raise _ => False
  end.
Proof.
  destruct (@AttentionLayer.init demo_float demo_rng (Z.of_nat (2 * 3)) (Z.of_nat 2)
              None None true (1 # 10) tt) as [[m g']|e] eqn:E.
  - apply (@AttentionLayer_forward_shape demo_float demo_rng 2 3 1 2 4 true (1 # 10)
             tt g' tt m _ _ _ E); try lia; reflexivity.
  - assert (Hok : is_ok (@AttentionLayer.init demo_float demo_rng (Z.of_nat (2 * 3))
                           (Z.of_nat 2) None None true (1 # 10) tt) = true)
      by (vm_compute; reflexivity).
    rewrite E in Hok. discriminate Hok.
Defined.

Lemma SegmentMerging_rejects_width_witness :
  match SegmentMerging.init (Z.of_nat 3) with
  | Ok m =>
      @SegmentMerging.forward demo_float m (full [1; 2 * 2; 4] 1%Q) = Raise RuntimeError
  | Raise _ => False
  end.
Proof.
  destruct (SegmentMerging.init (Z.of_nat 3)) as [m|e] eqn:E.
  - apply (@SegmentMerging_rejects_width demo_float 3 1 2 4 m _ E); [reflexivity | lia].
  - discriminate E.
Defined.

(** * When the forward pass returns *)

Lemma wf_encoder_map (f : string -> param -> param) (n P t lp : nat)
    (m : HUTformer.t) :
  keeps_data f ->
  wf_encoder n P t lp m ->
  wf_encoder n P t lp (HUTformer.map_parameters f m).
Proof.
  intros Hf (H1 & H2 & H3 & H4 & H5 & H6 & H7 & H8 & H9 & H10 & H11).
  unfold wf_encoder.
  cbn [HUTformer.map_parameters HUTformer.len_patch HUTformer.embed_dim HUTformer.SE
       HUTformer.embedding HUTformer.STPE HUTformer.encoder_1 HUTformer.encoder_2_0
       HUTformer.encoder_2_1 HUTformer.encoder_3_0 HUTformer.encoder_3_1
       HUTformer.encoder_project].
  repeat match goal with |- _ /\ _ => split end;
    try assumption;
    try (apply wf_Linear_map; assumption);
    try (apply wf_WindowAttention_map; assumption).
  rewrite Hf. exact H3.
Qed.

Section PatchCount.
Context {F : FloatOps} {G : RandomGen} {FS : FileSystem}.

(** What a run of lines 271-296 returns, for a history of [P] patches. *)
Lemma init_encoder_patches (n P t lp : nat) (mode : string) (g g' : rng)
    (m : HUTformer.t) :
  0 < t ->
  HUTformer.init_encoder (Z.of_nat n) (Z.of_nat (P * t)) (Z.of_nat lp) (Z.of_nat t)
    mode g = Ok (m, g') ->
  wf_encoder n P t lp m /\ 8 <= P /\ HUTformer.mode m = mode
  /\ HUTformer.decoder m = None.
Proof.
  intros Ht H. unfold HUTformer.init_encoder in H. minv H.
  rewrite (int_truediv_mul P t Ht) in Hstep0.
  assert (Ha0 : a0 = Z.of_nat P) by congruence. clear Hstep0.
  apply to_dim_inv in Hstep1. destruct Hstep1 as [_ ->].
  apply to_dim_inv in Hstep2. destruct Hstep2 as [_ ->].
  apply trunc_normal_inv in Hstep3, Hstep5.
  apply Linear_init_wf in Hstep4, Hstep6, Hstep12.
  pose proof (WindowAttention_init_window _ _ _ _ _ _ _ _ _ _ Hstep11) as [_ HP8].
  cbn [snd] in HP8.
  assert (HP : 8 <= P) by lia.
  replace (a0 ÷ 2)%Z with (Z.of_nat (P / 2)) in Hstep7 by lia.
  replace (a0 ÷ 4)%Z with (Z.of_nat (P / 4)) in Hstep9 by lia.
  replace (a0 ÷ 8)%Z with (Z.of_nat (P / 8)) in Hstep11 by lia.
  pose proof (WindowAttention_init_wf 64 2 (P / 2) 8 _ _ _ _ _ _ Hstep7
                ltac:(lia) ltac:(lia)) as Hw1.
  pose proof (WindowAttention_init_wf (64 * 2) 2 (P / 4) 8 _ _ _ _ _ _ Hstep9
                ltac:(lia) ltac:(lia)) as Hw2.
  pose proof (WindowAttention_init_wf (64 * 4) 2 (P / 8) 8 _ _ _ _ _ _ Hstep11
                ltac:(lia) ltac:(lia)) as Hw3.
  apply SegmentMerging_init_wf in Hstep8, Hstep10.
  split; [|split; [exact HP | split; reflexivity]].
  unfold wf_encoder.
  cbn [HUTformer.len_patch HUTformer.embed_dim HUTformer.SE HUTformer.embedding
       HUTformer.STPE HUTformer.encoder_1 HUTformer.encoder_2_0
       HUTformer.encoder_2_1 HUTformer.encoder_3_0 HUTformer.encoder_3_1
       HUTformer.encoder_project].
  repeat match goal with |- _ /\ _ => split end;
    try reflexivity; try assumption.
  - cbn [nn_Parameter p_data]. rewrite Hstep3. cbn [full shape].
    rewrite Nat2Z.id. reflexivity.
  - destruct Hstep4 as [[Hw Hb] _]. split; cbn [Linear.weight Linear.bias p_data].
    + rewrite Hstep5, Hw, Nat2Z.id. reflexivity.
    + intros b Hbias. rewrite (Hb b Hbias). reflexivity.
  - destruct Hstep6 as [Hl _].
    replace (P * 64 + 18) with (Z.to_nat (a0 * 64 + 16 + 2)) by lia.
    replace (P * 64) with (Z.to_nat (a0 * 64)) by lia.
    exact Hl.
  - destruct Hstep12 as [Hl _].
    replace (P * 64) with (Z.to_nat (a0 * 64)) by lia.
    rewrite Nat2Z.id in Hl. exact Hl.
Qed.

(** What a construction without a checkpoint returns, for a history of [P]
    patches. *)
Lemma init_patches (n P t lp : nat) (mode : string) (g g' : rng) (m : HUTformer.t) :
  0 < t ->
  HUTformer.init (Z.of_nat n) (Z.of_nat (P * t)) (Z.of_nat lp) (Z.of_nat t)
    mode None g = Ok (m, g') ->
  wf_encoder n P t lp m /\ 8 <= P.
Proof.
  intros Ht H. unfold HUTformer.init in H.
  apply bind_Ok_inv in H. destruct H as (m0 & g0 & Hm0 & H).
  apply (init_encoder_patches n P t lp mode g g0 m0 Ht) in Hm0.
  destruct Hm0 as (Hwf & HP & Hmode & Hdec).
  split; [|exact HP].
  destruct (String.eqb mode "encoder").
  - apply ret_Ok_inv in H. destruct H as [-> _]. exact Hwf.
  - minv H. injection Hstep as <-.
    destruct (String.eqb mode "decoder"); apply ret_Ok_inv in H; destruct H as [-> _].
    + apply wf_encoder_map; [apply freeze_keeps_data|]. destruct m0. exact Hwf.
    + destruct m0. exact Hwf.
Qed.

End PatchCount.

Section PatchCountForward.
Context {F : FloatOps} {G : RandomGen}.

Lemma bind_Raise {A B : Type} (c : M A) (k : A -> M B) (g : rng) (e : exn) :
  c g = Raise e -> bind c k g = Raise e.
Proof. intros H. unfold bind. rewrite H. reflexivity. Qed.

(** Lines 332-337 and 348-353 for a series of [p] patches: up to the
    concatenation any [p] goes through. *)
Lemma embed_cat_patches (m : HUTformer.t) (n t p B L C : nat) (series aux : tensor Q) :
  HUTformer.len_patch m = Z.of_nat t ->
  HUTformer.embed_dim m = 64%Z ->
  shape (p_data (HUTformer.SE m)) = [n; 16] ->
  wf_Linear t 64 (HUTformer.embedding m) ->
  0 < B -> 0 < n -> 0 < t -> 0 < L ->
  shape series = [B; n; p * t] ->
  shape aux = [B; L; n; C] ->
  exists S_,
    shape S_ = [B; n; p * 64 + 16 + (C - 1)]
    /\ HUTformer.embed m B n series aux
       = (let? U := Linear.forward (HUTformer.STPE m) S_ in
          reshape [Z.of_nat (B * n); -1; 64]%Z U).
Proof.
  intros Hlp Hed Hse Hemb HB Hn Ht HL Hs Ha.
  unfold HUTformer.embed. rewrite Hlp, Hed.
  step_with (rearrange_patches_ok t p series B n Ht Hs).
  step_with (Linear_forward_ok (HUTformer.embedding m) t0 [B; n; p] t 64 Hemb S).
  change [Z.of_nat B; Z.of_nat n; (-1)%Z]
    with (map Z.of_nat [B; n] ++ (-1)%Z :: map Z.of_nat []).
  destruct (reshape_minus1 t1 _ [B; n] [] (p * 64) S0) as (t2 & E2 & S2 & _).
  { cbn. nia. }
  { cbn. nia. }
  rewrite E2. cbn [bindR]. cbn [app] in S2.
  step_with (repeat_batch_ok B n 16 (p_data (HUTformer.SE m)) Hse).
  step_with (select_ok 1 (-1) aux _ L (L - 1) Ha eq_refl (norm_index_m1 L HL)).
  cbn [remove_at firstn skipn app] in S3.
  step_with (slice_from_ok 2 1 t4 _ C S3 eq_refl).
  cbn [set_at firstn skipn app] in S4.
  step_with (cat_last_3_ok t2 t3 t5 [B; n] (p * 64) 16 (C - 1) S2 S1 S4).
  exists t6. split; [exact S5 | reflexivity].
Qed.

(** Lines 332-341 on a history of [P >= 8] patches, [P] not a multiple of
    8: one of the three window attentions is fed with a number of tokens
    that is not the size of its window. *)
Lemma encode_bad_patches (m : HUTformer.t) (n P t lp B : nat) (history : tensor Q)
    (g : rng) :
  wf_encoder n P t lp m ->
  0 < B -> 0 < n -> 0 < t -> 8 <= P -> P mod 8 <> 0 ->
  shape history = [B; P * t; n; 3] ->
  HUTformer.encode m B n history g = Raise RuntimeError.
Proof.
  intros Hwf HB Hn Ht HP Hmod Hh.
  pose proof Hwf as (Hlp & Hed & Hse & Hemb & Hstpe & He1 & He20 & He21 & He30
                     & He31 & Hep).
  assert (HBn : 0 < B * n) by nia.
  assert (HL : 0 < P * t) by nia.
  unfold HUTformer.encode.
  step_with (select_ok 3 0 history _ 3 0 Hh eq_refl eq_refl).
  cbn [remove_at firstn skipn app] in S.
  step_with (permute_ok [0; 2; 1] t0 _ S eq_refl).
  cbn [map nth] in S0.
  destruct (embed_cat_patches m n t P B (P * t) 3 t1 history Hlp Hed Hse Hemb
              HB Hn Ht HL S0 Hh) as (S_ & HS & Eemb).
  replace (P * 64 + 16 + (3 - 1)) with (P * 64 + 18) in HS by lia.
  assert (HU : exists U, HUTformer.embed m B n t1 history = Ok U
                         /\ shape U = [B * n; P; 8 * 8]).
  { rewrite Eemb.
    step_with (Linear_forward_ok (HUTformer.STPE m) S_ [B; n] _ _ Hstpe HS).
    change [Z.of_nat (B * n); (-1)%Z; 64%Z]
      with (map Z.of_nat [B * n] ++ (-1)%Z :: map Z.of_nat [64]).
    destruct (reshape_minus1 t2 _ [B * n] [64] P S1) as (U & EU & SU & _).
    { cbn. nia. }
    { cbn. nia. }
    exists U. split; [exact EU | exact SU]. }
  step_with HU.
  destruct (Nat.eq_dec (P mod 2) 0) as [H2|H2].
  2:{ apply bind_Raise.
      apply (WindowAttention_forward_bad (HUTformer.encoder_1 m) t2 None 2 (P / 2) 8 8
               (B * n) P g He1); try lia; exact S1. }
  replace P with (2 * (P / 2)) in S1 at 1 by lia.
  run_with (WindowAttention_forward_ok (HUTformer.encoder_1 m) t2 2 (P / 2) 8 8
              (B * n) g He1 ltac:(lia) ltac:(lia) HBn ltac:(lia) ltac:(lia) S1).
  step_with (SegmentMerging_forward_ok (HUTformer.encoder_2_0 m) t3 (B * n) (P / 2) 64
               He20 S2).
  change (2 * 64) with (8 * 16) in S3.
  destruct (Nat.eq_dec (P mod 4) 0) as [H4|H4].
  2:{ apply bind_Raise.
      apply (WindowAttention_forward_bad (HUTformer.encoder_2_1 m) t4 None 2 (P / 4) 8 16
               (B * n) (P / 2) g0 He21); try lia; exact S3. }
  replace (P / 2) with (2 * (P / 4)) in S3 by lia.
  run_with (WindowAttention_forward_ok (HUTformer.encoder_2_1 m) t4 2 (P / 4) 8 16
              (B * n) g0 He21 ltac:(lia) ltac:(lia) HBn ltac:(lia) ltac:(lia) S3).
  step_with (SegmentMerging_forward_ok (HUTformer.encoder_3_0 m) t5 (B * n) (P / 4) 128
               He30 S4).
  change (2 * 128) with (8 * 32) in S5.
  apply bind_Raise.
  apply (WindowAttention_forward_bad (HUTformer.encoder_3_1 m) t6 None 2 (P / 8) 8 32
           (B * n) (P / 4) g1 He31); try lia; exact S5.
Qed.

End PatchCountForward.

Section WhenForwardFails.
Context {F : FloatOps} {G : RandomGen} {FS : FileSystem}.

(** X19.  A constructed window attention refuses an input whose number of
    tokens [N] is not the size of its window: the position bias cannot be
    added to the [N] by [N] scores and [forward] raises [RuntimeError]
    ([N] and the window size both larger than one, so that nothing
    broadcasts). *)
Theorem WindowAttention_forward_rejects_tokens (Wh Ww nh hd B_ N : nat) (ad pd : Q)
    (pws : Z * Z) (g0 g1 g : rng) (m : WindowAttention.t) (x : tensor Q)
    (mask : option (tensor Q)) :
  WindowAttention.init (Z.of_nat (nh * hd)) (Z.of_nat Wh, Z.of_nat Ww) (Z.of_nat nh)
    true ad pd pws g0 = Ok (m, g1) ->
  0 < nh -> 0 < hd -> 0 < B_ ->
  shape x = [B_; N; nh * hd] ->
  N <> Wh * Ww -> 1 < N -> 1 < Wh * Ww ->
  WindowAttention.forward m x mask g = Raise RuntimeError.
Proof.
  intros Hinit Hnh Hhd HB Hx HNW HN HW.
  apply WindowAttention_init_fits in Hinit. destruct Hinit as (Hwf & HWh & HWw).
  apply (WindowAttention_forward_bad m x mask Wh Ww nh hd B_ N g); assumption.
Qed.

Lemma forward_patch_count_bad_aux (n P t lp B : nat) (mode : string)
    (m : HUTformer.t) (history future : tensor Q) (batch_seen epoch : Z)
    (train : bool) (kwargs : list (string * Z)) (g0 g1 g : rng) :
  HUTformer.init (Z.of_nat n) (Z.of_nat (P * t)) (Z.of_nat lp) (Z.of_nat t)
    mode None g0 = Ok (m, g1) ->
  0 < n -> 0 < t -> 0 < B ->
  P mod 8 <> 0 ->
  shape history = [B; P * t; n; 3] ->
  HUTformer.forward m history future batch_seen epoch train kwargs g
  = Raise RuntimeError.
Proof.
  intros Hinit Hn Ht HB Hmod Hh.
  apply (init_patches n P t lp mode g0 g1 m Ht) in Hinit.
  destruct Hinit as [Hwf HP].
  unfold HUTformer.forward. rewrite Hh. apply bind_Raise.
  apply (encode_bad_patches m n P t lp B history g Hwf HB Hn Ht HP Hmod Hh).
Qed.

(** X20.  A model is constructed for any number [P >= 8] of patches, but
    [forward] needs [P] to be a multiple of 8: otherwise one of the three
    encoder stages is handed a sequence that is not as long as its window,
    and the call raises [RuntimeError], in either mode. *)
Theorem forward_patch_count_error (n P t lp B : nat) (mode : string)
    (m : HUTformer.t) (history future : tensor Q) (batch_seen epoch : Z)
    (train : bool) (kwargs : list (string * Z)) (g0 g1 g : rng) :
  HUTformer.init (Z.of_nat n) (Z.of_nat (P * t)) (Z.of_nat lp) (Z.of_nat t)
    mode None g0 = Ok (m, g1) ->
  0 < n -> 0 < t -> 0 < B ->
  P mod 8 <> 0 ->
  shape history = [B; P * t; n; 3] ->
  HUTformer.forward m history future batch_seen epoch train kwargs g
  = Raise RuntimeError.
Proof.
  intros Hinit Hn Ht HB Hmod Hh.
  exact (forward_patch_count_bad_aux n P t lp B mode m history future batch_seen epoch
           train kwargs g0 g1 g Hinit Hn Ht HB Hmod Hh).
Qed.

Lemma decode_bad_length (m : HUTformer.t) (d : HUTformer.decoder_t)
    (n k t lp B L : nat) (H_1 H_2 pe future : tensor Q) (g : rng) :
  wf_HUTformer n k t lp m ->
  0 < B -> 0 < n -> 0 < t -> 0 < L ->
  lp <> 8 * k * t ->
  shape pe = [B; n; lp] ->
  shape future = [B; L; n; 3] ->
  HUTformer.decode m d B n H_1 H_2 pe future g
  = Raise (if lp mod t =? 0 then RuntimeError else EinopsError).
Proof.
  intros Hwf HB Hn Ht HL Hlen Hpe Hf.
  pose proof Hwf as (Hlp & Hed & Hse & Hemb & Hstpe & _).
  unfold HUTformer.decode. apply bind_lift_Raise.
  destruct (Nat.eqb_spec (lp mod t) 0) as [Hdiv|Hdiv].
  - assert (Hp : lp = lp / t * t).
    { pose proof (Nat.div_mod_eq lp t). lia. }
    rewrite Hp in Hpe.
    destruct (embed_cat_patches m n t (lp / t) B L 3 pe future Hlp Hed Hse Hemb
                HB Hn Ht HL Hpe Hf) as (S_ & HS & ->).
    rewrite (Linear_forward_bad (HUTformer.STPE m) S_ [B; n] _ _ _ Hstpe HS) by nia.
    reflexivity.
  - unfold HUTformer.embed. rewrite Hlp.
    rewrite (rearrange_patches_bad t lp pe B n Ht Hpe Hdiv). reflexivity.
Qed.

(** X21.  In mode 'decoder' the encoder's prediction is cut into patches
    again and embedded by the layers that were sized for the history.  A
    decoder whose prediction length differs from the history length
    therefore cannot run: [forward] raises [EinopsError] when the prediction
    length is not a multiple of the patch length, and [RuntimeError] when it
    is. *)
Theorem decoder_length_error (n k t lp B L : nat) (m : HUTformer.t)
    (history future : tensor Q) (batch_seen epoch : Z) (train : bool)
    (kwargs : list (string * Z)) (g0 g1 g : rng) :
  HUTformer.init (Z.of_nat n) (Z.of_nat (8 * k * t)) (Z.of_nat lp) (Z.of_nat t)
    "decoder" None g0 = Ok (m, g1) ->
  0 < n -> 0 < k -> 0 < t -> 0 < B -> 0 < L ->
  lp <> 8 * k * t ->
  shape history = [B; 8 * k * t; n; 3] ->
  shape future = [B; L; n; 3] ->
  HUTformer.forward m history future batch_seen epoch train kwargs g
  = Raise (if lp mod t =? 0 then RuntimeError else EinopsError).
Proof.
  intros Hinit Hn Hk Ht HB HL Hlen Hh Hf.
  apply (init_inv n k t lp "decoder" g0 g1 m Hk Ht) in Hinit.
  destruct Hinit as (Hwf & Hmode & [Habs | (_ & d & Hd & Hwd)]); [discriminate|].
  unfold HUTformer.forward. rewrite Hh.
  destruct (encode_ok m n k t lp B history g Hwf HB Hn Ht Hk Hh)
    as (H_1 & H_2 & pe & g2 & Eenc & S1 & S2 & Spe).
  rewrite (bind_Ok _ _ _ _ _ Eenc). cbv beta iota. rewrite Hmode.
  change (String.eqb "decoder" "encoder") with false. cbv iota. rewrite Hd.
  apply (decode_bad_length m d n k t lp B L H_1 H_2 pe future g2 Hwf HB Hn Ht HL
           Hlen Spe Hf).
Qed.

(** X22.  When [forward] returns.  For a model constructed without a
    checkpoint for [P] patches of length [t], a history of shape
    [(B, P t, n, 3)] and a future of shape [(B, L, n, 3)] with [L > 0]: the
    call returns a prediction exactly when [P] is a multiple of 8 and, in
    mode 'decoder', the prediction length is the history length.  The
    prediction then has shape [(B, len_pred, n, 1)]. *)
Theorem forward_succeeds_iff (n P t lp B L : nat) (mode : string)
    (m : HUTformer.t) (history future : tensor Q) (batch_seen epoch : Z)
    (train : bool) (kwargs : list (string * Z)) (g0 g1 g : rng) :
  HUTformer.init (Z.of_nat n) (Z.of_nat (P * t)) (Z.of_nat lp) (Z.of_nat t)
    mode None g0 = Ok (m, g1) ->
  0 < n -> 0 < t -> 0 < B -> 0 < L ->
  shape history = [B; P * t; n; 3] ->
  shape future = [B; L; n; 3] ->
  (exists y g',
      HUTformer.forward m history future batch_seen epoch train kwargs g = Ok (y, g')
      /\ shape y = [B; lp; n; 1])
  <-> (P mod 8 = 0 /\ (mode = "decoder"%string -> lp = P * t)).
Proof.
  intros Hinit Hn Ht HB HL Hh Hf.
  destruct (Nat.eq_dec (P mod 8) 0) as [H8|H8].
  2:{ split; [|intros [Habs _]; contradiction].
      intros (y & g' & Ey & _).
      rewrite (forward_patch_count_bad_aux n P t lp B mode m history future batch_seen
                 epoch train kwargs g0 g1 g Hinit Hn Ht HB H8 Hh) in Ey.
      discriminate. }
  pose proof (init_patches n P t lp mode g0 g1 m Ht Hinit) as [_ HP].
  set (k := P / 8).
  assert (HPk : P = 8 * k) by (unfold k; lia).
  assert (Hk : 0 < k) by lia.
  rewrite HPk in Hinit, Hh.
  pose proof (init_inv n k t lp mode g0 g1 m Hk Ht Hinit) as (Hwf & Hmode & Hcase).
  destruct (encode_ok m n k t lp B history g Hwf HB Hn Ht Hk Hh)
    as (H_1 & H_2 & pe & g2 & Eenc & S1 & S2 & Spe).
  assert (Hfwd : HUTformer.forward m history future batch_seen epoch train kwargs g
                 = (if String.eqb mode "encoder"
                    then p <~ permute [0; 2; 1] pe ;; lift (unsqueeze (-1) p)
                    else match HUTformer.decoder m with
                         | None => lift (Raise AttributeError)
                         | Some d => HUTformer.decode m d B n H_1 H_2 pe future
                         end) g2).
  { unfold HUTformer.forward. rewrite Hh, (bind_Ok _ _ _ _ _ Eenc), Hmode.
    reflexivity. }
  rewrite Hfwd. clear Hfwd.
  destruct Hcase as [-> | (-> & d & Hd & Hwd)].
  - change (String.eqb "encoder" "encoder") with true. cbv iota.
    split; [intros _; split; [exact H8 | discriminate]|]. intros _.
    step_with (permute_ok [0; 2; 1] pe _ Spe eq_refl).
    cbn [map nth] in S. unfold lift. rewrite unsqueeze_last.
    eexists. eexists. split; [reflexivity|]. cbn [shape]. rewrite S. reflexivity.
  - change (String.eqb "decoder" "encoder") with false. cbv iota. rewrite Hd.
    destruct (Nat.eq_dec lp (8 * k * t)) as [Hlp|Hlp].
    + split; [intros _; split; [exact H8 | intros _; rewrite HPk; exact Hlp]|].
      intros _. subst lp.
      exact (decode_ok m d n k t (8 * k * t) B L H_1 H_2 pe future g2
               Hwf Hwd HB Hn Ht Hk HL S1 S2 Spe Hf).
    + split.
      * intros (y & g' & Ey & _).
        rewrite (decode_bad_length m d n k t lp B L H_1 H_2 pe future g2 Hwf HB Hn Ht
                   HL Hlp Spe Hf) in Ey. discriminate.
      * intros [_ Habs]. specialize (Habs eq_refl). rewrite HPk in Habs.
        contradiction.
Qed.

End WhenForwardFails.

Lemma WindowAttention_forward_rejects_tokens_witness :
  match @WindowAttention.init demo_float demo_rng (Z.of_nat (2 * 4))
          (Z.of_nat 2, Z.of_nat 2) (Z.of_nat 2) true (1 # 10) (1 # 10) (0, 0)%Z tt with
  | Ok (m, _) =>
      @WindowAttention.forward demo_float demo_rng m (full [1; 5; 2 * 4] 1%Q) None tt
      = Raise RuntimeError
  | Raise _ => False
  end.
Proof.
  destruct (@WindowAttention.init demo_float demo_rng (Z.of_nat (2 * 4))
              (Z.of_nat 2, Z.of_nat 2) (Z.of_nat 2) true (1 # 10) (1 # 10) (0, 0)%Z tt)
    as [[m g']|e] eqn:E.
  - apply (@WindowAttention_forward_rejects_tokens demo_float demo_rng 2 2 2 4 1 5
             (1 # 10) (1 # 10) (0, 0)%Z tt g' tt m (full [1; 5; 2 * 4] 1%Q) None E);
      try lia; reflexivity.
  - assert (Hok : is_ok (@WindowAttention.init demo_float demo_rng (Z.of_nat (2 * 4))
                           (Z.of_nat 2, Z.of_nat 2) (Z.of_nat 2) true (1 # 10) (1 # 10)
                           (0, 0)%Z tt) = true)
      by (vm_compute; reflexivity).
    rewrite E in Hok. discriminate Hok.
Defined.

Lemma forward_patch_count_error_witness :
  match @HUTformer.init demo_float demo_rng demo_fs (Z.of_nat 1) (Z.of_nat (12 * 1))
          (Z.of_nat 5) (Z.of_nat 1) "encoder" None tt with
  | Ok (m, _) =>
      @HUTformer.forward demo_float demo_rng m (full [1; 12 * 1; 1; 3] 0%Q)
        (full [1; 5; 1; 3] 0%Q) 0 0 true [] tt = Raise RuntimeError
  | Raise _ => False
  end.
Proof.
  destruct (@HUTformer.init demo_float demo_rng demo_fs (Z.of_nat 1) (Z.of_nat (12 * 1))
              (Z.of_nat 5) (Z.of_nat 1) "encoder" None tt) as [[m g1]|e] eqn:E.
  - apply (@forward_patch_count_error demo_float demo_rng demo_fs 1 12 1 5 1 "encoder" m
             (full [1; 12 * 1; 1; 3] 0%Q) (full [1; 5; 1; 3] 0%Q) 0 0 true [] tt g1 tt E);
      try lia; reflexivity.
  - assert (Hok : is_ok (@HUTformer.init demo_float demo_rng demo_fs (Z.of_nat 1)
                           (Z.of_nat (12 * 1)) (Z.of_nat 5) (Z.of_nat 1) "encoder"
                           None tt) = true) by (vm_compute; reflexivity).
    rewrite E in Hok. discriminate Hok.
Defined.

Lemma decoder_length_error_witness :
  match @HUTformer.init demo_float demo_rng demo_fs (Z.of_nat 1) (Z.of_nat (8 * 1 * 2))
          (Z.of_nat 5) (Z.of_nat 2) "decoder" None tt with
  | Ok (m, _) =>
      @HUTformer.forward demo_float demo_rng m (full [1; 8 * 1 * 2; 1; 3] 0%Q)
        (full [1; 5; 1; 3] 0%Q) 0 0 true [] tt = Raise EinopsError
  | Raise _ => False
  end.
Proof.
  destruct (@HUTformer.init demo_float demo_rng demo_fs (Z.of_nat 1)
              (Z.of_nat (8 * 1 * 2)) (Z.of_nat 5) (Z.of_nat 2) "decoder" None tt)
    as [[m g1]|e] eqn:E.
  - apply (@decoder_length_error demo_float demo_rng demo_fs 1 1 2 5 1 5 m
             (full [1; 8 * 1 * 2; 1; 3] 0%Q) (full [1; 5; 1; 3] 0%Q) 0 0 true [] tt g1 tt
             E); try lia; reflexivity.
  - assert (Hok : is_ok (@HUTformer.init demo_float demo_rng demo_fs (Z.of_nat 1)
                           (Z.of_nat (8 * 1 * 2)) (Z.of_nat 5) (Z.of_nat 2) "decoder"
                           None tt) = true) by (vm_compute; reflexivity).
    rewrite E in Hok. discriminate Hok.
Defined.

Lemma forward_succeeds_iff_witness :
  match @HUTformer.init demo_float demo_rng demo_fs (Z.of_nat 1) (Z.of_nat (8 * 1))
          (Z.of_nat 5) (Z.of_nat 1) "encoder" None tt with
  | Ok (m, _) =>
      exists y g',
        @HUTformer.forward demo_float demo_rng m (full [1; 8 * 1; 1; 3] 0%Q)
          (full [1; 2; 1; 3] 0%Q) 0 0 true [] tt = Ok (y, g')
        /\ shape y = [1; 5; 1; 1]
  | Raise _ => False
  end.
Proof.
  destruct (@HUTformer.init demo_float demo_rng demo_fs (Z.of_nat 1) (Z.of_nat (8 * 1))
              (Z.of_nat 5) (Z.of_nat 1) "encoder" None tt) as [[m g1]|e] eqn:E.
  - apply (proj2 (@forward_succeeds_iff demo_float demo_rng demo_fs 1 8 1 5 1 2
                    "encoder" m (full [1; 8 * 1; 1; 3] 0%Q) (full [1; 2; 1; 3] 0%Q)
                    0 0 true [] tt g1 tt E ltac:(lia) ltac:(lia) ltac:(lia) ltac:(lia)
                    eq_refl eq_refl)).
    split; [reflexivity | discriminate].
  - assert (Hok : is_ok (@HUTformer.init demo_float demo_rng demo_fs (Z.of_nat 1)
                           (Z.of_nat (8 * 1)) (Z.of_nat 5) (Z.of_nat 1) "encoder"
                           None tt) = true) by (vm_compute; reflexivity).
    rewrite E in Hok. discriminate Hok.
Defined.

(** * Loading a checkpoint *)

Lemma load_param_loaded (sd : state_dict) (name : string) (p p' : param) :
  load_param sd name p = Ok p' -> loaded sd (name, p') (name, p).
Proof.
  unfold load_param, loaded. cbn [fst snd].
  destruct (sd_lookup name sd) as [tn|].
  - destruct (list_eqb (shape tn) (shape (p_data p))) eqn:E; [|discriminate].
    apply list_eqb_eq in E. intros [= <-]. cbn [requires_grad p_data].
    repeat split; [exact E|]. destruct tn; reflexivity.
  - intros [= <-]. repeat split.
Qed.

Lemma load_opt_param_loaded (sd : state_dict) (name : string) (p p' : option param) :
  load_opt_param sd name p = Ok p' ->
  Forall2 (loaded sd) (opt_named name p') (opt_named name p).
Proof.
  unfold load_opt_param. destruct p as [q|].
  - intros H. minv H. injection H as <-. cbn [opt_named].
    constructor; [apply load_param_loaded; assumption | constructor].
  - intros [= <-]. constructor.
Qed.

Lemma Linear_load_loaded (sd : state_dict) (prefix : string) (m m' : Linear.t) :
  Linear.load_state_dict sd prefix m = Ok m' ->
  Forall2 (loaded sd) (Linear.named_parameters prefix m')
    (Linear.named_parameters prefix m).
Proof.
  unfold Linear.load_state_dict. intros H. minv H. injection H as <-.
  unfold Linear.named_parameters. cbn [Linear.weight Linear.bias].
  constructor; [apply load_param_loaded; assumption|].
  apply load_opt_param_loaded; assumption.
Qed.

Lemma LayerNorm_load_loaded (sd : state_dict) (prefix : string) (m m' : LayerNorm.t) :
  LayerNorm.load_state_dict sd prefix m = Ok m' ->
  Forall2 (loaded sd) (LayerNorm.named_parameters prefix m')
    (LayerNorm.named_parameters prefix m).
Proof.
  unfold LayerNorm.load_state_dict. intros H. minv H. injection H as <-.
  unfold LayerNorm.named_parameters. cbn [LayerNorm.weight LayerNorm.bias].
  constructor; [apply load_param_loaded; assumption|].
  constructor; [apply load_param_loaded; assumption | constructor].
Qed.

Lemma SegmentMerging_load_loaded (sd : state_dict) (prefix : string)
    (m m' : SegmentMerging.t) :
  SegmentMerging.load_state_dict sd prefix m = Ok m' ->
  Forall2 (loaded sd) (SegmentMerging.named_parameters prefix m')
    (SegmentMerging.named_parameters prefix m).
Proof.
  unfold SegmentMerging.load_state_dict. intros H. minv H. injection H as <-.
  unfold SegmentMerging.named_parameters. cbn [SegmentMerging.norm].
  apply LayerNorm_load_loaded; assumption.
Qed.

Lemma WindowAttention_load_loaded (sd : state_dict) (prefix : string)
    (m m' : WindowAttention.t) :
  WindowAttention.load_state_dict sd prefix m = Ok m' ->
  Forall2 (loaded sd) (WindowAttention.named_parameters prefix m')
    (WindowAttention.named_parameters prefix m).
Proof.
  unfold WindowAttention.load_state_dict. intros H. minv H. injection H as <-.
  unfold WindowAttention.named_parameters.
  cbn [WindowAttention.logit_scale WindowAttention.q_bias WindowAttention.v_bias
       WindowAttention.cpb_mlp_0 WindowAttention.cpb_mlp_2 WindowAttention.qkv
       WindowAttention.proj].
  constructor; [apply load_param_loaded; assumption|].
  repeat apply Forall2_app;
    first [apply load_opt_param_loaded; assumption
          | apply Linear_load_loaded; assumption].
Qed.

Lemma encoder_load_loaded (sd : state_dict) (m m' : HUTformer.t) :
  HUTformer.load_state_dict sd m = Ok m' ->
  Forall2 (loaded sd) (HUTformer.encoder_named_parameters m')
    (HUTformer.encoder_named_parameters m).
Proof.
  unfold HUTformer.load_state_dict. intros H. minv H. injection H as <-.
  unfold HUTformer.encoder_named_parameters.
  cbn [HUTformer.SE HUTformer.embedding HUTformer.STPE HUTformer.encoder_1
       HUTformer.encoder_2_0 HUTformer.encoder_2_1 HUTformer.encoder_3_0
       HUTformer.encoder_3_1 HUTformer.encoder_project].
  constructor; [apply load_param_loaded; assumption|].
  repeat apply Forall2_app;
    first [apply Linear_load_loaded; assumption
          | apply WindowAttention_load_loaded; assumption
          | apply SegmentMerging_load_loaded; assumption].
Qed.

Lemma loaded_freeze (sd : state_dict) (l' l : list (string * param)) :
  Forall2 (loaded sd) l' l ->
  Forall2 (loaded sd) (apply_named HUTformer.freeze l') (apply_named HUTformer.freeze l).
Proof.
  intros H. induction H as [|[n' p'] [n p] l' l (Hn & Hg & Hd) _ IH];
    [constructor|].
  cbn [apply_named map fst snd] in *. constructor; [|exact IH].
  subst n'. unfold loaded. cbn [fst snd]. rewrite !freeze_keeps_data.
  split; [reflexivity|]. split; [|exact Hd].
  unfold HUTformer.freeze. destruct (negb (contains "decoder" n)); [reflexivity|].
  exact Hg.
Qed.

Lemma Forall2_In_right {A B : Type} (R : A -> B -> Prop) (l' : list A) (l : list B)
    (y : B) :
  Forall2 R l' l -> In y l -> exists x, In x l' /\ R x y.
Proof.
  intros H. induction H as [|x y0 l' l Hxy _ IH]; intros Hin; [contradiction|].
  destruct Hin as [<- | Hin].
  - exists x. split; [left; reflexivity | exact Hxy].
  - destruct (IH Hin) as (x' & Hx' & HR). exists x'. split; [right; exact Hx' | exact HR].
Qed.

Lemma bindR_Raise_inv {A B : Type} (c : result A) (k : A -> result B) (e : exn) :
  bindR c k = Raise e -> c = Raise e \/ exists a, c = Ok a /\ k a = Raise e.
Proof.
  destruct c as [a|e']; cbn [bindR]; intros H; [right; eauto|].
  left. congruence.
Qed.

Lemma load_param_raises (sd : state_dict) (name : string) (p : param) (e : exn) :
  load_param sd name p = Raise e -> e = RuntimeError.
Proof.
  unfold load_param. destruct (sd_lookup name sd) as [tn|]; [|discriminate].
  destruct (list_eqb _ _); [discriminate | congruence].
Qed.

Lemma load_opt_param_raises (sd : state_dict) (name : string) (p : option param)
    (e : exn) :
  load_opt_param sd name p = Raise e -> e = RuntimeError.
Proof.
  unfold load_opt_param. destruct p as [q|]; [|discriminate].
  destruct (load_param sd name q) eqn:E; [discriminate|].
  cbn [bindR]. intros [= <-]. apply load_param_raises in E. exact E.
Qed.

Lemma load_buffer_raises (sd : state_dict) (name : string) (b : tensor Q) (e : exn) :
  load_buffer sd name b = Raise e -> e = RuntimeError.
Proof.
  unfold load_buffer. destruct (sd_lookup name sd) as [tn|]; [|discriminate].
  destruct (list_eqb _ _); [discriminate | congruence].
Qed.

Lemma load_int_buffer_raises (sd : state_dict) (name : string) (b : tensor Z)
    (e : exn) :
  load_int_buffer sd name b = Raise e -> e = RuntimeError.
Proof.
  unfold load_int_buffer. destruct (sd_lookup name sd) as [tn|]; [|discriminate].
  destruct (list_eqb _ _); [discriminate | congruence].
Qed.

Ltac raise_inv H :=
  repeat
    (apply bindR_Raise_inv in H;
     destruct H as [H | (? & _ & H)];
     [first [apply load_param_raises in H; exact H
            | apply load_opt_param_raises in H; exact H
            | apply load_buffer_raises in H; exact H
            | apply load_int_buffer_raises in H; exact H
            | idtac] | ]);
  try discriminate H.

Lemma Linear_load_raises (sd : state_dict) (prefix : string) (m : Linear.t) (e : exn) :
  Linear.load_state_dict sd prefix m = Raise e -> e = RuntimeError.
Proof. unfold Linear.load_state_dict. intros H. raise_inv H. Qed.

Lemma LayerNorm_load_raises (sd : state_dict) (prefix : string) (m : LayerNorm.t)
    (e : exn) :
  LayerNorm.load_state_dict sd prefix m = Raise e -> e = RuntimeError.
Proof. unfold LayerNorm.load_state_dict. intros H. raise_inv H. Qed.

Lemma WindowAttention_load_raises (sd : state_dict) (prefix : string)
    (m : WindowAttention.t) (e : exn) :
  WindowAttention.load_state_dict sd prefix m = Raise e -> e = RuntimeError.
Proof. unfold WindowAttention.load_state_dict. intros H. raise_inv H. Qed.

Lemma encoder_load_raises (sd : state_dict) (m : HUTformer.t) (e : exn) :
  HUTformer.decoder m = None ->
  HUTformer.load_state_dict sd m = Raise e -> e = RuntimeError.
Proof.
  intros Hd. unfold HUTformer.load_state_dict. rewrite Hd. intros H. raise_inv H.
Qed.

Section CheckpointFacts.
Context {F : FloatOps} {G : RandomGen} {FS : FileSystem}.

(** Both constructions of a decoder-mode model, side by side. *)
Lemma init_decoder_mode_inv (N lh lp t : Z) (pre_train : option string) (g g' : rng)
    (m : HUTformer.t) :
  HUTformer.init N lh lp t "decoder" pre_train g = Ok (m, g') ->
  exists m1 g1 m2 d,
    HUTformer.init_encoder N lh lp t "decoder" g = Ok (m1, g1)
    /\ match pre_train with
       | None => Ok m1
       | Some path => let? sd := torch_load path in HUTformer.load_state_dict sd m1
       end = Ok m2
    /\ HUTformer.init_decoder m2 g1 = Ok (d, g')
    /\ m = HUTformer.map_parameters HUTformer.freeze (HUTformer.with_decoder m2 d).
Proof.
  intros H. unfold HUTformer.init in H.
  apply bind_Ok_inv in H. destruct H as (m1 & g1 & Hm1 & H).
  change (String.eqb "decoder" "encoder") with false in H.
  change (String.eqb "decoder" "decoder") with true in H.
  cbv iota in H. minv H.
  exists m1, g1, a, a0. repeat split; assumption.
Qed.

(** X23.  What the checkpoint does to a decoder-mode model.  Compared with
    the model the same call builds without checkpoint, every encoder
    parameter keeps its name and is frozen alike; its value is the
    checkpoint's entry under its name when there is one, which then has the
    shape of the parameter, and the freshly initialised value otherwise. *)
Theorem checkpoint_loads_encoder (N lh lp t : Z) (path : string) (sd : state_dict)
    (g g' : rng) (m : HUTformer.t) :
  torch_load path = Ok sd ->
  HUTformer.init N lh lp t "decoder" (Some path) g = Ok (m, g') ->
  exists m0,
    HUTformer.init N lh lp t "decoder" None g = Ok (m0, g')
    /\ Forall2 (loaded sd) (HUTformer.encoder_named_parameters m)
         (HUTformer.encoder_named_parameters m0).
Proof.
  intros Hsd H.
  apply init_decoder_mode_inv in H.
  destruct H as (m1 & g1 & m2 & d & Hm1 & Hload & Hd & ->).
  rewrite Hsd in Hload. cbn [bindR] in Hload.
  pose proof (load_state_dict_fields sd m1 m2 Hload) as (H1 & H2 & H3 & H4 & H5).
  rewrite (init_decoder_fields m1 m2 g1 H1 H2 H3 H4 H5) in Hd.
  exists (HUTformer.map_parameters HUTformer.freeze (HUTformer.with_decoder m1 d)).
  split.
  - unfold HUTformer.init. rewrite (bind_Ok _ _ _ _ _ Hm1).
    change (String.eqb "decoder" "encoder") with false.
    change (String.eqb "decoder" "decoder") with true. cbv iota.
    rewrite bind_lift_now, (bind_Ok _ _ _ _ _ Hd). reflexivity.
  - rewrite !encoder_named_map.
    apply loaded_freeze. apply (encoder_load_loaded sd m1 m2 Hload).
Qed.

(** X24.  [strict=False] forgives missing and unexpected keys, not shapes:
    when the checkpoint has an entry under the name of an encoder parameter
    whose shape is not that of the parameter, the construction in mode
    'decoder' raises [RuntimeError]. *)
Theorem checkpoint_shape_mismatch (N lh lp t : Z) (path : string) (sd : state_dict)
    (g g0 : rng) (m0 : HUTformer.t) (name : string) (para : param) (tn : tensor Q) :
  torch_load path = Ok sd ->
  HUTformer.init N lh lp t "decoder" None g = Ok (m0, g0) ->
  In (name, para) (HUTformer.encoder_named_parameters m0) ->
  sd_lookup name sd = Some tn ->
  shape tn <> shape (p_data para) ->
  HUTformer.init N lh lp t "decoder" (Some path) g = Raise RuntimeError.
Proof.
  intros Hsd H0 Hin Hlook Hshape.
  apply init_decoder_mode_inv in H0.
  destruct H0 as (m1 & g1 & m2 & d & Hm1 & Hm2 & Hd & ->).
  injection Hm2 as <-.
  rewrite encoder_named_map in Hin.
  apply in_map_iff in Hin. destruct Hin as ([n1 p1] & [= <- <-] & Hin).
  cbn [fst snd] in *. rewrite freeze_keeps_data in Hshape.
  change (HUTformer.encoder_named_parameters (HUTformer.with_decoder m1 d))
    with (HUTformer.encoder_named_parameters m1) in Hin.
  unfold HUTformer.init. rewrite (bind_Ok _ _ _ _ _ Hm1).
  change (String.eqb "decoder" "encoder") with false. cbv iota.
  apply bind_lift_Raise. rewrite Hsd. cbn [bindR].
  destruct (HUTformer.load_state_dict sd m1) as [m2|e] eqn:El.
  - exfalso. apply encoder_load_loaded in El.
    destruct (Forall2_In_right _ _ _ _ El Hin) as (np' & _ & _ & _ & Hl).
    cbn [fst snd] in Hl. rewrite Hlook in Hl. destruct Hl as [Hs _].
    contradiction.
  - f_equal. apply (encoder_load_raises sd m1 e); [|exact El].
    apply (init_encoder_grad _ _ _ _ _ _ _ _ Hm1).
Qed.

End CheckpointFacts.

Lemma checkpoint_loads_encoder_witness :
  match @HUTformer.init demo_float demo_rng demo_fs_checkpoint 1 8 8 1 "decoder"
          (Some "encoder.pt"%string) tt with
  | Ok (m, g') =>
      exists m0,
        @HUTformer.init demo_float demo_rng demo_fs_checkpoint 1 8 8 1 "decoder" None tt
        = Ok (m0, g')
        /\ Forall2 (loaded demo_checkpoint) (HUTformer.encoder_named_parameters m)
             (HUTformer.encoder_named_parameters m0)
  | Raise _ => False
  end.
Proof.
  destruct (@HUTformer.init demo_float demo_rng demo_fs_checkpoint 1 8 8 1 "decoder"
              (Some "encoder.pt"%string) tt) as [[m g1]|e] eqn:E.
  - apply (@checkpoint_loads_encoder demo_float demo_rng demo_fs_checkpoint
             1 8 8 1 "encoder.pt" demo_checkpoint tt g1 m eq_refl E).
  - assert (Hok : is_ok (@HUTformer.init demo_float demo_rng demo_fs_checkpoint 1 8 8 1
                           "decoder" (Some "encoder.pt"%string) tt) = true)
      by (vm_compute; reflexivity).
    rewrite E in Hok. discriminate Hok.
Defined.

Lemma checkpoint_shape_mismatch_witness :
  match @HUTformer.init demo_float demo_rng demo_fs_checkpoint (Z.of_nat 2)
          (Z.of_nat (8 * 1 * 1)) (Z.of_nat 8) (Z.of_nat 1) "decoder" None tt with
  | Ok _ =>
      @HUTformer.init demo_float demo_rng demo_fs_checkpoint (Z.of_nat 2)
        (Z.of_nat (8 * 1 * 1)) (Z.of_nat 8) (Z.of_nat 1) "decoder"
        (Some "encoder.pt"%string) tt = Raise RuntimeError
  | Raise _ => False
  end.
Proof.
  destruct (@HUTformer.init demo_float demo_rng demo_fs_checkpoint (Z.of_nat 2)
              (Z.of_nat (8 * 1 * 1)) (Z.of_nat 8) (Z.of_nat 1) "decoder" None tt)
    as [[m0 g0]|e] eqn:E.
  - pose proof (@init_inv demo_float demo_rng demo_fs_checkpoint 2 1 1 8 "decoder" tt g0
                  m0 ltac:(lia) ltac:(lia) E) as (Hwf & _).
    destruct Hwf as (_ & _ & Hse & _).
    apply (@checkpoint_shape_mismatch demo_float demo_rng demo_fs_checkpoint _ _ _ _
             "encoder.pt" demo_checkpoint tt g0 m0 "SE" (HUTformer.SE m0)
             (full [1; 16] (1 # 2)%Q) eq_refl E).
    + left. reflexivity.
    + reflexivity.
    + rewrite Hse. discriminate.
  - assert (Hok : is_ok (@HUTformer.init demo_float demo_rng demo_fs_checkpoint
                           (Z.of_nat 2) (Z.of_nat (8 * 1 * 1)) (Z.of_nat 8) (Z.of_nat 1)
                           "decoder" None tt) = true) by (vm_compute; reflexivity).
    rewrite E in Hok. discriminate Hok.
Defined.

(** * When a window attention can be constructed *)

Section WindowAttentionConstruction.
Context {F : FloatOps} {G : RandomGen} {L : FloatLaws F}.

(** X25.  When a window attention can be constructed: exactly when the
    channel width and the number of heads are not negative, both extents of
    the window are at least one ([torch.arange] refuses the coordinate range
    of an empty window) and both dropout ratios lie in [[0, 1]].  The bias
    flag and the pretrained window size have no say. *)
Theorem WindowAttention_construction_iff (dim nh : Z) (ws : Z * Z) (qkv_bias : bool)
    (ad pd : Q) (pws : Z * Z) (g : rng) :
  (exists m g', WindowAttention.init dim ws nh qkv_bias ad pd pws g = Ok (m, g'))
  <-> ((0 <= dim)%Z /\ (0 <= nh)%Z /\ (1 <= fst ws)%Z /\ (1 <= snd ws)%Z
       /\ (0 <= ad)%Q /\ (ad <= 1)%Q /\ (0 <= pd)%Q /\ (pd <= 1)%Q).
Proof.
  split.
  - intros (m & g' & H).
    pose proof (WindowAttention_init_window _ _ _ _ _ _ _ _ _ _ H) as [Hh Hw].
    unfold WindowAttention.init in H. minv H.
    apply to_dim_inv in Hstep. destruct Hstep as [Hnh _].
    apply to_dim_inv in Hstep5. destruct Hstep5 as [Hdim _].
    unfold Dropout.init in Hstep6, Hstep8.
    destruct (Qle_bool 0 ad && Qle_bool ad 1) eqn:Ea; [|discriminate].
    destruct (Qle_bool 0 pd && Qle_bool pd 1) eqn:Ep; [|discriminate].
    apply andb_true_iff in Ea, Ep. destruct Ea as [Ea0 Ea1]. destruct Ep as [Ep0 Ep1].
    apply Qle_bool_iff in Ea0, Ea1, Ep0, Ep1. tauto.
  - intros (Hd & Hn & Hh & Hw & Ha0 & Ha1 & Hp0 & Hp1).
    destruct ws as [wh ww]. cbn [fst snd] in Hh, Hw.
    unfold WindowAttention.init.
    rewrite (bind_lift_Ok _ _ _ _ (to_dim_ok nh Hn)).
    run_pure (Linear_init_ok 2 512 true g ltac:(lia) ltac:(lia)).
    run_pure (Linear_init_ok 512 nh false g0 ltac:(lia) Hn).
    destruct (make_relative_coords_table_ok (Z.to_nat wh) (Z.to_nat ww) pws)
      as (tb & Etb & _); try lia.
    rewrite !Z2Nat.id in Etb by lia.
    rewrite (bind_lift_Ok _ _ _ _ Etb).
    destruct (make_relative_position_index_range (Z.to_nat wh) (Z.to_nat ww))
      as (ti & Eti & _).
    rewrite !Z2Nat.id in Eti by lia.
    rewrite (bind_lift_Ok _ _ _ _ Eti).
    run_pure (Linear_init_ok dim (dim * 3) false g1 Hd ltac:(lia)).
    rewrite (bind_lift_Ok _ _ _ _ (to_dim_ok dim Hd)).
    apply Qle_bool_iff in Ha0, Ha1, Hp0, Hp1.
    unfold Dropout.init. rewrite Ha0, Ha1, Hp0, Hp1. cbn [andb].
    rewrite bind_lift_now.
    run_pure (Linear_init_ok dim dim true g2 Hd Hd).
    rewrite bind_lift_now.
    eexists. eexists. reflexivity.
Qed.

End WindowAttentionConstruction.

Lemma WindowAttention_construction_iff_witness :
  exists m g',
    @WindowAttention.init demo_float demo_rng 64 (2, 12)%Z 8 false 0 1 (3, 3)%Z tt
    = Ok (m, g').
Proof.
  apply (proj2 (@WindowAttention_construction_iff demo_float demo_rng demo_float_laws
                  64 8 (2, 12)%Z false 0 1 (3, 3)%Z tt)).
  cbn [fst snd]. repeat split; discriminate.
Defined.

(** * Evaluation mode *)

Section EvalMode.
Context {F : FloatOps} {G : RandomGen}.

Lemma bind_dropout_eval {B : Type} (d : Dropout.t) (x : tensor Q)
    (k : tensor Q -> M B) (g : rng) :
  Dropout.training d = false ->
  bind (Dropout.forward d x) k g = k x g.
Proof. intros H. unfold bind, Dropout.forward. rewrite H. reflexivity. Qed.

Lemma Dropout_eval_inv (d : Dropout.t) (x y : tensor Q) (g g' : rng) :
  Dropout.training d = false ->
  Dropout.forward d x g = Ok (y, g') -> y = x /\ g' = g.
Proof.
  intros H. unfold Dropout.forward. rewrite H. intros [= <- <-]. auto.
Qed.

Ltac dropout_inv :=
  repeat match goal with
         | H : Dropout.forward _ _ _ = Ok _ |- _ =>
             apply Dropout_eval_inv in H; [destruct H as [-> ->] | assumption]
         end.

Ltac rerun :=
  repeat
    (first [ match goal with
             | H : ?c = Ok _ |- bind (lift ?c) _ _ = _ =>
                 rewrite (bind_lift_Ok _ _ _ _ H)
             end
           | rewrite bind_dropout_eval by assumption ];
     cbv beta).

Lemma WindowAttention_eval_run (m : WindowAttention.t) (x : tensor Q)
    (mask : option (tensor Q)) (g g' : rng) (y : tensor Q) :
  Dropout.training (WindowAttention.attn_drop m) = false ->
  Dropout.training (WindowAttention.proj_drop m) = false ->
  WindowAttention.forward m x mask g = Ok (y, g') ->
  g' = g /\ forall g2, WindowAttention.forward m x mask g2 = Ok (y, g2).
Proof.
  intros Ha Hp. unfold WindowAttention.forward.
  destruct (shape x) as [|B_ [|N [|C [|]]]]; try discriminate.
  intros H. minv H. dropout_inv.
  split; [reflexivity|]. intros g2. rerun.
  unfold Dropout.forward. rewrite Hp. reflexivity.
Qed.

Lemma FullAttention_eval_run (m : FullAttention.t) (q k v : tensor Q) (g g' : rng)
    (y : tensor Q) :
  Dropout.training (FullAttention.dropout m) = false ->
  FullAttention.forward m q k v g = Ok (y, g') ->
  g' = g /\ forall g2, FullAttention.forward m q k v g2 = Ok (y, g2).
Proof.
  intros Hd. unfold FullAttention.forward, FullAttention.attention_weights.
  destruct (shape q) as [|B [|L [|H [|E [|]]]]]; try discriminate.
  destruct (shape v) as [|B' [|S_ [|H' [|D [|]]]]]; try discriminate.
  intros H0. minv H0. minv Hstep. dropout_inv.
  split; [reflexivity|]. intros g2.
  match goal with
  | |- bind ?c _ g2 = _ =>
      assert (Hin : c g2 = Ok (softmax (map_t (fun v : Q =>
                                   (FullAttention.effective_scale m E * v)%Q) a2), g2))
        by (rerun; unfold Dropout.forward; rewrite Hd; reflexivity)
  end.
  rewrite (bind_Ok _ _ _ _ _ Hin). rerun. reflexivity.
Qed.

Ltac layer_inv :=
  repeat match goal with
         | H : WindowAttention.forward _ _ _ _ = Ok _ |- _ =>
             apply WindowAttention_eval_run in H;
             [destruct H as [-> H] | reflexivity | reflexivity]
         | H : FullAttention.forward _ _ _ _ _ = Ok _ |- _ =>
             apply FullAttention_eval_run in H;
             [destruct H as [-> H] | assumption]
         end.

Ltac rerun_layers :=
  repeat
    (first [ match goal with
             | H : ?c = Ok _ |- bind (lift ?c) _ _ = _ =>
                 rewrite (bind_lift_Ok _ _ _ _ H)
             | H : forall g2, ?c g2 = Ok (_, g2) |- bind ?c _ ?g = _ =>
                 rewrite (bind_Ok _ _ _ _ _ (H g))
             end ];
     cbv beta).

Lemma AttentionLayer_eval_run (m : AttentionLayer.t) (x : tensor Q * tensor Q * tensor Q)
    (g g' : rng) (y : tensor Q) :
  Dropout.training (FullAttention.dropout (AttentionLayer.inner_attention m)) = false ->
  AttentionLayer.forward m x g = Ok (y, g') ->
  g' = g /\ forall g2, AttentionLayer.forward m x g2 = Ok (y, g2).
Proof.
  intros Hd. unfold AttentionLayer.forward. destruct x as [[q k] v].
  destruct (shape q) as [|B [|L [|D [|]]]]; try discriminate.
  destruct (shape k) as [|B' [|S_ [|D' [|]]]]; try discriminate.
  intros H. minv H. layer_inv. apply lift_Ok_inv in H. destruct H as [H ->].
  split; [reflexivity|]. intros g2. rerun_layers.
  unfold lift. rewrite H. reflexivity.
Qed.

Ltac model_inv :=
  repeat match goal with
         | H : WindowAttention.forward _ _ _ _ = Ok _ |- _ =>
             apply WindowAttention_eval_run in H;
             [destruct H as [-> H] | reflexivity | reflexivity]
         | H : AttentionLayer.forward _ _ _ = Ok _ |- _ =>
             apply AttentionLayer_eval_run in H;
             [destruct H as [-> H] | reflexivity]
         end.

Lemma encode_eval_run (m : HUTformer.t) (B N : nat) (history : tensor Q) (g g' : rng)
    (r : tensor Q * tensor Q * tensor Q) :
  HUTformer.encode (HUTformer.train false m) B N history g = Ok (r, g') ->
  g' = g
  /\ forall g2, HUTformer.encode (HUTformer.train false m) B N history g2 = Ok (r, g2).
Proof.
  unfold HUTformer.encode. intros H. minv H. model_inv.
  split; [reflexivity|]. intros g2. rerun_layers. reflexivity.
Qed.

Lemma decode_eval_run (m : HUTformer.t) (d : HUTformer.decoder_t) (B N : nat)
    (H_1 H_2 pe future : tensor Q) (g g' : rng) (y : tensor Q) :
  HUTformer.decode (HUTformer.train false m) (HUTformer.decoder_train false d) B N
    H_1 H_2 pe future g = Ok (y, g') ->
  g' = g
  /\ forall g2,
       HUTformer.decode (HUTformer.train false m) (HUTformer.decoder_train false d) B N
         H_1 H_2 pe future g2 = Ok (y, g2).
Proof.
  unfold HUTformer.decode. intros H. minv H. model_inv.
  apply lift_Ok_inv in H. destruct H as [H ->].
  split; [reflexivity|]. intros g2. rerun_layers.
  unfold lift. rewrite H. reflexivity.
Qed.

(** X26.  After [model.eval()] the forward pass draws no random number:
    when it returns, the generator is in the state it was called in, and
    the call returns the same prediction from any other generator state,
    whatever the [train] argument is.  Randomness enters [forward] through
    the dropout layers only. *)
Theorem eval_forward_is_deterministic (m : HUTformer.t) (history future : tensor Q)
    (batch_seen epoch : Z) (train : bool) (kwargs : list (string * Z)) (g g' : rng)
    (y : tensor Q) :
  HUTformer.forward (HUTformer.train false m) history future batch_seen epoch train
    kwargs g = Ok (y, g') ->
  g' = g
  /\ forall g2,
       HUTformer.forward (HUTformer.train false m) history future batch_seen epoch
         train kwargs g2 = Ok (y, g2).
Proof.
  unfold HUTformer.forward.
  destruct (shape history) as [|B [|L [|N [|C [|]]]]]; try discriminate.
  intros H. apply bind_Ok_inv in H. destruct H as (r & g1 & Henc & H).
  apply encode_eval_run in Henc. destruct Henc as [-> Henc].
  destruct r as [[H_1 H_2] pe].
  assert (Hrest :
            g' = g
            /\ forall g2,
                 (if String.eqb (HUTformer.mode (HUTformer.train false m)) "encoder"
                  then p <~ permute [0; 2; 1] pe ;; lift (unsqueeze (-1) p)
                  else match HUTformer.decoder (HUTformer.train false m) with
                       | None => lift (Raise AttributeError)
                       | Some d =>
                           HUTformer.decode (HUTformer.train false m) d B N H_1 H_2 pe
                             future
                       end) g2 = Ok (y, g2)).
  { destruct (String.eqb (HUTformer.mode (HUTformer.train false m)) "encoder").
    - minv H. apply lift_Ok_inv in H. destruct H as [H ->].
      split; [reflexivity|]. intros g2. rerun_layers. unfold lift. rewrite H.
      reflexivity.
    - cbn [HUTformer.train HUTformer.decoder] in *.
      destruct (HUTformer.decoder m) as [d|]; cbn [option_map] in *; [|discriminate].
      apply decode_eval_run in H. exact H. }
  destruct Hrest as [-> Hrest]. split; [reflexivity|]. intros g2.
  rewrite (bind_Ok _ _ _ _ _ (Henc g2)). apply Hrest.
Qed.

End EvalMode.

Lemma eval_forward_is_deterministic_witness :
  match @HUTformer.init demo_float demo_rng demo_fs (Z.of_nat 1) (Z.of_nat (8 * 1 * 1))
          (Z.of_nat 5) (Z.of_nat 1) "encoder" None tt with
  | Ok (m, _) =>
      exists y,
        forall g2,
          @HUTformer.forward demo_float demo_rng (HUTformer.train false m)
            (full [1; 8 * 1 * 1; 1; 3] 0%Q) (full [1; 5; 1; 3] 0%Q) 0 0 true [] g2
          = Ok (y, g2)
  | Raise _ => False
  end.
Proof.
  destruct (@HUTformer.init demo_float demo_rng demo_fs (Z.of_nat 1)
              (Z.of_nat (8 * 1 * 1)) (Z.of_nat 5) (Z.of_nat 1) "encoder" None tt)
    as [[m g1]|e] eqn:E.
  - pose proof (@init_inv demo_float demo_rng demo_fs 1 1 1 5 "encoder" tt g1 m
                  ltac:(lia) ltac:(lia) E) as (Hwf & Hmode & _).
    destruct (@forward_run demo_float demo_rng (HUTformer.train false m) 1 1 1 5 1
                (full [1; 8 * 1 * 1; 1; 3] 0%Q) (full [1; 5; 1; 3] 0%Q) 0 0 true [] tt
                Hwf (or_introl Hmode) ltac:(lia) ltac:(lia) ltac:(lia) ltac:(lia)
                eq_refl eq_refl) as (y & g' & Ey & _).
    exists y.
    apply (@eval_forward_is_deterministic demo_float demo_rng m _ _ 0 0 true [] tt g'
             y Ey).
  - assert (Hok : is_ok (@HUTformer.init demo_float demo_rng demo_fs (Z.of_nat 1)
                           (Z.of_nat (8 * 1 * 1)) (Z.of_nat 5) (Z.of_nat 1) "encoder"
                           None tt) = true) by (vm_compute; reflexivity).
    rewrite E in Hok. discriminate Hok.
Defined.

(** * The number of nodes *)

Section NodeCount.
Context {F : FloatOps} {G : RandomGen} {FS : FileSystem}.

Lemma cat_last_lead_mismatch {A : Type} `{Zero A} (x1 x2 x3 : tensor A)
    (lead1 lead2 : list nat) (w1 w2 : nat) :
  shape x1 = lead1 ++ [w1] -> shape x2 = lead2 ++ [w2] -> lead1 <> lead2 ->
  cat_last [x1; x2; x3] = Raise RuntimeError.
Proof.
  intros H1 H2 Hne. unfold cat_last. cbn [forallb].
  rewrite H1, H2, !removelast_snoc.
  destruct (list_eqb lead2 lead1) eqn:E.
  - apply list_eqb_eq in E. congruence.
  - rewrite ?andb_false_r, ?andb_false_l, ?andb_false_r. reflexivity.
Qed.

Lemma embed_bad_nodes (m : HUTformer.t) (n t p B N L C : nat) (series aux : tensor Q) :
  HUTformer.len_patch m = Z.of_nat t ->
  HUTformer.embed_dim m = 64%Z ->
  shape (p_data (HUTformer.SE m)) = [n; 16] ->
  wf_Linear t 64 (HUTformer.embedding m) ->
  0 < B -> 0 < N -> 0 < t -> 0 < L ->
  N <> n ->
  shape series = [B; N; p * t] ->
  shape aux = [B; L; N; C] ->
  HUTformer.embed m B N series aux = Raise RuntimeError.
Proof.
  intros Hlp Hed Hse Hemb HB HN Ht HL Hne Hs Ha.
  unfold HUTformer.embed. rewrite Hlp, Hed.
  step_with (rearrange_patches_ok t p series B N Ht Hs).
  step_with (Linear_forward_ok (HUTformer.embedding m) t0 [B; N; p] t 64 Hemb S).
  change [Z.of_nat B; Z.of_nat N; (-1)%Z]
    with (map Z.of_nat [B; N] ++ (-1)%Z :: map Z.of_nat []).
  destruct (reshape_minus1 t1 _ [B; N] [] (p * 64) S0) as (t2 & E2 & S2 & _).
  { cbn. nia. }
  { cbn. nia. }
  rewrite E2. cbn [bindR]. cbn [app] in S2.
  step_with (repeat_batch_ok B n 16 (p_data (HUTformer.SE m)) Hse).
  step_with (select_ok 1 (-1) aux _ L (L - 1) Ha eq_refl (norm_index_m1 L HL)).
  cbn [remove_at firstn skipn app] in S3.
  step_with (slice_from_ok 2 1 t4 _ C S3 eq_refl).
  rewrite (cat_last_lead_mismatch t2 t3 t5 [B; N] [B; n] (p * 64) 16 S2 S1)
    by congruence.
  reflexivity.
Qed.

(** X27.  A model is tied to the number of nodes it was constructed for:
    on a history with another (positive) number of nodes the patch
    embedding cannot be concatenated with the spatial embedding [SE], and
    [forward] raises [RuntimeError]. *)
Theorem forward_rejects_other_node_count (n P t lp B N C : nat) (mode : string)
    (m : HUTformer.t) (history future : tensor Q) (batch_seen epoch : Z)
    (train : bool) (kwargs : list (string * Z)) (g0 g1 g : rng) :
  HUTformer.init (Z.of_nat n) (Z.of_nat (P * t)) (Z.of_nat lp) (Z.of_nat t)
    mode None g0 = Ok (m, g1) ->
  0 < t -> 0 < B -> 0 < N -> 0 < C ->
  N <> n ->
  shape history = [B; P * t; N; C] ->
  HUTformer.forward m history future batch_seen epoch train kwargs g
  = Raise RuntimeError.
Proof.
  intros Hinit Ht HB HN HC Hne Hh.
  apply (init_patches n P t lp mode g0 g1 m Ht) in Hinit.
  destruct Hinit as [(Hlp & Hed & Hse & Hemb & _) HP].
  unfold HUTformer.forward. rewrite Hh. apply bind_Raise.
  unfold HUTformer.encode.
  step_with (select_ok 3 0 history _ C 0 Hh eq_refl (norm_index_nat 0 C HC)).
  cbn [remove_at firstn skipn app] in S.
  step_with (permute_ok [0; 2; 1] t0 _ S eq_refl).
  cbn [map nth] in S0.
  apply bind_lift_Raise.
  apply (embed_bad_nodes m n t P B N (P * t) C t1 history Hlp Hed Hse Hemb HB HN Ht
           ltac:(nia) Hne S0 Hh).
Qed.

End NodeCount.

Lemma forward_rejects_other_node_count_witness :
  match @HUTformer.init demo_float demo_rng demo_fs (Z.of_nat 1) (Z.of_nat (8 * 1))
          (Z.of_nat 5) (Z.of_nat 1) "encoder" None tt with
  | Ok (m, _) =>
      @HUTformer.forward demo_float demo_rng m (full [1; 8 * 1; 2; 3] 0%Q)
        (full [1; 5; 2; 3] 0%Q) 0 0 true [] tt = Raise RuntimeError
  | Raise _ => False
  end.
Proof.
  destruct (@HUTformer.init demo_float demo_rng demo_fs (Z.of_nat 1) (Z.of_nat (8 * 1))
              (Z.of_nat 5) (Z.of_nat 1) "encoder" None tt) as [[m g1]|e] eqn:E.
  - apply (@forward_rejects_other_node_count demo_float demo_rng demo_fs 1 8 1 5 1 2 3
             "encoder" m (full [1; 8 * 1; 2; 3] 0%Q) (full [1; 5; 2; 3] 0%Q) 0 0 true []
             tt g1 tt E); try lia; reflexivity.
  - assert (Hok : is_ok (@HUTformer.init demo_float demo_rng demo_fs (Z.of_nat 1)
                           (Z.of_nat (8 * 1)) (Z.of_nat 5) (Z.of_nat 1) "encoder"
                           None tt) = true) by (vm_compute; reflexivity).
    rewrite E in Hok. discriminate Hok.
Defined.
